(** * Mesa Fácil: call synchronisation and escalation engine

    A shallow embedding of the two variants of the data hook [useMockData]
    found in the repository, [src/hooks/useMockData.ts] (module [Hooks]) and
    [src/unnamed/part_002] (module [Part002]), and of the rule of section 4.1
    of the specification (module [Spec]), with the properties the
    specification states about them.

    Conventions.
    - Epoch timestamps ([Date.now()], [created_at_ts]) are integers in
      milliseconds; thresholds and counts of [Settings] are integers.
    - [(Date.now() - createdAt) / 1000] is the exact rational quotient.
    - JS [Map<string, _>] and objects used as dictionaries are [gmap string _].
    - The remote store is the record [Remote.t] of its rows; a supabase query
      is a function of the rows, a write gives the new rows.
    - A React closure reads the bindings of the render that created it, and
      the [set...] functions update the hook state: the bindings are the
      argument [render] of the embedded functions, the hook state is
      threaded through them. *)

From Stdlib Require Import ZArith QArith Lia.
From stdpp Require Import gmap strings list fin_maps pretty.

Local Open Scope Z_scope.

(** ** Data model

    Both hooks import their types from [types.ts], which is not among the
    sources. *)

(** Modelled from the spec: [CallStatus] of [types.ts]; section 3 gives the
    statuses SENT, VIEWED, ATTENDED and CANCELED, and the hooks compare the
    column with the texts ['SENT'] and ['VIEWED']. *)
Inductive CallStatus := SENT | VIEWED | ATTENDED | CANCELED.

#[global] Instance CallStatus_eq_dec : EqDecision CallStatus.
Proof. solve_decision. Defined.

(** Modelled from the spec: [CallType] of [types.ts], an enumeration (WAITER,
    BILL, ...) whose values travel as the text of the [type] column. *)
Definition CallType := string.

(** Modelled from the spec: [SemaphoreStatus] of [types.ts], section 3. *)
Inductive SemaphoreStatus := IDLE | GREEN | YELLOW | RED.

#[global] Instance SemaphoreStatus_eq_dec : EqDecision SemaphoreStatus.
Proof. solve_decision. Defined.

(** Modelled from the spec: [Call], [Table] and [Settings] of [types.ts], with
    the fields the hooks read and write. *)
Module Call.
Record t := mk { id : string; type : CallType; status : CallStatus; createdAt : Z }.
End Call.

Module Table.
Record t := mk { number : string; calls : list Call.t }.
End Table.

Module Settings.
Record t := mk {
  totalTables : Z;
  timeGreen : Z; timeYellow : Z;
  qtyGreen : Z; qtyYellow : Z }.
End Settings.

(** ** Helpers for the JavaScript idioms used by the calculators *)

(** [status === 'SENT' || status === 'VIEWED'] *)
Definition isActive (s : CallStatus) : bool :=
  bool_decide (s = SENT) || bool_decide (s = VIEWED).

(** [arr.reduce(f)] without an initial value; [None] stands for the
    [TypeError] on an empty array. *)
Definition reduce1 {A} (f : A -> A -> A) (l : list A) : option A :=
  match l with
  | [] => None
  | x :: rest => Some (fold_left f rest x)
  end.

(** [x > y] on numbers, here on rationals. *)
Definition Qgtb (x y : Q) : bool :=
  match (x ?= y)%Q with Gt => true | _ => false end.

(** [x <= y] on numbers. *)
Definition Qleb (x y : Q) : bool := negb (Qgtb x y).

(** [(Date.now() - call.createdAt) / 1000] *)
Definition elapsedSeconds (now : Z) (c : Call.t) : Q :=
  (inject_Z (now - Call.createdAt c) / inject_Z 1000)%Q.

(** ** Session and cache *)

(** Modelled from the spec: [Role] of [types.ts]; the hooks test for
    ESTABLISHMENT and CUSTOMER, the specification also knows an
    administrator. *)
Inductive Role := ESTABLISHMENT | CUSTOMER | ADMIN.

#[global] Instance Role_eq_dec : EqDecision Role.
Proof. solve_decision. Defined.

(** Modelled from the spec: [User], [Establishment] and [CustomerProfile] of
    [types.ts], with the fields the hooks read and write; the contact fields
    of a customer profile are not read by the functions embedded here. *)
Module User.
Record t := mk {
  id : string; email : string; role : Role; name : string;
  establishmentId : option string }.
End User.

Module Establishment.
Record t := mk {
  id : string; ownerId : string; name : string; phone : string;
  photoUrl : string; phrase : string;
  settings : Settings.t;
  tables : gmap string Table.t;
  eventLog : list string;
  isOpen : option bool }.
End Establishment.

Module CustomerProfile.
Record t := mk { userId : string; favoritedEstablishmentIds : list string }.
End CustomerProfile.

(** The [useState] cells of the hook. A value of this type is also what a
    closure sees: the bindings of the render in which it was created. *)
Module State.
Record t := mk {
  currentUser : option User.t;
  establishments : gmap string Establishment.t;
  customerProfiles : gmap string CustomerProfile.t;
  isUpdating : bool }.
End State.

Definition setCurrentUser (f : option User.t -> option User.t) (st : State.t) : State.t :=
  State.mk (f (State.currentUser st)) (State.establishments st)
           (State.customerProfiles st) (State.isUpdating st).

Definition setEstablishments
    (f : gmap string Establishment.t -> gmap string Establishment.t)
    (st : State.t) : State.t :=
  State.mk (State.currentUser st) (f (State.establishments st))
           (State.customerProfiles st) (State.isUpdating st).

Definition setIsUpdating (b : bool) (st : State.t) : State.t :=
  State.mk (State.currentUser st) (State.establishments st)
           (State.customerProfiles st) b.

(** ** The remote store

    Rows of the collections [calls], [establishments] and
    [customer_favorites] of section 6, with the columns the hooks select and
    update. *)

Module DBCall.
Record t := mk {
  id : string; establishment_id : string; table_number : string;
  type : CallType; status : CallStatus; created_at_ts : Z }.

(** [update({ status })] on one row *)
Definition withStatus (s : CallStatus) (c : t) : t :=
  mk (id c) (establishment_id c) (table_number c) (type c) s (created_at_ts c).
End DBCall.

Module DBEstablishment.
Record t := mk {
  id : string; owner_id : string; name : string; phone : string;
  photo_url : string; phrase : string; is_open : bool;
  settings : option Settings.t }.

(** [update({ is_open })] on one row *)
Definition withIsOpen (b : bool) (e : t) : t :=
  mk (id e) (owner_id e) (name e) (phone e) (photo_url e) (phrase e) b (settings e).

(** [update({ settings })] on one row *)
Definition withSettings (s : Settings.t) (e : t) : t :=
  mk (id e) (owner_id e) (name e) (phone e) (photo_url e) (phrase e) (is_open e) (Some s).
End DBEstablishment.

Module Remote.
Record t := mk {
  establishments : list DBEstablishment.t;
  calls : list DBCall.t;
  customer_favorites : list (string * string) }.

(** [from('calls').update(...)] with a row filter *)
Definition updateCalls (f : DBCall.t -> DBCall.t) (p : DBCall.t -> bool) (r : t) : t :=
  mk (establishments r) ((fun c => if p c then f c else c) <$> calls r)
     (customer_favorites r).

(** [from('establishments').update(...)] with a row filter *)
Definition updateEstablishments (f : DBEstablishment.t -> DBEstablishment.t)
    (p : DBEstablishment.t -> bool) (r : t) : t :=
  mk ((fun e => if p e then f e else e) <$> establishments r) (calls r)
     (customer_favorites r).

(** Modelled from the spec: the answer of the store to
    [from('customer_favorites').insert({user_id, establishment_id})]. The
    table schema is not among the sources; section 6 declares the pair
    [(user_id, establishment_id)] unique, so a second insert of a pair is
    answered with the unique-violation code 23505 and stores nothing. *)
Definition insertFavorite (user_id establishment_id : string) (r : t)
    : t * option string :=
  if bool_decide ((user_id, establishment_id) ∈ customer_favorites r)
  then (r, Some "23505")
  else (mk (establishments r) (calls r)
           (customer_favorites r ++ [(user_id, establishment_id)]), None).

(** [from('customer_favorites').select(...).eq('user_id', userId)] *)
Definition favoritesOf (userId : string) (r : t) : list (string * string) :=
  filter (fun f => f.1 = userId) (customer_favorites r).

(** [from('calls').insert(row)]; the store assigns the id of the row. *)
Definition insertCall (row : DBCall.t) (r : t) : t :=
  mk (establishments r) (calls r ++ [row]) (customer_favorites r).

(** [from('customer_favorites').delete().eq('user_id', u).eq('establishment_id', e)] *)
Definition deleteFavorite (user_id establishment_id : string) (r : t) : t :=
  mk (establishments r) (calls r)
     (filter (fun f => ~ (f.1 = user_id /\ f.2 = establishment_id)) (customer_favorites r)).
End Remote.

(** How the remote behaves during one call of a hook function: it answers
    ([Up]); it answers every request with an error code and no data
    ([Down]); it answers, but every request on the table [calls] with an
    error code and no data ([CallsDown]); or no request is answered at all
    and no write reaches the store ([Slow]): an awaited request then settles
    only where [withTimeout] wraps it. *)
Inductive Net := Up | Down (code : string) | CallsDown (code : string) | Slow.

(** What an awaited query gives: the promise rejects, or it resolves to
    [{ data, error }]. *)
Inductive Response (A : Type) :=
| Rejected
| Resolved (data : option A) (error : option string).
Arguments Rejected {A}.
Arguments Resolved {A} data error.

(** [.maybeSingle()] *)
Definition maybeSingle {A} (rows : list A) : Response A :=
  match rows with
  | [] => Resolved None None
  | [row] => Resolved (Some row) None
  | _ => Resolved None (Some "PGRST116")
  end.

(** [.order('created_at_ts', { ascending: true })], a stable insertion sort *)
Fixpoint insertByCreatedAt (c : DBCall.t) (rows : list DBCall.t) : list DBCall.t :=
  match rows with
  | [] => [c]
  | x :: rest =>
      if bool_decide (DBCall.created_at_ts c <= DBCall.created_at_ts x)
      then c :: x :: rest
      else x :: insertByCreatedAt c rest
  end.

Definition orderByCreatedAt (rows : list DBCall.t) : list DBCall.t :=
  foldr insertByCreatedAt [] rows.

(** The query shared by [attendOldestCallByType] and [cancelOldestCallByType]
    in both hooks:
    [.eq('establishment_id', e).eq('table_number', t).eq('type', ty)
     .in('status', ['SENT', 'VIEWED']).order('created_at_ts', {ascending: true}).limit(1)] *)
Definition matchesActive (estId tableNum : string) (type : CallType) (c : DBCall.t) : Prop :=
  DBCall.establishment_id c = estId /\ DBCall.table_number c = tableNum
  /\ DBCall.type c = type /\ (DBCall.status c = SENT \/ DBCall.status c = VIEWED).

#[global] Instance matchesActive_dec estId tableNum type c :
  Decision (matchesActive estId tableNum type c).
Proof. unfold matchesActive. apply _. Defined.

Definition selectOldestActive (estId tableNum : string) (type : CallType)
    (r : Remote.t) : list DBCall.t :=
  take 1 (orderByCreatedAt (filter (matchesActive estId tableNum type) (Remote.calls r))).

(** [forEach] body that files a fetched call under its table:
    [existing = tablesMap.get(n) || { number: n, calls: [] };
     existing.calls.push({...}); tablesMap.set(n, existing)] *)
Definition pushCall (tablesMap : gmap string Table.t) (c : DBCall.t)
    : gmap string Table.t :=
  let existing := default (Table.mk (DBCall.table_number c) [])
                          (tablesMap !! DBCall.table_number c) in
  <[DBCall.table_number c :=
      Table.mk (Table.number existing)
               (Table.calls existing
                ++ [Call.mk (DBCall.id c) (DBCall.type c) (DBCall.status c)
                            (DBCall.created_at_ts c)])]> tablesMap.

(** Loop body [if (!tablesMap.has(num)) tablesMap.set(num, {number: num, calls: []})]
    with [num = i.toString()] *)
Definition ensureTable (tablesMap : gmap string Table.t) (i : Z) : gmap string Table.t :=
  let num := pretty i in
  match tablesMap !! num with
  | Some _ => tablesMap
  | None => <[num := Table.mk num []]> tablesMap
  end.

(** [for (let i = 1; i <= totalTables; i++)] *)
Definition ensureTables (tablesMap : gmap string Table.t) (totalTables : Z)
    : gmap string Table.t :=
  foldl ensureTable tablesMap (seqZ 1 totalTables).

(** What a call of a hook function hands back: it returns (and may have asked
    for a refresh), or it throws. *)
Inductive Outcome := Returned | Threw (message : string).

(** ** The hook of [src/hooks/useMockData.ts] *)

Module Hooks.

(** *** Escalation calculator *)

(** [getTableSemaphoreStatus], lines 433-441. *)
Definition getTableSemaphoreStatus (now : Z) (table : Table.t)
    (settings : Settings.t) : SemaphoreStatus :=
  let active := filter (fun c => isActive (Call.status c) = true) (Table.calls table) in
  match reduce1 (fun a b => if bool_decide (Call.createdAt a < Call.createdAt b)
                            then a else b) active with
  | None => IDLE
  | Some oldest =>
      let elapsed := elapsedSeconds now oldest in
      if Qgtb elapsed (inject_Z (Settings.timeYellow settings)) then RED
      else if Qgtb elapsed (inject_Z (Settings.timeGreen settings)) then YELLOW
      else GREEN
  end.

(** [getCallTypeSemaphoreStatus], lines 442-449. *)
Definition getCallTypeSemaphoreStatus (now : Z) (table : Table.t)
    (type : CallType) (settings : Settings.t) : SemaphoreStatus :=
  let active := filter (fun c => bool_decide (Call.type c = type)
                                 && isActive (Call.status c) = true)
                       (Table.calls table) in
  match active with
  | [] => IDLE
  | oldest :: _ =>
      let elapsed := elapsedSeconds now oldest in
      if Qgtb elapsed (inject_Z (Settings.timeYellow settings)) then RED
      else GREEN
  end.

(** *** Synchronisation with the remote store *)

Section WithConstants.

(** [DEFAULT_SETTINGS] of [constants.ts] *)
Variable DEFAULT_SETTINGS : Settings.t.

(** [est.settings?.totalTables || DEFAULT_SETTINGS.totalTables]: a missing
    settings object and a zero count both fall back to the default. *)
Definition totalTablesOf (settings : option Settings.t) : Z :=
  match settings with
  | Some s => if bool_decide (Settings.totalTables s = 0)
              then Settings.totalTables DEFAULT_SETTINGS
              else Settings.totalTables s
  | None => Settings.totalTables DEFAULT_SETTINGS
  end.

(** [withTimeout(sb.from('establishments').select(columns).eq('id', estId).maybeSingle())] *)
Definition fetchEstablishment (net : Net) (sb : Remote.t) (estId : string)
    : Response DBEstablishment.t :=
  match net with
  | Up | CallsDown _ =>
      maybeSingle (filter (fun e => DBEstablishment.id e = estId)
                          (Remote.establishments sb))
  | Down code => Resolved None (Some code)
  | Slow => Rejected
  end.

(** [sb.from('calls').select(...).eq('establishment_id', estId).in('status', ['SENT', 'VIEWED'])],
    the [data] of the answer: null when the request is answered with an
    error. The request is made only after the establishment row came back. *)
Definition fetchActiveCalls (net : Net) (sb : Remote.t) (estId : string)
    : option (list DBCall.t) :=
  match net with
  | Up => Some (filter (fun c => DBCall.establishment_id c = estId
                                 /\ (DBCall.status c = SENT \/ DBCall.status c = VIEWED))
                       (Remote.calls sb))
  | _ => None
  end.

(** The "virtual" establishment built for the owner, lines 195-206. *)
Definition fallbackEst (estId : string) (currentUser : User.t) : Establishment.t :=
  Establishment.mk estId (User.id currentUser)
    (if bool_decide (User.name currentUser = "") then "Meu Restaurante (Offline)"
     else User.name currentUser)
    "000000000" "" "Modo de Recuperação" DEFAULT_SETTINGS ∅ [] (Some true).

(** [loadEstablishmentData], lines 175-244. [render] holds the bindings
    [establishments] and [currentUser] the function closes over; [st] is the
    hook state its [setEstablishments] updates. *)
Definition loadEstablishmentData (render : State.t) (net : Net) (sb : option Remote.t)
    (estId : string) (st : State.t) : option Establishment.t * State.t :=
  match sb with
  | None => (None, st)
  | Some sb =>
      match fetchEstablishment net sb estId with
      | Rejected => (None, st)
      | Resolved (Some est) None =>
          let tablesMap :=
            match fetchActiveCalls net sb estId with
            | Some calls => foldl pushCall ∅ calls
            | None => ∅
            end in
          let totalTables := totalTablesOf (DBEstablishment.settings est) in
          let tablesMap := ensureTables tablesMap totalTables in
          let fullEst :=
            Establishment.mk (DBEstablishment.id est) (DBEstablishment.owner_id est)
              (DBEstablishment.name est) (DBEstablishment.phone est)
              (DBEstablishment.photo_url est) (DBEstablishment.phrase est)
              (default DEFAULT_SETTINGS (DBEstablishment.settings est))
              tablesMap [] (Some (DBEstablishment.is_open est)) in
          (Some fullEst, setEstablishments (fun prev => <[estId := fullEst]> prev) st)
      | Resolved _ _ =>
          match State.establishments render !! estId with
          | Some cached => (Some cached, st)
          | None =>
              match State.currentUser render with
              | Some currentUser =>
                  if bool_decide (User.role currentUser = ESTABLISHMENT)
                     && bool_decide (User.establishmentId currentUser = Some estId)
                  then (Some (fallbackEst estId currentUser),
                        setEstablishments
                          (fun prev => <[estId := fallbackEst estId currentUser]> prev) st)
                  else (None, st)
              | None => (None, st)
              end
          end
      end
  end.

(** [sendHeartbeat], lines 165-173: [update({ is_open: true }).eq('id', estId)];
    an error of the remote is only logged. The result is the store the
    request leaves; on a remote that does not answer the store stays as it
    was and the awaited promise does not settle (see [cycle_settles]). *)
Definition sendHeartbeat (net : Net) (sb : option Remote.t) (estId : string)
    : option Remote.t :=
  match sb with
  | None => None
  | Some r =>
      Some match net with
           | Up | CallsDown _ =>
               Remote.updateEstablishments (DBEstablishment.withIsOpen true)
                 (fun e => bool_decide (DBEstablishment.id e = estId)) r
           | _ => r
           end
  end.

(** Polling cycle, lines 122-156, in three parts: the guard with
    [setIsUpdating(true)], the [try] block, and the [finally] block.
    [render] holds the bindings the effect closed over when it created
    [cycle]: [isUpdating], [currentUser] and [customerProfiles]. The two
    promises of [Promise.all] are taken in the order heartbeat, refresh; the
    refresh does not write to the remote. [cycle_body] gives the store and
    the hook state once the [try] block has done what it can; whether the
    block comes to its end is [cycle_settles] below. *)
Definition cycle_start (render st : State.t) : option State.t :=
  if State.isUpdating render then None else Some (setIsUpdating true st).

Definition cycle_finish (st : State.t) : State.t := setIsUpdating false st.

Definition cycle_body (render : State.t) (net : Net) (sb : option Remote.t)
    (st : State.t) : option Remote.t * State.t :=
  match State.currentUser render with
  | None => (sb, st)
  | Some currentUser =>
      match User.role currentUser with
      | ESTABLISHMENT =>
          match User.establishmentId currentUser with
          | Some establishmentId =>
              let sb' := sendHeartbeat net sb establishmentId in
              (sb', (loadEstablishmentData render net sb' establishmentId st).2)
          | None =>
              match sb, net with
              | Some r, (Up | CallsDown _) =>
                  match maybeSingle (filter (fun e => DBEstablishment.owner_id e
                                                      = User.id currentUser)
                                            (Remote.establishments r)) with
                  | Resolved (Some est) _ =>
                      let st := setCurrentUser
                                  (fun prev => match prev with
                                               | Some u => Some (User.mk (User.id u) (User.email u)
                                                                   (User.role u) (User.name u)
                                                                   (Some (DBEstablishment.id est)))
                                               | None => None
                                               end) st in
                      (sb, (loadEstablishmentData render net sb (DBEstablishment.id est) st).2)
                  | _ => (sb, st)
                  end
              | _, _ => (sb, st)
              end
          end
      | CUSTOMER =>
          match State.customerProfiles render !! User.id currentUser with
          | Some profile =>
              (sb, foldl (fun st id => (loadEstablishmentData render net sb id st).2) st
                         (CustomerProfile.favoritedEstablishmentIds profile))
          | None => (sb, st)
          end
      | ADMIN => (sb, st)
      end
  end.

(** Whether the requests awaited by the [try] block all settle. The update
    of [sendHeartbeat] (line 170) and the lookup of the owner's
    establishment (line 136) are awaited without [withTimeout]: on a remote
    that does not answer, their promises never settle and the cycle of an
    owner session never reaches its [finally] block. Without a client the
    heartbeat returns at once and the lookup throws into the [catch] block;
    the refreshes of a customer session are bounded by [withTimeout]. *)
Definition cycle_settles (render : State.t) (net : Net) (sb : option Remote.t) : bool :=
  match net, sb, State.currentUser render with
  | Slow, Some _, Some currentUser =>
      match User.role currentUser with
      | ESTABLISHMENT => false
      | _ => true
      end
  | _, _, _ => true
  end.

(** One cycle run from its first statement as far as it gets: through the
    [finally] block when the awaited requests settle, and otherwise up to the
    [await] that never settles, with the flag still set. *)
Definition cycle (render : State.t) (net : Net) (sb : option Remote.t) (st : State.t)
    : option Remote.t * State.t :=
  match cycle_start render st with
  | None => (sb, st)
  | Some st =>
      let '(sb', st) := cycle_body render net sb st in
      (sb', if cycle_settles render net sb then cycle_finish st else st)
  end.

End WithConstants.

(** *** Writes *)

(** [closeEstablishmentWorkday], lines 376-381, on an answering remote. *)
Definition closeEstablishmentWorkday (sb : Remote.t) (id : string) : Remote.t :=
  let sb := Remote.updateEstablishments (DBEstablishment.withIsOpen false)
              (fun e => bool_decide (DBEstablishment.id e = id)) sb in
  Remote.updateCalls (DBCall.withStatus CANCELED)
    (fun c => bool_decide (DBCall.establishment_id c = id
                           /\ (DBCall.status c = SENT \/ DBCall.status c = VIEWED))) sb.

(** [attendOldestCallByType], lines 387-394, on an answering remote; the
    refresh that follows the update only reads the remote. *)
Definition attendOldestCallByType (sb : Remote.t) (estId tableNum : string)
    (type : CallType) : Remote.t :=
  match selectOldestActive estId tableNum type sb with
  | first :: _ =>
      Remote.updateCalls (DBCall.withStatus ATTENDED)
        (fun c => bool_decide (DBCall.id c = DBCall.id first)) sb
  | [] => sb
  end.

(** [cancelOldestCallByType], lines 395-402. *)
Definition cancelOldestCallByType (sb : Remote.t) (estId tableNum : string)
    (type : CallType) : Remote.t :=
  match selectOldestActive estId tableNum type sb with
  | first :: _ =>
      Remote.updateCalls (DBCall.withStatus CANCELED)
        (fun c => bool_decide (DBCall.id c = DBCall.id first)) sb
  | [] => sb
  end.

(** [favoriteEstablishment], lines 416-419: the answer of the insert is not
    inspected; the profile refresh that follows only reads the remote. *)
Definition favoriteEstablishment (sb : Remote.t) (uid estId : string)
    : Remote.t * Outcome :=
  ((Remote.insertFavorite uid estId sb).1, Returned).

(** The interval of the polling effect. The effect runs again only when
    [currentUser?.id] or [currentUser?.establishmentId] change; between two
    runs every tick calls the same [cycle], with the bindings of the render
    of the last run. *)
Module Poller.
Record t := mk {
  effect : State.t;   (* the render whose bindings [cycle] reads *)
  state : State.t;    (* the hook state *)
  inFlight : nat }.   (* cycles past the guard and not yet in [finally] *)

Inductive event :=
| Tick        (* the timer calls [cycle] *)
| Settle      (* a cycle in flight reaches its [finally] block *)
| Rerun.      (* the dependencies changed: the effect runs again; its own
                 first call of [cycle] is a [Tick] after it *)

Definition step (p : t) (e : event) : t :=
  match e with
  | Tick =>
      match cycle_start (effect p) (state p) with
      | None => p
      | Some st => mk (effect p) st (S (inFlight p))
      end
  | Settle =>
      match inFlight p with
      | O => p
      | S n => mk (effect p) (cycle_finish (state p)) n
      end
  | Rerun => mk (state p) (state p) (inFlight p)
  end.

Definition run (p : t) (events : list event) : t := foldl step p events.
End Poller.

(** *** Further operations of the hook *)

(** [\D]: anything but an ASCII digit *)
Definition isDigit (c : Ascii.ascii) : bool :=
  (48 <=? Ascii.nat_of_ascii c)%nat && (Ascii.nat_of_ascii c <=? 57)%nat.

(** [sanitizePhone], line 45: [phone.replace(/\D/g, '')]. A character
    outside ASCII is encoded in bytes that are no digits, so dropping the
    bytes drops the character. *)
Fixpoint sanitizePhone (phone : string) : string :=
  match phone with
  | EmptyString => EmptyString
  | String c rest =>
      if isDigit c then String c (sanitizePhone rest) else sanitizePhone rest
  end.

(** [addCall], lines 370-375, on an answering remote: the row inserted, with
    the id [newId] the store gives it and [now] for [Date.now()]; the refresh
    that follows only reads the remote. *)
Definition addCall (sb : Remote.t) (newId : string) (now : Z)
    (estId tableNum : string) (type : CallType) : Remote.t :=
  Remote.insertCall (DBCall.mk newId estId tableNum type SENT now) sb.

(** [checkPendingCallsOnLogin], lines 382-386: [(count || 0) > 0] for the
    exact count of the rows in status SENT or VIEWED of the establishment. *)
Definition checkPendingCallsOnLogin (sb : Remote.t) (id : string) : bool :=
  let count := length (filter (fun c => DBCall.establishment_id c = id
                                        /\ (DBCall.status c = SENT \/ DBCall.status c = VIEWED))
                              (Remote.calls sb)) in
  bool_decide (0 < count)%nat.

(** [viewAllCallsForTable], lines 403-410: the SENT rows of the table are
    selected, and the rows whose id is among theirs are set to VIEWED. *)
Definition viewAllCallsForTable (sb : Remote.t) (estId tableNum : string) : Remote.t :=
  let data := filter (fun c => DBCall.establishment_id c = estId
                               /\ DBCall.table_number c = tableNum
                               /\ DBCall.status c = SENT) (Remote.calls sb) in
  match data with
  | [] => sb
  | _ => Remote.updateCalls (DBCall.withStatus VIEWED)
           (fun c => bool_decide (DBCall.id c ∈ DBCall.id <$> data)) sb
  end.

(** [closeTable], lines 411-415. *)
Definition closeTable (sb : Remote.t) (estId tableNum : string) : Remote.t :=
  Remote.updateCalls (DBCall.withStatus ATTENDED)
    (fun c => bool_decide (DBCall.establishment_id c = estId
                           /\ DBCall.table_number c = tableNum
                           /\ (DBCall.status c = SENT \/ DBCall.status c = VIEWED))) sb.

(** [unfavoriteEstablishment], lines 420-423; the profile refresh that
    follows only reads the remote. *)
Definition unfavoriteEstablishment (sb : Remote.t) (uid estId : string) : Remote.t :=
  Remote.deleteFavorite uid estId sb.

(** [updateSettings], lines 424-427; the refresh that follows only reads the
    remote. *)
Definition updateSettings (sb : Remote.t) (id : string) (s : Settings.t) : Remote.t :=
  Remote.updateEstablishments (DBEstablishment.withSettings s)
    (fun e => bool_decide (DBEstablishment.id e = id)) sb.

(** [searchEstablishmentByPhone], lines 363-369: the establishment whose
    stored phone is the digits of [phone] is looked up and loaded. The lookup
    (line 366) is awaited without [withTimeout]: on a remote that does not
    answer the call never returns, which is [None] here. *)
Definition searchEstablishmentByPhone (DEFAULT_SETTINGS : Settings.t) (render : State.t)
    (net : Net) (sb : Remote.t) (phone : string) (st : State.t)
    : option (option Establishment.t * State.t) :=
  let clean := sanitizePhone phone in
  match net with
  | Up | CallsDown _ =>
      match maybeSingle (filter (fun e => DBEstablishment.phone e = clean)
                                (Remote.establishments sb)) with
      | Resolved (Some data) _ =>
          Some (loadEstablishmentData DEFAULT_SETTINGS render net (Some sb)
                  (DBEstablishment.id data) st)
      | _ => Some (None, st)
      end
  | Down _ => Some (None, st)
  | Slow => None
  end.
End Hooks.

(** ** The hook of [src/unnamed/part_002] *)

Module Part002.

(** *** Escalation calculator *)

(** [status !== ATTENDED && status !== CANCELED] *)
Definition notTerminal (s : CallStatus) : bool :=
  negb (bool_decide (s = ATTENDED)) && negb (bool_decide (s = CANCELED)).

(** [(oldest, current) => current.createdAt < oldest.createdAt ? current : oldest] *)
Definition older (oldest current : Call.t) : Call.t :=
  if bool_decide (Call.createdAt current < Call.createdAt oldest)
  then current else oldest.

(** [acc[call.type] = (acc[call.type] || 0) + 1] folded over the calls. *)
Definition callsByType (activeCalls : list Call.t) : gmap string Z :=
  fold_left (fun acc call =>
               <[Call.type call := default 0 (acc !! Call.type call) + 1]> acc)
            activeCalls ∅.

(** [Object.values(o).some(p)] *)
Definition values_some (p : Z -> bool) (o : gmap string Z) : bool :=
  existsb p (map_to_list o).*2.

(** [getTableSemaphoreStatus], lines 492-516. *)
Definition getTableSemaphoreStatus (now : Z) (table : Table.t)
    (settings : Settings.t) : SemaphoreStatus :=
  let activeCalls := filter (fun c => notTerminal (Call.status c) = true)
                            (Table.calls table) in
  match reduce1 older activeCalls with
  | None => IDLE
  | Some oldestCall =>
      let timeElapsed := elapsedSeconds now oldestCall in
      let timeGreen := inject_Z (Settings.timeGreen settings) in
      let timeYellow := inject_Z (Settings.timeYellow settings) in
      let qtyGreen := Settings.qtyGreen settings in
      let qtyYellow := Settings.qtyYellow settings in
      let isRedByTime := Qgtb timeElapsed timeYellow in
      let isYellowByTime := Qgtb timeElapsed timeGreen && Qleb timeElapsed timeYellow in
      let byType := callsByType activeCalls in
      let isRedByQty := values_some (fun count => bool_decide (count > qtyYellow)) byType in
      let isYellowByQty :=
        values_some (fun count => bool_decide (count > qtyGreen)
                                  && bool_decide (count <= qtyYellow)) byType in
      if isRedByTime || isRedByQty then RED
      else if isYellowByTime || isYellowByQty then YELLOW
      else GREEN
  end.

(** [getCallTypeSemaphoreStatus], lines 518-537. *)
Definition getCallTypeSemaphoreStatus (now : Z) (table : Table.t)
    (callType : CallType) (settings : Settings.t) : SemaphoreStatus :=
  let callsOfType := filter (fun c => bool_decide (Call.type c = callType)
                                      && isActive (Call.status c) = true)
                            (Table.calls table) in
  match callsOfType with
  | [] => IDLE
  | first :: _ =>
      let oldestCall := fold_left older callsOfType first in
      let timeElapsed := elapsedSeconds now oldestCall in
      let timeGreen := inject_Z (Settings.timeGreen settings) in
      let timeYellow := inject_Z (Settings.timeYellow settings) in
      let qtyGreen := Settings.qtyGreen settings in
      let qtyYellow := Settings.qtyYellow settings in
      let length := Z.of_nat (length callsOfType) in
      let isRedByTime := Qgtb timeElapsed timeYellow in
      let isYellowByTime := Qgtb timeElapsed timeGreen && Qleb timeElapsed timeYellow in
      let isRedByQty := bool_decide (length > qtyYellow) in
      let isYellowByQty := bool_decide (length > qtyGreen)
                           && bool_decide (length <= qtyYellow) in
      if isRedByTime || isRedByQty then RED
      else if isYellowByTime || isYellowByQty then YELLOW
      else GREEN
  end.

(** *** Synchronisation with the remote store *)

Section WithConstants.

(** [DEFAULT_SETTINGS] of [constants.ts] *)
Variable DEFAULT_SETTINGS : Settings.t.

(** [est.settings?.totalTables || DEFAULT_SETTINGS.totalTables] *)
Definition totalTablesOf (settings : option Settings.t) : Z :=
  match settings with
  | Some s => if bool_decide (Settings.totalTables s = 0)
              then Settings.totalTables DEFAULT_SETTINGS
              else Settings.totalTables s
  | None => Settings.totalTables DEFAULT_SETTINGS
  end.

(** [loadEstablishmentData], lines 138-190, on an answering remote:
    [.single()] gives no row unless exactly one matches, and the calls query
    has no status filter. *)
Definition loadEstablishmentData (supabase : option Remote.t) (estId : string)
    (st : State.t) : option Establishment.t * State.t :=
  match supabase with
  | None => (None, st)
  | Some sb =>
      match filter (fun e => DBEstablishment.id e = estId) (Remote.establishments sb) with
      | [est] =>
          let calls := filter (fun c => DBCall.establishment_id c = estId)
                              (Remote.calls sb) in
          let tablesMap := foldl pushCall ∅ calls in
          let totalTables := totalTablesOf (DBEstablishment.settings est) in
          let tablesMap := ensureTables tablesMap totalTables in
          let fullEst :=
            Establishment.mk (DBEstablishment.id est) (DBEstablishment.owner_id est)
              (DBEstablishment.name est) (DBEstablishment.phone est)
              (DBEstablishment.photo_url est) (DBEstablishment.phrase est)
              (default DEFAULT_SETTINGS (DBEstablishment.settings est))
              tablesMap [] None in
          (Some fullEst, setEstablishments (fun prev => <[estId := fullEst]> prev) st)
      | _ => (None, st)
      end
  end.

End WithConstants.

(** *** Writes *)

(** [cancelOldestCallByType], lines 368-384. *)
Definition cancelOldestCallByType (supabase : option Remote.t)
    (establishmentId tableNumber : string) (callType : CallType) : option Remote.t :=
  match supabase with
  | None => None
  | Some sb =>
      Some match selectOldestActive establishmentId tableNumber callType sb with
           | first :: _ =>
               Remote.updateCalls (DBCall.withStatus CANCELED)
                 (fun c => bool_decide (DBCall.id c = DBCall.id first)) sb
           | [] => sb
           end
  end.

(** [attendOldestCallByType], lines 386-401. *)
Definition attendOldestCallByType (supabase : option Remote.t)
    (establishmentId tableNumber : string) (callType : CallType) : option Remote.t :=
  match supabase with
  | None => None
  | Some sb =>
      Some match selectOldestActive establishmentId tableNumber callType sb with
           | first :: _ =>
               Remote.updateCalls (DBCall.withStatus ATTENDED)
                 (fun c => bool_decide (DBCall.id c = DBCall.id first)) sb
           | [] => sb
           end
  end.

(** [favoriteEstablishment], lines 452-466, with a configured client. *)
Definition favoriteEstablishment (sb : Remote.t) (userId establishmentId : string)
    : Remote.t * Outcome :=
  let profile := Remote.favoritesOf userId sb in
  if bool_decide (3 <= length profile)%nat
  then (sb, Threw "Você pode ter no máximo 3 estabelecimentos favoritos.")
  else
    match Remote.insertFavorite userId establishmentId sb with
    | (sb', Some code) =>
        if bool_decide (code = "23505") then (sb', Returned)
        else (sb', Threw code)
    | (sb', None) => (sb', Returned)
    end.

(** *** Further operations of the hook *)

(** [addCall], lines 323-334, on an answering remote. *)
Definition addCall (supabase : option Remote.t) (newId : string) (now : Z)
    (establishmentId tableNumber : string) (type : CallType) : option Remote.t :=
  match supabase with
  | None => None
  | Some sb =>
      Some (Remote.insertCall
              (DBCall.mk newId establishmentId tableNumber type SENT now) sb)
  end.

(** [updateCallsByPredicate], lines 336-359. The calls to update are read
    from the cached table of the render ([establishments] is a dependency of
    the callback); [update] gives the status of the partial call it builds,
    if it sets one. *)
Definition updateCallsByPredicate (render : State.t) (supabase : option Remote.t)
    (establishmentId tableNumber : string) (predicate : Call.t -> bool)
    (update : Call.t -> option CallStatus) : option Remote.t :=
  match supabase with
  | None => None
  | Some sb =>
      Some match State.establishments render !! establishmentId with
           | None => sb
           | Some establishment =>
               match Establishment.tables establishment !! tableNumber with
               | None => sb
               | Some table =>
                   let callsToUpdate :=
                     filter (fun c => predicate c = true) (Table.calls table) in
                   let idsToUpdate := Call.id <$> callsToUpdate in
                   match callsToUpdate with
                   | [] => sb
                   | sample :: _ =>
                       match update sample with
                       | Some statusUpdate =>
                           Remote.updateCalls (DBCall.withStatus statusUpdate)
                             (fun c => bool_decide (DBCall.id c ∈ idsToUpdate)) sb
                       | None => sb
                       end
                   end
               end
           end
  end.

(** [viewAllCallsForTable], lines 361-366. *)
Definition viewAllCallsForTable (render : State.t) (supabase : option Remote.t)
    (establishmentId tableNumber : string) : option Remote.t :=
  updateCallsByPredicate render supabase establishmentId tableNumber
    (fun c => bool_decide (Call.status c = SENT))
    (fun c => Some VIEWED).

(** [closeTable], lines 403-413. *)
Definition closeTable (supabase : option Remote.t)
    (establishmentId tableNumber : string) : option Remote.t :=
  match supabase with
  | None => None
  | Some sb =>
      Some (Remote.updateCalls (DBCall.withStatus ATTENDED)
              (fun c => bool_decide (DBCall.establishment_id c = establishmentId
                                     /\ DBCall.table_number c = tableNumber
                                     /\ (DBCall.status c = SENT \/ DBCall.status c = VIEWED)))
              sb)
  end.

(** [updateSettings], lines 415-419. *)
Definition updateSettings (supabase : option Remote.t) (establishmentId : string)
    (newSettings : Settings.t) : option Remote.t :=
  match supabase with
  | None => None
  | Some sb =>
      Some (Remote.updateEstablishments (DBEstablishment.withSettings newSettings)
              (fun e => bool_decide (DBEstablishment.id e = establishmentId)) sb)
  end.

(** [unfavoriteEstablishment], lines 468-472. *)
Definition unfavoriteEstablishment (supabase : option Remote.t)
    (userId establishmentId : string) : option Remote.t :=
  match supabase with
  | None => None
  | Some sb => Some (Remote.deleteFavorite userId establishmentId sb)
  end.

(** [searchEstablishmentByPhone], lines 441-450, on an answering remote: the
    phone is compared as given, the establishment is loaded, and the value
    returned is read from the [establishments] binding of the render. *)
Definition searchEstablishmentByPhone (DEFAULT_SETTINGS : Settings.t) (render : State.t)
    (supabase : option Remote.t) (phone : string) (st : State.t)
    : option Establishment.t * State.t :=
  match supabase with
  | None => (None, st)
  | Some sb =>
      match filter (fun e => DBEstablishment.phone e = phone) (Remote.establishments sb) with
      | [data] =>
          (State.establishments render !! DBEstablishment.id data,
           (loadEstablishmentData DEFAULT_SETTINGS supabase (DBEstablishment.id data) st).2)
      | _ => (None, st)
      end
  end.

End Part002.

(** ** The rule of the specification, section 4.1

    Written from the words of the specification, to be compared with the
    calculators above. *)

Module Spec.

(** oldest = minimum [createdAt] of a non-empty active set *)
Definition minCreatedAt (first : Call.t) (rest : list Call.t) : Z :=
  fold_left Z.min (Call.createdAt <$> rest) (Call.createdAt first).

(** number of calls of one type *)
Definition countOfType (type : CallType) (active : list Call.t) : Z :=
  Z.of_nat (length (filter (fun c => Call.type c = type) active)).

(** maxCount = max over types of count *)
Definition maxCount (active : list Call.t) : Z :=
  foldr Z.max 0 ((fun c => countOfType (Call.type c) active) <$> active).

(** steps 5 to 7, on elapsed seconds and a count *)
Definition rule (elapsed : Q) (count : Z) (settings : Settings.t) : SemaphoreStatus :=
  let timeGreen := inject_Z (Settings.timeGreen settings) in
  let timeYellow := inject_Z (Settings.timeYellow settings) in
  if Qgtb elapsed timeYellow || bool_decide (Settings.qtyYellow settings < count)
  then RED
  else if (Qgtb elapsed timeGreen && Qleb elapsed timeYellow)
          || (bool_decide (Settings.qtyGreen settings < count)
              && bool_decide (count <= Settings.qtyYellow settings))
  then YELLOW
  else GREEN.

(** the time condition alone *)
Definition timeRule (elapsed : Q) (settings : Settings.t) : SemaphoreStatus :=
  let timeGreen := inject_Z (Settings.timeGreen settings) in
  let timeYellow := inject_Z (Settings.timeYellow settings) in
  if Qgtb elapsed timeYellow then RED
  else if Qgtb elapsed timeGreen && Qleb elapsed timeYellow then YELLOW
  else GREEN.

Definition elapsed (now oldest : Z) : Q :=
  (inject_Z (now - oldest) / inject_Z 1000)%Q.

(** steps 1 to 7 *)
Definition tableStatus (now : Z) (table : Table.t) (settings : Settings.t)
    : SemaphoreStatus :=
  match filter (fun c => Call.status c = SENT \/ Call.status c = VIEWED)
               (Table.calls table) with
  | [] => IDLE
  | first :: rest =>
      rule (elapsed now (minCreatedAt first rest))
           (maxCount (first :: rest)) settings
  end.

(** urgency order IDLE < GREEN < YELLOW < RED *)
Definition rank (s : SemaphoreStatus) : nat :=
  match s with IDLE => 0 | GREEN => 1 | YELLOW => 2 | RED => 3 end.

Definition le (a b : SemaphoreStatus) : Prop := (rank a <= rank b)%nat.

End Spec.

Infix "⊑" := Spec.le (at level 70).

(** ** Scenario data of section 8 *)

Definition scenarioSettings : Settings.t :=
  Settings.mk 10 30 90 2 4.

Definition waiter (i : string) (created : Z) : Call.t :=
  Call.mk i "WAITER" SENT created.

(** three active WAITER calls, all created at instant 0 *)
Definition scenarioTable : Table.t :=
  Table.mk "5" [waiter "a" 0; waiter "b" 0; waiter "c" 0].

(** One active WAITER call created 60 seconds ago. *)
Definition oneCallTable : Table.t := Table.mk "5" [waiter "a" 0].

(** Two active WAITER calls, the newer one listed first. *)
Definition newerFirstTable : Table.t :=
  Table.mk "5" [waiter "a" 50000; waiter "b" 0].


(** ** Scenario data for the synchronisation engine *)

(** An owner session for establishment ["e1"]. *)
Definition ownerUser : User.t :=
  User.mk "u1" "dono@example.com" ESTABLISHMENT "Cantina" (Some "e1").

(** The hook state of that session before anything was loaded. *)
Definition ownerState : State.t := State.mk (Some ownerUser) ∅ ∅ false.

Definition cantinaRow (open : bool) (total : Z) : DBEstablishment.t :=
  DBEstablishment.mk "e1" "u1" "Cantina" "11999990000" "" "Bem-vindo" open
    (Some (Settings.mk total 30 90 2 4)).

Definition cantina : Establishment.t :=
  Establishment.mk "e1" "u1" "Cantina" "11999990000" "" "Bem-vindo"
    (Settings.mk 2 30 90 2 4) ∅ [] (Some true).

(** The same session once the aggregate of ["e1"] is cached. *)
Definition ownerStateCached : State.t :=
  State.mk (Some ownerUser) {[ "e1" := cantina ]} ∅ false.

(** A store where table 7 of ["e1"] (two tables declared) received one call,
    long since attended. *)
Definition attendedRemote : Remote.t :=
  Remote.mk [cantinaRow true 2]
            [DBCall.mk "c1" "e1" "7" "WAITER" ATTENDED 0] [].

(** A store with three calls on table 5 of ["e1"] and one on table 6. *)
Definition busyRemote : Remote.t :=
  Remote.mk [cantinaRow true 2]
            [DBCall.mk "c1" "e1" "5" "WAITER" SENT 300;
             DBCall.mk "c2" "e1" "5" "WAITER" VIEWED 100;
             DBCall.mk "c3" "e1" "5" "BILL" SENT 50;
             DBCall.mk "c4" "e1" "6" "WAITER" SENT 10] [].

(** A customer with three favourites. *)
Definition threeFavorites : Remote.t :=
  Remote.mk [] [] [("u9", "e1"); ("u9", "e2"); ("u9", "e3")].

(** The polling effect as created in a render where no cycle is running. *)
Definition freshPoller : Hooks.Poller.t := Hooks.Poller.mk ownerState ownerState 0.

(** The fetch of the establishment row did not produce a row: the promise
    rejected, an error came back, or no row matched. *)
Definition fetchFails {A} (r : Response A) : Prop :=
  match r with
  | Resolved (Some _) None => False
  | _ => True
  end.

(** The promise resolved, with an error or without a row. *)
Definition fetchAnsweredWithoutRow {A} (r : Response A) : Prop :=
  match r with
  | Rejected => False
  | Resolved (Some _) None => False
  | Resolved _ _ => True
  end.

(** ** Predicates used by the statements *)

(** The head of an ordered list bounds the list from below. *)
Definition headIsOldest (rows : list DBCall.t) : Prop :=
  match rows with
  | [] => True
  | first :: _ =>
      forall x, x ∈ rows -> DBCall.created_at_ts first <= DBCall.created_at_ts x
  end.

(** Row [c'] is row [c] with its status set to [s]: the status is [s] and
    every other column is the column of [c]. *)
Definition sameCallWithStatus (s : CallStatus) (c c' : DBCall.t) : Prop :=
  DBCall.status c' = s
  /\ DBCall.id c' = DBCall.id c
  /\ DBCall.establishment_id c' = DBCall.establishment_id c
  /\ DBCall.table_number c' = DBCall.table_number c
  /\ DBCall.type c' = DBCall.type c
  /\ DBCall.created_at_ts c' = DBCall.created_at_ts c.

(** The effect of attending or cancelling the oldest call on the store [sb],
    giving [sb']: nothing changes, or exactly one row changes: an active call
    of the type on the table with minimum [created_at_ts], which was SENT or
    VIEWED, now has status [s], its other columns as before. *)
Definition oldestCallEffect (s : CallStatus) (estId tableNum : string) (type : CallType)
    (sb sb' : Remote.t) : Prop :=
  Remote.establishments sb' = Remote.establishments sb
  /\ Remote.customer_favorites sb' = Remote.customer_favorites sb
  /\ ((forall c, c ∈ Remote.calls sb -> ~ matchesActive estId tableNum type c)
      /\ sb' = sb
      \/ exists before first first' after,
          Remote.calls sb = before ++ first :: after
          /\ Remote.calls sb' = before ++ first' :: after
          /\ sameCallWithStatus s first first'
          /\ matchesActive estId tableNum type first
          /\ forall c, c ∈ Remote.calls sb -> matchesActive estId tableNum type c ->
                       DBCall.created_at_ts first <= DBCall.created_at_ts c).

(** A call that still counts for the escalation. *)
Definition activeCall (c : Call.t) : Prop :=
  Call.status c = SENT \/ Call.status c = VIEWED.

(** What the calculators can see of a call: its type and its creation time. *)
Definition typeAndTime (c : Call.t) : CallType * Z := (Call.type c, Call.createdAt c).

(** The more urgent of two statuses. *)
Definition worse (a b : SemaphoreStatus) : SemaphoreStatus :=
  if decide (Spec.rank a <= Spec.rank b)%nat then b else a.

(** The quantity condition alone, steps 5 to 7 of section 4.1. *)
Definition qtyRule (count : Z) (settings : Settings.t) : SemaphoreStatus :=
  if bool_decide (Settings.qtyYellow settings < count) then RED
  else if bool_decide (Settings.qtyGreen settings < count)
          && bool_decide (count <= Settings.qtyYellow settings) then YELLOW
  else GREEN.

(** The call a refresh files for a fetched row. *)
Definition toCall (c : DBCall.t) : Call.t :=
  Call.mk (DBCall.id c) (DBCall.type c) (DBCall.status c) (DBCall.created_at_ts c).

(** The transitions of a call status: SENT to VIEWED, and SENT or VIEWED to
    ATTENDED or CANCELED; a status may also stay. *)
Definition forward (a b : CallStatus) : Prop :=
  a = b
  \/ (a = SENT /\ b = VIEWED)
  \/ ((a = SENT \/ a = VIEWED) /\ (b = ATTENDED \/ b = CANCELED)).

(** The same row of [calls], its status moved forward or left alone. *)
Definition movedForward (c c' : DBCall.t) : Prop :=
  DBCall.id c' = DBCall.id c
  /\ DBCall.establishment_id c' = DBCall.establishment_id c
  /\ DBCall.table_number c' = DBCall.table_number c
  /\ DBCall.type c' = DBCall.type c
  /\ DBCall.created_at_ts c' = DBCall.created_at_ts c
  /\ forward (DBCall.status c) (DBCall.status c').

(** A row of [calls] in status SENT or VIEWED. *)
Definition activeRow (c : DBCall.t) : Prop :=
  DBCall.status c = SENT \/ DBCall.status c = VIEWED.

(** A string of ASCII digits. *)
Fixpoint digitsOnly (s : string) : Prop :=
  match s with
  | EmptyString => True
  | String c rest => Hooks.isDigit c = true /\ digitsOnly rest
  end.

#[global] Instance activeCall_dec (c : Call.t) : Decision (activeCall c).
Proof. unfold activeCall. apply _. Defined.

#[global] Instance activeRow_dec (c : DBCall.t) : Decision (activeRow c).
Proof. unfold activeRow. apply _. Defined.

(** Two tables that differ in ids, order, SENT against VIEWED, and a terminal
    call. *)
Definition mixedTable : Table.t :=
  Table.mk "5" [Call.mk "a" "WAITER" SENT 0; Call.mk "b" "BILL" ATTENDED 5;
                Call.mk "c" "BILL" VIEWED 7].

Definition mixedTableShuffled : Table.t :=
  Table.mk "5" [Call.mk "x" "BILL" SENT 7; Call.mk "y" "WAITER" VIEWED 0].

(** Settings whose YELLOW windows are empty. *)
Definition collapsedSettings : Settings.t := Settings.mk 10 60 60 3 3.

(** The table a refresh files under key [k]: the fetched calls of that table
    number in the order fetched, or an empty table when no call was fetched
    for [k] and [k] is the numeral of a declared table. *)
Definition groupedTable (fetched : list DBCall.t) (totalTables : Z) (k : string)
    : option Table.t :=
  match toCall <$> filter (fun c => DBCall.table_number c = k) fetched with
  | [] => if decide (k ∈ (pretty <$> seqZ 1 totalTables : list string))
          then Some (Table.mk k []) else None
  | calls => Some (Table.mk k calls)
  end.

(** The rows a refresh of [src/hooks] fetches for an establishment. *)
Definition activeRowsOf (estId : string) (sb : Remote.t) : list DBCall.t :=
  filter (fun c => DBCall.establishment_id c = estId
                   /\ (DBCall.status c = SENT \/ DBCall.status c = VIEWED))
         (Remote.calls sb).

(** The rows a refresh of [part_002] fetches for an establishment. *)
Definition rowsOf (estId : string) (sb : Remote.t) : list DBCall.t :=
  filter (fun c => DBCall.establishment_id c = estId) (Remote.calls sb).

(** The aggregate a successful refresh of [src/hooks] builds from the row of
    the establishment and the rows fetched from [calls]. *)
Definition builtEstablishment (D : Settings.t) (est : DBEstablishment.t)
    (fetched : list DBCall.t) (isOpen : option bool) : Establishment.t :=
  Establishment.mk (DBEstablishment.id est) (DBEstablishment.owner_id est)
    (DBEstablishment.name est) (DBEstablishment.phone est)
    (DBEstablishment.photo_url est) (DBEstablishment.phrase est)
    (default D (DBEstablishment.settings est))
    (ensureTables (foldl pushCall ∅ fetched)
       (Hooks.totalTablesOf D (DBEstablishment.settings est)))
    [] isOpen.

(** What a state that differs from [st] at most in the cache entry of
    [estId] keeps. *)
Definition onlyTouchesEntry (estId : string) (st st' : State.t) : Prop :=
  State.currentUser st' = State.currentUser st
  /\ State.customerProfiles st' = State.customerProfiles st
  /\ State.isUpdating st' = State.isUpdating st
  /\ (forall k, k <> estId ->
                State.establishments st' !! k = State.establishments st !! k)
  /\ (is_Some (State.establishments st !! estId) ->
      is_Some (State.establishments st' !! estId)).

(** The row [addCall] inserts. *)
Definition raisedCall (newId : string) (now : Z) (estId tableNum : string)
    (type : CallType) : DBCall.t :=
  DBCall.mk newId estId tableNum type SENT now.

(** New settings for the examples. *)
Definition widerSettings : Settings.t := Settings.mk 4 45 120 1 3.

(** A store with one call still open and one attended on table 5 of
    ["e1"]. *)
Definition halfDoneRemote : Remote.t :=
  Remote.mk [cantinaRow true 2]
            [DBCall.mk "c1" "e1" "5" "WAITER" SENT 300;
             DBCall.mk "c2" "e1" "5" "WAITER" ATTENDED 100] [].

(** A customer session with two favourites, one of them unknown to the
    store of the examples. *)
Definition customerUser : User.t := User.mk "u9" "cliente@example.com" CUSTOMER "Ana" None.

Definition customerState : State.t :=
  State.mk (Some customerUser)
           ∅ {[ "u9" := CustomerProfile.mk "u9" ["e0"; "e1"] ]} false.

(** An owner session that does not know its establishment yet. *)
Definition newOwnerUser : User.t := User.mk "u1" "dono@example.com" ESTABLISHMENT "Cantina" None.

Definition newOwnerState : State.t := State.mk (Some newOwnerUser) ∅ ∅ false.

(** The session user with the establishment found for it. *)
Definition withEstablishmentId (id : string) (u : User.t) : User.t :=
  User.mk (User.id u) (User.email u) (User.role u) (User.name u) (Some id).

(** The cache of [part_002] right after a refresh of ["e1"] from the store
    of the example. *)
Definition refreshedState : State.t :=
  (Part002.loadEstablishmentData scenarioSettings (Some busyRemote) "e1" ownerState).2.

(** The bindings of the first render of the hook: nobody is logged in. The
    memoised [login] and the listener of the boot effect keep them. *)
Definition firstRender : State.t := State.mk None ∅ ∅ false.

(** A store whose only establishment declares 0 tables and never received a
    call. *)
Definition noTablesRemote : Remote.t := Remote.mk [cantinaRow true 0] [] [].

(** The render of a customer's first session in which the polling effect is
    created: the user is set, the profile is not loaded yet. *)
Definition customerFirstRender : State.t := State.mk (Some customerUser) ∅ ∅ false.

(** The store of the example with six tables declared, so that tables 5 and
    6 are declared tables. *)
Definition sixTablesRemote : Remote.t :=
  Remote.mk [cantinaRow true 6] (Remote.calls busyRemote) [].
(** * Proofs *)

(** ** Arithmetic of the elapsed time *)

Lemma Qgtb_div1000 (d t : Z) :
  Qgtb (inject_Z d / inject_Z 1000) (inject_Z t) = bool_decide (1000 * t < d).
Proof.
  unfold Qgtb, Qcompare, Qdiv, Qmult, Qinv, inject_Z; simpl.
  change (Z.pos (1 * 1000)) with 1000.
  destruct (Z.compare_spec (d * 1 * 1) (t * 1000)); case_bool_decide;
    first [reflexivity | lia].
Qed.

Lemma Qleb_div1000 (d t : Z) :
  Qleb (inject_Z d / inject_Z 1000) (inject_Z t) = bool_decide (d <= 1000 * t).
Proof.
  unfold Qleb. rewrite Qgtb_div1000. repeat case_bool_decide; simpl; lia.
Qed.

(** ** The oldest call is one of minimum [createdAt] *)

Lemma older_createdAt (o c : Call.t) :
  Call.createdAt (Part002.older o c) = Z.min (Call.createdAt o) (Call.createdAt c).
Proof. unfold Part002.older. case_bool_decide; lia. Qed.

Lemma fold_older_createdAt (rest : list Call.t) (first : Call.t) :
  Call.createdAt (fold_left Part002.older rest first) = Spec.minCreatedAt first rest.
Proof.
  unfold Spec.minCreatedAt. revert first.
  induction rest as [|c rest IH]; intros first; simpl; [reflexivity|].
  rewrite IH, older_createdAt. reflexivity.
Qed.

Lemma fold_pick_createdAt (rest : list Call.t) (first : Call.t) :
  Call.createdAt
    (fold_left (fun a b => if bool_decide (Call.createdAt a < Call.createdAt b)
                           then a else b) rest first)
  = Spec.minCreatedAt first rest.
Proof.
  unfold Spec.minCreatedAt. revert first.
  induction rest as [|c rest IH]; intros first; simpl; [reflexivity|].
  rewrite IH. f_equal. case_bool_decide; lia.
Qed.

Lemma fold_min_le (l : list Z) (a : Z) : fold_left Z.min l a <= a.
Proof.
  revert a. induction l as [|x l IH]; intros a; simpl; [lia|].
  specialize (IH (Z.min a x)). lia.
Qed.

Lemma fold_min_lower (l : list Z) (a x : Z) : x ∈ l -> fold_left Z.min l a <= x.
Proof.
  revert a. induction l as [|y l IH]; intros a Hx; simpl.
  - inversion Hx.
  - apply elem_of_cons in Hx as [->|Hx].
    + pose proof (fold_min_le l (Z.min a y)). lia.
    + apply IH, Hx.
Qed.

Lemma fold_min_elem (l : list Z) (a : Z) :
  fold_left Z.min l a = a \/ fold_left Z.min l a ∈ l.
Proof.
  revert a. induction l as [|y l IH]; intros a; simpl; [left; reflexivity|].
  destruct (IH (Z.min a y)) as [H|H].
  - rewrite H. destruct (Z.min_spec a y) as [[_ ->]|[_ ->]];
      [left; reflexivity | right; left].
  - right; right; exact H.
Qed.

(** [minCreatedAt] is a lower bound of the set and is attained in it. *)
Lemma minCreatedAt_lower (first : Call.t) (rest : list Call.t) (c : Call.t) :
  c ∈ first :: rest -> Spec.minCreatedAt first rest <= Call.createdAt c.
Proof.
  unfold Spec.minCreatedAt. intros [->|Hc]%elem_of_cons.
  - apply fold_min_le.
  - apply fold_min_lower, list_elem_of_fmap. eauto.
Qed.

Lemma minCreatedAt_attained (first : Call.t) (rest : list Call.t) :
  exists c, c ∈ first :: rest /\ Spec.minCreatedAt first rest = Call.createdAt c.
Proof.
  unfold Spec.minCreatedAt.
  destruct (fold_min_elem (Call.createdAt <$> rest) (Call.createdAt first)) as [H|H].
  - exists first. split; [left | exact H].
  - apply list_elem_of_fmap in H as (c & Hc & Hin).
    exists c. split; [right; exact Hin | exact Hc].
Qed.

(** ** Counting by type *)

Lemma countOfType_cons (ty : CallType) (c : Call.t) (l : list Call.t) :
  Spec.countOfType ty (c :: l)
  = (if decide (Call.type c = ty) then 1 else 0) + Spec.countOfType ty l.
Proof.
  unfold Spec.countOfType. rewrite filter_cons.
  destruct (decide (Call.type c = ty)); simpl; lia.
Qed.

Lemma countOfType_nonneg (ty : CallType) (l : list Call.t) : 0 <= Spec.countOfType ty l.
Proof. unfold Spec.countOfType. lia. Qed.

Lemma countOfType_pos (l : list Call.t) (c : Call.t) :
  c ∈ l -> 0 < Spec.countOfType (Call.type c) l.
Proof.
  induction l as [|x l IH]; intros Hc; [inversion Hc|].
  rewrite countOfType_cons. pose proof (countOfType_nonneg (Call.type c) l).
  apply elem_of_cons in Hc as [->|Hc].
  - rewrite decide_True by reflexivity. lia.
  - specialize (IH Hc). destruct (decide _); lia.
Qed.

Lemma countOfType_present (l : list Call.t) (ty : CallType) :
  Spec.countOfType ty l <> 0 -> exists c, c ∈ l /\ Call.type c = ty.
Proof.
  induction l as [|x l IH]; intros Hn.
  - exfalso. apply Hn. reflexivity.
  - rewrite countOfType_cons in Hn. destruct (decide (Call.type x = ty)) as [E|E].
    + exists x. split; [left | exact E].
    + destruct IH as (c & Hc & Ht); [lia|]. exists c. split; [right; exact Hc | exact Ht].
Qed.

Lemma callsByType_fold (l : list Call.t) (acc : gmap string Z) (ty : CallType) :
  fold_left (fun acc call =>
               <[Call.type call := default 0 (acc !! Call.type call) + 1]> acc) l acc !! ty
  = if decide (Spec.countOfType ty l = 0) then acc !! ty
    else Some (default 0 (acc !! ty) + Spec.countOfType ty l).
Proof.
  revert acc. induction l as [|c l IH]; intros acc.
  - reflexivity.
  - simpl fold_left. rewrite IH, countOfType_cons.
    pose proof (countOfType_nonneg ty l).
    destruct (decide (Call.type c = ty)) as [E|E].
    + subst ty. rewrite lookup_insert_eq. simpl.
      destruct (decide (Spec.countOfType (Call.type c) l = 0)) as [Z0|Z0].
      * rewrite Z0. rewrite decide_False by lia. reflexivity.
      * rewrite decide_False by lia. f_equal. lia.
    + rewrite lookup_insert_ne by exact E. rewrite !Z.add_0_l. reflexivity.
Qed.

(** The dictionary built by the reducer holds, for each type that occurs, the
    number of calls of that type. *)
Lemma callsByType_lookup (l : list Call.t) (ty : CallType) :
  Part002.callsByType l !! ty
  = if decide (Spec.countOfType ty l = 0) then None
    else Some (Spec.countOfType ty l).
Proof.
  unfold Part002.callsByType. rewrite callsByType_fold, lookup_empty. simpl.
  destruct (decide _); reflexivity.
Qed.

Lemma values_some_spec (p : Z -> bool) (o : gmap string Z) :
  Part002.values_some p o = true <-> exists k v, o !! k = Some v /\ p v = true.
Proof.
  unfold Part002.values_some. rewrite existsb_exists. split.
  - intros (v & Hin & Hp). apply list_elem_of_In, list_elem_of_fmap in Hin.
    destruct Hin as ([k v'] & -> & Hin). apply elem_of_map_to_list in Hin.
    exists k, v'. split; assumption.
  - intros (k & v & Hl & Hp). exists v. split; [|exact Hp].
    apply list_elem_of_In, list_elem_of_fmap. exists (k, v).
    split; [reflexivity|]. apply elem_of_map_to_list, Hl.
Qed.

Lemma values_some_callsByType (p : Z -> bool) (l : list Call.t) :
  Part002.values_some p (Part002.callsByType l) = true
  <-> exists c, c ∈ l /\ p (Spec.countOfType (Call.type c) l) = true.
Proof.
  rewrite values_some_spec. split.
  - intros (k & v & Hl & Hp). rewrite callsByType_lookup in Hl.
    destruct (decide (Spec.countOfType k l = 0)) as [|Hn]; [discriminate|].
    injection Hl as <-. destruct (countOfType_present l k Hn) as (c & Hc & <-).
    exists c. split; assumption.
  - intros (c & Hc & Hp). exists (Call.type c), (Spec.countOfType (Call.type c) l).
    split; [|exact Hp]. rewrite callsByType_lookup.
    pose proof (countOfType_pos l c Hc). rewrite decide_False by lia. reflexivity.
Qed.

Lemma foldr_max_ub (l : list Z) (x : Z) : x ∈ l -> x <= foldr Z.max 0 l.
Proof.
  induction l as [|y l IH]; intros Hx; [inversion Hx|]. simpl.
  apply elem_of_cons in Hx as [->|Hx]; [lia|]. specialize (IH Hx). lia.
Qed.

Lemma foldr_max_elem (l : list Z) : foldr Z.max 0 l = 0 \/ foldr Z.max 0 l ∈ l.
Proof.
  induction l as [|y l IH]; [left; reflexivity|]. simpl.
  destruct (Z.max_spec y (foldr Z.max 0 l)) as [[_ ->]|[_ ->]].
  - destruct IH as [H|H]; [left; exact H | right; right; exact H].
  - right; left.
Qed.

Lemma maxCount_ub (l : list Call.t) (c : Call.t) :
  c ∈ l -> Spec.countOfType (Call.type c) l <= Spec.maxCount l.
Proof.
  intros Hc. unfold Spec.maxCount. apply foldr_max_ub.
  apply list_elem_of_fmap. exists c. split; [reflexivity | exact Hc].
Qed.

Lemma maxCount_attained (l : list Call.t) :
  l <> [] -> exists c, c ∈ l /\ Spec.maxCount l = Spec.countOfType (Call.type c) l.
Proof.
  intros Hne. unfold Spec.maxCount.
  destruct (foldr_max_elem ((fun c => Spec.countOfType (Call.type c) l) <$> l)) as [H|H].
  - destruct l as [|c l]; [congruence|]. exfalso.
    pose proof (maxCount_ub (c :: l) c (list_elem_of_here _ _)) as Hub.
    pose proof (countOfType_pos (c :: l) c (list_elem_of_here _ _)).
    unfold Spec.maxCount in Hub. lia.
  - apply list_elem_of_fmap in H as (c & Hc & Hin). exists c. split; assumption.
Qed.

Lemma redByQty_maxCount (l : list Call.t) (q : Z) :
  l <> [] ->
  Part002.values_some (fun count => bool_decide (count > q)) (Part002.callsByType l)
  = bool_decide (q < Spec.maxCount l).
Proof.
  intros Hne. apply Bool.eq_iff_eq_true.
  rewrite values_some_callsByType, bool_decide_eq_true. split.
  - intros (c & Hc & Hp). apply bool_decide_eq_true in Hp.
    pose proof (maxCount_ub l c Hc). lia.
  - intros Hq. destruct (maxCount_attained l Hne) as (c & Hc & Hm).
    exists c. split; [exact Hc|]. apply bool_decide_eq_true. lia.
Qed.

Lemma yellowByQty_maxCount (l : list Call.t) (g y : Z) :
  l <> [] -> Spec.maxCount l <= y ->
  Part002.values_some (fun count => bool_decide (count > g) && bool_decide (count <= y))
                     (Part002.callsByType l)
  = bool_decide (g < Spec.maxCount l) && bool_decide (Spec.maxCount l <= y).
Proof.
  intros Hne Hy. apply Bool.eq_iff_eq_true.
  rewrite values_some_callsByType, andb_true_iff, !bool_decide_eq_true. split.
  - intros (c & Hc & Hp). apply andb_true_iff in Hp as [Hg _].
    apply bool_decide_eq_true in Hg. pose proof (maxCount_ub l c Hc). lia.
  - intros [Hg _]. destruct (maxCount_attained l Hne) as (c & Hc & Hm).
    exists c. split; [exact Hc|].
    apply andb_true_iff; split; apply bool_decide_eq_true; lia.
Qed.

Lemma notTerminal_active (s : CallStatus) :
  Part002.notTerminal s = true <-> s = SENT \/ s = VIEWED.
Proof. destruct s; cbv; intuition congruence. Qed.

Lemma isActive_active (s : CallStatus) :
  isActive s = true <-> s = SENT \/ s = VIEWED.
Proof. destruct s; cbv; intuition congruence. Qed.

(** The calculator of [part_002] computes the rule of section 4.1 on every
    table and for all settings. *)
Lemma Part002_tableStatus_refines_spec (now : Z) (table : Table.t) (settings : Settings.t) :
  Part002.getTableSemaphoreStatus now table settings = Spec.tableStatus now table settings.
Proof.
  unfold Part002.getTableSemaphoreStatus, Spec.tableStatus.
  rewrite (list_filter_iff _ (fun c => Call.status c = SENT \/ Call.status c = VIEWED))
    by (intros c; apply notTerminal_active).
  destruct (filter _ (Table.calls table)) as [|first rest]; [reflexivity|].
  cbn [reduce1]. unfold elapsedSeconds, Spec.rule, Spec.elapsed.
  rewrite fold_older_createdAt.
  rewrite redByQty_maxCount by discriminate.
  destruct (bool_decide (Settings.qtyYellow settings < Spec.maxCount (first :: rest))) eqn:Hred.
  - rewrite !orb_true_r. reflexivity.
  - apply bool_decide_eq_false in Hred.
    rewrite yellowByQty_maxCount by (first [discriminate | lia]).
    reflexivity.
Qed.

(** The calculator of [src/hooks] applies the time condition alone. *)
Lemma Hooks_tableStatus_time_only (now : Z) (table : Table.t) (settings : Settings.t) :
  Hooks.getTableSemaphoreStatus now table settings
  = match filter (fun c => Call.status c = SENT \/ Call.status c = VIEWED)
                 (Table.calls table) with
    | [] => IDLE
    | first :: rest =>
        Spec.timeRule (Spec.elapsed now (Spec.minCreatedAt first rest)) settings
    end.
Proof.
  unfold Hooks.getTableSemaphoreStatus.
  rewrite (list_filter_iff _ (fun c => Call.status c = SENT \/ Call.status c = VIEWED))
    by (intros c; apply isActive_active).
  destruct (filter _ (Table.calls table)) as [|first rest]; [reflexivity|].
  cbn [reduce1]. unfold elapsedSeconds, Spec.timeRule, Spec.elapsed.
  rewrite fold_pick_createdAt, !Qgtb_div1000, Qleb_div1000.
  repeat case_bool_decide; simpl; first [reflexivity | lia].
Qed.

(** ** Monotonicity of the rule *)

Lemma rule_mono (now now' m m' k k' : Z) (settings : Settings.t) :
  now - m <= now' - m' -> k <= k' ->
  Spec.rule (Spec.elapsed now m) k settings ⊑ Spec.rule (Spec.elapsed now' m') k' settings.
Proof.
  intros Ht Hk. unfold Spec.rule, Spec.elapsed, Spec.le.
  rewrite !Qgtb_div1000, !Qleb_div1000.
  destruct (bool_decide (1000 * Settings.timeYellow settings < now' - m')) eqn:R1.
  { cbn [orb]. repeat case_bool_decide; simpl; lia. }
  destruct (bool_decide (Settings.qtyYellow settings < k')) eqn:R2.
  { cbn [orb]. repeat case_bool_decide; simpl; lia. }
  apply bool_decide_eq_false in R1, R2.
  rewrite (bool_decide_eq_false_2 (1000 * Settings.timeYellow settings < now - m)) by lia.
  rewrite (bool_decide_eq_false_2 (Settings.qtyYellow settings < k)) by lia.
  cbn [orb].
  repeat case_bool_decide; simpl; lia.
Qed.

Lemma timeRule_mono (now now' m m' : Z) (settings : Settings.t) :
  now - m <= now' - m' ->
  Spec.timeRule (Spec.elapsed now m) settings ⊑ Spec.timeRule (Spec.elapsed now' m') settings.
Proof.
  intros Ht. unfold Spec.timeRule, Spec.elapsed, Spec.le.
  rewrite !Qgtb_div1000, !Qleb_div1000.
  repeat case_bool_decide; simpl; lia.
Qed.

Lemma filter_sublist_mono {A} (P : A -> Prop) `{!forall x, Decision (P x)} (l1 l2 : list A) :
  l1 `sublist_of` l2 -> filter P l1 `sublist_of` filter P l2.
Proof.
  induction 1 as [|x l1 l2 _ IH|x l1 l2 _ IH].
  - constructor.
  - rewrite !filter_cons. destruct (decide (P x)); [constructor|]; exact IH.
  - rewrite filter_cons. destruct (decide (P x)); [constructor|]; exact IH.
Qed.

Lemma countOfType_sublist (ty : CallType) (l1 l2 : list Call.t) :
  l1 `sublist_of` l2 -> Spec.countOfType ty l1 <= Spec.countOfType ty l2.
Proof.
  intros H. unfold Spec.countOfType.
  apply (filter_sublist_mono (fun c => Call.type c = ty)) in H.
  apply sublist_length in H. lia.
Qed.

Lemma minCreatedAt_sublist (f1 f2 : Call.t) (r1 r2 : list Call.t) :
  f1 :: r1 `sublist_of` f2 :: r2 ->
  Spec.minCreatedAt f2 r2 <= Spec.minCreatedAt f1 r1.
Proof.
  intros H. destruct (minCreatedAt_attained f1 r1) as (c & Hc & ->).
  apply minCreatedAt_lower. eapply sublist_subseteq; eassumption.
Qed.

Lemma maxCount_sublist (l1 l2 : list Call.t) :
  l1 `sublist_of` l2 -> Spec.maxCount l1 <= Spec.maxCount l2.
Proof.
  intros H. destruct l1 as [|c0 l1].
  - unfold Spec.maxCount at 1. simpl.
    destruct l2 as [|c l2]; [reflexivity|].
    pose proof (maxCount_ub (c :: l2) c (list_elem_of_here _ _)).
    pose proof (countOfType_nonneg (Call.type c) (c :: l2)). lia.
  - destruct (maxCount_attained (c0 :: l1)) as (c & Hc & ->); [discriminate|].
    pose proof (countOfType_sublist (Call.type c) _ _ H).
    assert (c ∈ l2) as Hc2 by (eapply sublist_subseteq; eassumption).
    pose proof (maxCount_ub l2 c Hc2). lia.
Qed.

(** The rule of section 4.1 never lowers the status when time passes or when
    calls are added to the table. *)
Lemma Spec_tableStatus_mono (now now' : Z) (calls calls' : list Call.t)
    (n n' : string) (settings : Settings.t) :
  now <= now' -> calls `sublist_of` calls' ->
  Spec.tableStatus now (Table.mk n calls) settings
  ⊑ Spec.tableStatus now' (Table.mk n' calls') settings.
Proof.
  intros Hnow Hsub. unfold Spec.tableStatus. cbn [Table.calls].
  apply (filter_sublist_mono (fun c => Call.status c = SENT \/ Call.status c = VIEWED))
    in Hsub.
  destruct (filter _ calls) as [|f1 r1]; [unfold Spec.le; simpl; lia|].
  destruct (filter _ calls') as [|f2 r2]; [apply sublist_nil_r in Hsub; discriminate|].
  apply rule_mono.
  - pose proof (minCreatedAt_sublist _ _ _ _ Hsub). lia.
  - apply maxCount_sublist, Hsub.
Qed.

Lemma Hooks_tableStatus_mono (now now' : Z) (calls calls' : list Call.t)
    (n n' : string) (settings : Settings.t) :
  now <= now' -> calls `sublist_of` calls' ->
  Hooks.getTableSemaphoreStatus now (Table.mk n calls) settings
  ⊑ Hooks.getTableSemaphoreStatus now' (Table.mk n' calls') settings.
Proof.
  intros Hnow Hsub. rewrite !Hooks_tableStatus_time_only. cbn [Table.calls].
  apply (filter_sublist_mono (fun c => Call.status c = SENT \/ Call.status c = VIEWED))
    in Hsub.
  destruct (filter _ calls) as [|f1 r1].
  { unfold Spec.le. simpl. lia. }
  destruct (filter _ calls') as [|f2 r2]; [apply sublist_nil_r in Hsub; discriminate|].
  apply timeRule_mono.
  pose proof (minCreatedAt_sublist _ _ _ _ Hsub). lia.
Qed.

(** ** Claims on the escalation calculator *)

(** C1. The scenario of section 8: with settings
    [{timeGreen:30, timeYellow:90, qtyGreen:2, qtyYellow:4}] and three active
    WAITER calls created 10 seconds ago, the rule of section 4.1 and the
    calculator of [part_002] give YELLOW, while the calculator of
    [src/hooks/useMockData.ts], which never reads the quantity thresholds,
    gives GREEN. *)
Theorem C1_hooks_tableStatus_ignores_quantity :
  Spec.tableStatus 10000 scenarioTable scenarioSettings = YELLOW
  /\ Part002.getTableSemaphoreStatus 10000 scenarioTable scenarioSettings = YELLOW
  /\ Hooks.getTableSemaphoreStatus 10000 scenarioTable scenarioSettings = GREEN.
Proof. repeat split; vm_compute; reflexivity. Qed.

(** The calculator of [part_002] at call-type granularity is the rule of
    section 4.1 on the calls of that type: time and quantity. *)
Lemma Part002_callTypeStatus_rule (now : Z) (table : Table.t) (type : CallType)
    (settings : Settings.t) :
  Part002.getCallTypeSemaphoreStatus now table type settings
  = match filter (fun c => Call.type c = type /\ (Call.status c = SENT \/ Call.status c = VIEWED))
                 (Table.calls table) with
    | [] => IDLE
    | first :: rest =>
        Spec.rule (Spec.elapsed now (Spec.minCreatedAt first rest))
                  (Z.of_nat (length (first :: rest))) settings
    end.
Proof.
  unfold Part002.getCallTypeSemaphoreStatus.
  rewrite (list_filter_iff _
             (fun c => Call.type c = type /\ (Call.status c = SENT \/ Call.status c = VIEWED))).
  2:{ intros c. rewrite andb_true_iff, bool_decide_eq_true, isActive_active.
      reflexivity. }
  destruct (filter _ (Table.calls table)) as [|first rest]; [reflexivity|].
  unfold elapsedSeconds, Spec.rule, Spec.elapsed.
  cbn [fold_left]. rewrite fold_older_createdAt.
  replace (Spec.minCreatedAt (Part002.older first first) rest)
    with (Spec.minCreatedAt first rest).
  2:{ unfold Spec.minCreatedAt. rewrite older_createdAt, Z.min_id. reflexivity. }
  repeat case_bool_decide; simpl; first [reflexivity | lia].
Qed.

(** The time condition alone never asks for more than the full rule. *)
Lemma timeRule_le_rule (e : Q) (k : Z) (settings : Settings.t) :
  Spec.timeRule e settings ⊑ Spec.rule e k settings.
Proof.
  unfold Spec.timeRule, Spec.rule, Spec.le.
  destruct (Qgtb e (inject_Z (Settings.timeYellow settings))); simpl; [lia|].
  destruct (bool_decide (Settings.qtyYellow settings < k)); simpl.
  - destruct (_ && _); simpl; lia.
  - destruct (Qgtb e (inject_Z (Settings.timeGreen settings)) && _); simpl; [lia|].
    destruct (_ && _); simpl; lia.
Qed.

(** C2. At call-type granularity the calculator of
    [src/hooks/useMockData.ts] has no YELLOW state and takes the first listed
    call as the oldest: for one active WAITER call created 60 seconds ago
    ([timeGreen] = 30, [timeYellow] = 90) the time rule and the calculator of
    [part_002] give YELLOW and [src/hooks] gives GREEN; for two active calls
    aged 50 and 100 seconds, newer first, the time rule gives RED and
    [src/hooks] gives GREEN. *)
Theorem C2_hooks_callTypeStatus_misses_time_rule :
  (Spec.timeRule (Spec.elapsed 60000 0) scenarioSettings = YELLOW
   /\ Part002.getCallTypeSemaphoreStatus 60000 oneCallTable "WAITER" scenarioSettings = YELLOW
   /\ Hooks.getCallTypeSemaphoreStatus 60000 oneCallTable "WAITER" scenarioSettings = GREEN)
  /\ (Spec.timeRule (Spec.elapsed 100000 0) scenarioSettings = RED
      /\ Part002.getCallTypeSemaphoreStatus 100000 newerFirstTable "WAITER" scenarioSettings = RED
      /\ Hooks.getCallTypeSemaphoreStatus 100000 newerFirstTable "WAITER" scenarioSettings = GREEN).
Proof. repeat split; vm_compute; reflexivity. Qed.

(** C7. For settings with [timeGreen < timeYellow] and [qtyGreen < qtyYellow],
    the table status of both calculators never decreases in the order
    IDLE < GREEN < YELLOW < RED when the clock advances ([now <= now'], so the
    time elapsed since the oldest active call grows) or when calls are added
    to the table ([calls] is a sublist of [calls'], so the active count of
    every type stays or grows). *)
Theorem C7_tableStatus_monotone (settings : Settings.t) (now now' : Z)
    (n : string) (calls calls' : list Call.t) :
  Settings.timeGreen settings < Settings.timeYellow settings ->
  Settings.qtyGreen settings < Settings.qtyYellow settings ->
  now <= now' ->
  calls `sublist_of` calls' ->
  Part002.getTableSemaphoreStatus now (Table.mk n calls) settings
    ⊑ Part002.getTableSemaphoreStatus now' (Table.mk n calls') settings
  /\ Hooks.getTableSemaphoreStatus now (Table.mk n calls) settings
    ⊑ Hooks.getTableSemaphoreStatus now' (Table.mk n calls') settings.
Proof.
  intros _ _ Hnow Hsub. split.
  - rewrite !Part002_tableStatus_refines_spec. apply Spec_tableStatus_mono; assumption.
  - apply Hooks_tableStatus_mono; assumption.
Qed.

Lemma C7_tableStatus_monotone_witness :
  Part002.getTableSemaphoreStatus 10000 (Table.mk "5" [waiter "a" 0]) scenarioSettings
    ⊑ Part002.getTableSemaphoreStatus 40000
        (Table.mk "5" [waiter "a" 0; waiter "b" 0; waiter "c" 0]) scenarioSettings
  /\ Hooks.getTableSemaphoreStatus 10000 (Table.mk "5" [waiter "a" 0]) scenarioSettings
    ⊑ Hooks.getTableSemaphoreStatus 40000
        (Table.mk "5" [waiter "a" 0; waiter "b" 0; waiter "c" 0]) scenarioSettings.
Proof.
  apply (C7_tableStatus_monotone scenarioSettings 10000 40000 "5").
  - simpl. lia.
  - simpl. lia.
  - lia.
  - apply sublist_skip, sublist_nil_l.
Defined.

(** ** The table map built by a refresh *)

Lemma pushCall_lookup_is_Some (m : gmap string Table.t) (c : DBCall.t) (k : string) :
  is_Some (pushCall m c !! k) <-> is_Some (m !! k) \/ k = DBCall.table_number c.
Proof.
  unfold pushCall. rewrite lookup_insert_is_Some. split.
  - intros [->|[_ H]]; [right; reflexivity | left; exact H].
  - intros [H| ->]; [|left; reflexivity].
    destruct (decide (DBCall.table_number c = k)); [left | right]; auto.
Qed.

Lemma pushCalls_lookup_is_Some (calls : list DBCall.t) (m : gmap string Table.t)
    (k : string) :
  is_Some (foldl pushCall m calls !! k)
  <-> is_Some (m !! k) \/ exists c, c ∈ calls /\ DBCall.table_number c = k.
Proof.
  revert m. induction calls as [|c calls IH]; intros m.
  - simpl. split; [left; assumption|]. intros [H|(c & Hc & _)]; [exact H | inversion Hc].
  - change (foldl pushCall m (c :: calls)) with (foldl pushCall (pushCall m c) calls).
    rewrite IH, pushCall_lookup_is_Some. split.
    + intros [[H| ->]|(c' & Hc' & Hk)]; [left; exact H | right | right].
      * exists c. split; [left | reflexivity].
      * exists c'. split; [right; exact Hc' | exact Hk].
    + intros [H|(c' & Hc' & Hk)]; [left; left; exact H|].
      apply elem_of_cons in Hc' as [->|Hc'].
      * left; right. symmetry; exact Hk.
      * right. exists c'. split; assumption.
Qed.

Lemma ensureTable_lookup_is_Some (m : gmap string Table.t) (i : Z) (k : string) :
  is_Some (ensureTable m i !! k) <-> is_Some (m !! k) \/ k = pretty i.
Proof.
  unfold ensureTable. destruct (m !! pretty i) as [t|] eqn:E.
  - split; [left; assumption|]. intros [H| ->]; [exact H | rewrite E; eauto].
  - rewrite lookup_insert_is_Some. split.
    + intros [<-|[_ H]]; [right; reflexivity | left; exact H].
    + intros [H| ->]; [|left; reflexivity].
      destruct (decide (pretty i = k)); [left | right]; auto.
Qed.

Lemma ensureTables_lookup_is_Some (n : Z) (m : gmap string Table.t) (k : string) :
  is_Some (ensureTables m n !! k)
  <-> is_Some (m !! k) \/ exists i, 1 <= i <= n /\ k = pretty i.
Proof.
  unfold ensureTables.
  assert (forall (l : list Z) (m : gmap string Table.t),
             is_Some (foldl ensureTable m l !! k)
             <-> is_Some (m !! k) \/ exists i, i ∈ l /\ k = pretty i) as Hgen.
  { induction l as [|i l IH]; intros m'.
    - simpl. split; [left; assumption|]. intros [H|(i & Hi & _)]; [exact H | inversion Hi].
    - change (foldl ensureTable m' (i :: l)) with (foldl ensureTable (ensureTable m' i) l).
      rewrite IH, ensureTable_lookup_is_Some. split.
      + intros [[H| ->]|(j & Hj & Hk)]; [left; exact H | right | right].
        * exists i. split; [left | reflexivity].
        * exists j. split; [right; exact Hj | exact Hk].
      + intros [H|(j & Hj & Hk)]; [left; left; exact H|].
        apply elem_of_cons in Hj as [->|Hj].
        * left; right. exact Hk.
        * right. exists j. split; assumption. }
  rewrite Hgen. split; (intros [H|(i & Hi & Hk)]; [left; exact H | right; exists i]).
  - apply elem_of_seqZ in Hi. split; [lia | exact Hk].
  - split; [apply elem_of_seqZ; lia | exact Hk].
Qed.

Lemma empty_tables_lookup (k : string) : is_Some ((∅ : gmap string Table.t) !! k) <-> False.
Proof. rewrite lookup_empty. split; [apply is_Some_None | contradiction]. Qed.

(** The number of declared tables used by the loop is the [totalTables] of
    the settings the aggregate carries, unless that is 0. *)
Lemma totalTablesOf_settings (D : Settings.t) (settings : option Settings.t) :
  Settings.totalTables (default D settings) <> 0 ->
  Hooks.totalTablesOf D settings = Settings.totalTables (default D settings)
  /\ Part002.totalTablesOf D settings = Settings.totalTables (default D settings).
Proof.
  unfold Hooks.totalTablesOf, Part002.totalTablesOf.
  destruct settings as [s|]; simpl; [|auto].
  intros H. rewrite bool_decide_eq_false_2 by exact H. auto.
Qed.

(** Keys of a table map built from fetched rows and a table count [n] that
    agrees with [total] unless [total] is 0. *)
Lemma built_keys (fetched : list DBCall.t) (n total : Z) :
  (total <> 0 -> n = total) ->
  (forall k, (exists i, 1 <= i <= total /\ k = pretty i)
             \/ (exists c, c ∈ fetched /\ DBCall.table_number c = k) ->
             is_Some (ensureTables (foldl pushCall ∅ fetched) n !! k))
  /\ (total <> 0 ->
      forall k, is_Some (ensureTables (foldl pushCall ∅ fetched) n !! k) ->
                (exists i, 1 <= i <= total /\ k = pretty i)
                \/ (exists c, c ∈ fetched /\ DBCall.table_number c = k)).
Proof.
  intros Hn. split.
  - intros k Hk. apply ensureTables_lookup_is_Some. destruct Hk as [(i & Hi & ->)|Hc].
    + right. exists i. split; [|reflexivity].
      destruct (decide (total = 0)) as [E|E]; [lia | rewrite (Hn E); exact Hi].
    + left. apply pushCalls_lookup_is_Some. right. exact Hc.
  - intros Ht k Hk. rewrite (Hn Ht) in Hk.
    apply ensureTables_lookup_is_Some in Hk as [Hk|Hk]; [right | left; exact Hk].
    apply pushCalls_lookup_is_Some in Hk as [Hk|Hk]; [|exact Hk].
    apply empty_tables_lookup in Hk. contradiction.
Qed.

(** C9, as stated, fails in three ways. In [src/hooks], table 7 of ["e1"]
    received a call that has since been attended, two tables are declared,
    and the table map built by a successful refresh has entries 1 and 2 and
    none for 7. In [src/hooks] again, when the row of the establishment is
    fetched and the calls query is answered with an error, the aggregate is
    stored with entries 1 and 2 and none for table 5, which holds active
    calls. In both hooks, for an establishment whose settings declare 0
    tables and which never received a call, the aggregate built by a
    successful refresh carries these settings and has an entry for table 1. *)
Lemma C9_table_map_not_as_claimed :
  ((exists c, c ∈ Remote.calls attendedRemote
              /\ DBCall.establishment_id c = "e1" /\ DBCall.table_number c = "7")
   /\ exists e,
       (Hooks.loadEstablishmentData scenarioSettings ownerState Up (Some attendedRemote)
          "e1" ownerState).1 = Some e
       /\ is_Some (Establishment.tables e !! "1")
       /\ is_Some (Establishment.tables e !! "2")
       /\ Establishment.tables e !! "7" = None)
  /\ ((exists c, c ∈ Remote.calls busyRemote
                 /\ DBCall.establishment_id c = "e1" /\ DBCall.table_number c = "5"
                 /\ DBCall.status c = SENT)
      /\ exists e,
          Hooks.loadEstablishmentData scenarioSettings ownerState (CallsDown "500")
            (Some busyRemote) "e1" ownerState
          = (Some e, setEstablishments (fun prev => <["e1" := e]> prev) ownerState)
          /\ is_Some (Establishment.tables e !! "1")
          /\ is_Some (Establishment.tables e !! "2")
          /\ Establishment.tables e !! "5" = None)
  /\ (Remote.calls noTablesRemote = []
      /\ (exists e,
            (Hooks.loadEstablishmentData scenarioSettings ownerState Up
               (Some noTablesRemote) "e1" ownerState).1 = Some e
            /\ Settings.totalTables (Establishment.settings e) = 0
            /\ is_Some (Establishment.tables e !! "1"))
      /\ (exists e,
            (Part002.loadEstablishmentData scenarioSettings (Some noTablesRemote) "e1"
               ownerState).1 = Some e
            /\ Settings.totalTables (Establishment.settings e) = 0
            /\ is_Some (Establishment.tables e !! "1"))).
Proof.
  split; [split|split; [split|split; [reflexivity|split]]].
  - eexists. split; [left|]. split; reflexivity.
  - eexists. split; [reflexivity|]. vm_compute. repeat split; eauto.
  - eexists. split; [left|]. repeat split; reflexivity.
  - eexists. split; [reflexivity|]. vm_compute. repeat split; eauto.
  - eexists. split; [reflexivity|]. vm_compute. repeat split; eauto.
  - eexists. split; [reflexivity|]. vm_compute. repeat split; eauto.
Qed.

(** C9, amended. After a successful refresh the table map has an entry for
    the decimal numeral of every number from 1 to the [totalTables] of the
    settings of the aggregate, and an entry for the table number of every
    call the refresh fetched for the establishment: every call in
    [part_002]; in [src/hooks] the calls in status SENT or VIEWED, and none
    when the calls query is answered with an error. When that [totalTables]
    is not 0 the table map has no other entry. *)
Theorem C9_table_map_keys (D : Settings.t) (render st : State.t) (sb : Remote.t)
    (estId : string) (est : DBEstablishment.t) :
  filter (fun e => DBEstablishment.id e = estId) (Remote.establishments sb) = [est] ->
  (exists e,
      Hooks.loadEstablishmentData D render Up (Some sb) estId st
      = (Some e, setEstablishments (fun prev => <[estId := e]> prev) st)
      /\ Establishment.settings e = default D (DBEstablishment.settings est)
      /\ (forall k,
            (exists i, 1 <= i <= Settings.totalTables (Establishment.settings e)
                       /\ k = pretty i)
            \/ (exists c, c ∈ Remote.calls sb /\ DBCall.establishment_id c = estId
                          /\ (DBCall.status c = SENT \/ DBCall.status c = VIEWED)
                          /\ DBCall.table_number c = k) ->
            is_Some (Establishment.tables e !! k))
      /\ (Settings.totalTables (Establishment.settings e) <> 0 ->
          forall k, is_Some (Establishment.tables e !! k) ->
            (exists i, 1 <= i <= Settings.totalTables (Establishment.settings e)
                       /\ k = pretty i)
            \/ (exists c, c ∈ Remote.calls sb /\ DBCall.establishment_id c = estId
                          /\ (DBCall.status c = SENT \/ DBCall.status c = VIEWED)
                          /\ DBCall.table_number c = k)))
  /\ (forall code, exists e,
      Hooks.loadEstablishmentData D render (CallsDown code) (Some sb) estId st
      = (Some e, setEstablishments (fun prev => <[estId := e]> prev) st)
      /\ Establishment.settings e = default D (DBEstablishment.settings est)
      /\ (forall i, 1 <= i <= Settings.totalTables (Establishment.settings e) ->
                    is_Some (Establishment.tables e !! pretty i))
      /\ (Settings.totalTables (Establishment.settings e) <> 0 ->
          forall k, is_Some (Establishment.tables e !! k) ->
            exists i, 1 <= i <= Settings.totalTables (Establishment.settings e)
                      /\ k = pretty i))
  /\ (exists e,
      Part002.loadEstablishmentData D (Some sb) estId st
      = (Some e, setEstablishments (fun prev => <[estId := e]> prev) st)
      /\ Establishment.settings e = default D (DBEstablishment.settings est)
      /\ (forall k,
            (exists i, 1 <= i <= Settings.totalTables (Establishment.settings e)
                       /\ k = pretty i)
            \/ (exists c, c ∈ Remote.calls sb /\ DBCall.establishment_id c = estId
                          /\ DBCall.table_number c = k) ->
            is_Some (Establishment.tables e !! k))
      /\ (Settings.totalTables (Establishment.settings e) <> 0 ->
          forall k, is_Some (Establishment.tables e !! k) ->
            (exists i, 1 <= i <= Settings.totalTables (Establishment.settings e)
                       /\ k = pretty i)
            \/ (exists c, c ∈ Remote.calls sb /\ DBCall.establishment_id c = estId
                          /\ DBCall.table_number c = k))).
Proof.
  intros Hrow.
  pose proof (totalTablesOf_settings D (DBEstablishment.settings est)) as HN.
  split; [|split].
  - unfold Hooks.loadEstablishmentData, Hooks.fetchEstablishment, Hooks.fetchActiveCalls.
    rewrite Hrow. cbn [maybeSingle]. eexists. split; [reflexivity|].
    split; [reflexivity|]. cbn [Establishment.tables Establishment.settings].
    destruct (built_keys
                (filter (fun c => DBCall.establishment_id c = estId
                                  /\ (DBCall.status c = SENT \/ DBCall.status c = VIEWED))
                        (Remote.calls sb))
                (Hooks.totalTablesOf D (DBEstablishment.settings est))
                (Settings.totalTables (default D (DBEstablishment.settings est))))
      as [Hsub Hsup].
    { intros E. apply HN, E. }
    split.
    + intros k [Hi|(c & Hc & He & Hs & Hk)]; apply Hsub; [left; exact Hi | right].
      exists c. split; [|exact Hk]. apply list_elem_of_filter. auto.
    + intros Ht k Hk. destruct (Hsup Ht k Hk) as [Hi|(c & Hc & Hck)]; [left; exact Hi | right].
      apply list_elem_of_filter in Hc as [[He Hs] Hc]. exists c. auto.
  - intros code.
    unfold Hooks.loadEstablishmentData, Hooks.fetchEstablishment, Hooks.fetchActiveCalls.
    rewrite Hrow. cbn [maybeSingle]. eexists. split; [reflexivity|].
    split; [reflexivity|]. cbn [Establishment.tables Establishment.settings].
    destruct (built_keys []
                (Hooks.totalTablesOf D (DBEstablishment.settings est))
                (Settings.totalTables (default D (DBEstablishment.settings est))))
      as [Hsub Hsup].
    { intros E. apply HN, E. }
    split.
    + intros i Hi. apply Hsub. left. exists i. auto.
    + intros Ht k Hk. destruct (Hsup Ht k Hk) as [Hi|(c & Hc & _)]; [exact Hi | inversion Hc].
  - unfold Part002.loadEstablishmentData. rewrite Hrow.
    eexists. split; [reflexivity|].
    split; [reflexivity|]. cbn [Establishment.tables Establishment.settings].
    destruct (built_keys
                (filter (fun c => DBCall.establishment_id c = estId) (Remote.calls sb))
                (Part002.totalTablesOf D (DBEstablishment.settings est))
                (Settings.totalTables (default D (DBEstablishment.settings est))))
      as [Hsub Hsup].
    { intros E. apply HN, E. }
    split.
    + intros k [Hi|(c & Hc & He & Hk)]; apply Hsub; [left; exact Hi | right].
      exists c. split; [|exact Hk]. apply list_elem_of_filter. auto.
    + intros Ht k Hk. destruct (Hsup Ht k Hk) as [Hi|(c & Hc & Hck)]; [left; exact Hi | right].
      apply list_elem_of_filter in Hc as [He Hc]. exists c. auto.
Qed.

Lemma C9_table_map_keys_witness :
  (exists e,
      Hooks.loadEstablishmentData scenarioSettings ownerState Up (Some busyRemote) "e1"
        ownerState
      = (Some e, setEstablishments (fun prev => <["e1" := e]> prev) ownerState)
      /\ Establishment.settings e
         = default scenarioSettings (DBEstablishment.settings (cantinaRow true 2))
      /\ (forall k,
            (exists i, 1 <= i <= Settings.totalTables (Establishment.settings e)
                       /\ k = pretty i)
            \/ (exists c, c ∈ Remote.calls busyRemote /\ DBCall.establishment_id c = "e1"
                          /\ (DBCall.status c = SENT \/ DBCall.status c = VIEWED)
                          /\ DBCall.table_number c = k) ->
            is_Some (Establishment.tables e !! k))
      /\ (Settings.totalTables (Establishment.settings e) <> 0 ->
          forall k, is_Some (Establishment.tables e !! k) ->
            (exists i, 1 <= i <= Settings.totalTables (Establishment.settings e)
                       /\ k = pretty i)
            \/ (exists c, c ∈ Remote.calls busyRemote /\ DBCall.establishment_id c = "e1"
                          /\ (DBCall.status c = SENT \/ DBCall.status c = VIEWED)
                          /\ DBCall.table_number c = k)))
  /\ (forall code, exists e,
      Hooks.loadEstablishmentData scenarioSettings ownerState (CallsDown code)
        (Some busyRemote) "e1" ownerState
      = (Some e, setEstablishments (fun prev => <["e1" := e]> prev) ownerState)
      /\ Establishment.settings e
         = default scenarioSettings (DBEstablishment.settings (cantinaRow true 2))
      /\ (forall i, 1 <= i <= Settings.totalTables (Establishment.settings e) ->
                    is_Some (Establishment.tables e !! pretty i))
      /\ (Settings.totalTables (Establishment.settings e) <> 0 ->
          forall k, is_Some (Establishment.tables e !! k) ->
            exists i, 1 <= i <= Settings.totalTables (Establishment.settings e)
                      /\ k = pretty i))
  /\ (exists e,
      Part002.loadEstablishmentData scenarioSettings (Some busyRemote) "e1" ownerState
      = (Some e, setEstablishments (fun prev => <["e1" := e]> prev) ownerState)
      /\ Establishment.settings e
         = default scenarioSettings (DBEstablishment.settings (cantinaRow true 2))
      /\ (forall k,
            (exists i, 1 <= i <= Settings.totalTables (Establishment.settings e)
                       /\ k = pretty i)
            \/ (exists c, c ∈ Remote.calls busyRemote /\ DBCall.establishment_id c = "e1"
                          /\ DBCall.table_number c = k) ->
            is_Some (Establishment.tables e !! k))
      /\ (Settings.totalTables (Establishment.settings e) <> 0 ->
          forall k, is_Some (Establishment.tables e !! k) ->
            (exists i, 1 <= i <= Settings.totalTables (Establishment.settings e)
                       /\ k = pretty i)
            \/ (exists c, c ∈ Remote.calls busyRemote /\ DBCall.establishment_id c = "e1"
                          /\ DBCall.table_number c = k))).
Proof.
  apply (C9_table_map_keys scenarioSettings ownerState ownerState busyRemote "e1"
           (cantinaRow true 2)).
  reflexivity.
Defined.
(** ** Degraded mode of [loadEstablishmentData] *)

Lemma load_serves_stale (D : Settings.t) (render : State.t) (net : Net)
    (sb : Remote.t) (estId : string) (st : State.t) (cached : Establishment.t) :
  State.establishments render !! estId = Some cached ->
  fetchFails (Hooks.fetchEstablishment net sb estId) ->
  Hooks.loadEstablishmentData D render net (Some sb) estId st
  = (match Hooks.fetchEstablishment net sb estId with
     | Rejected => None
     | Resolved _ _ => Some cached
     end, st).
Proof.
  intros Hc Hf. unfold Hooks.loadEstablishmentData.
  destruct (Hooks.fetchEstablishment net sb estId) as [|[est|] [code|]];
    simpl in Hf; try contradiction; rewrite ?Hc; reflexivity.
Qed.

(** Serve-stale works where the [establishments] binding read by the function
    holds the id: a refresh whose fetch fails then leaves the hook state as
    it was, along any sequence of failing refreshes. *)
Lemma serve_stale_with_entry_in_render (D : Settings.t) (estId : string)
    (runs : list (State.t * Net * Remote.t)) (st : State.t) :
  Forall (fun run => is_Some (State.establishments run.1.1 !! estId)
                     /\ fetchFails (Hooks.fetchEstablishment run.1.2 run.2 estId)) runs ->
  foldl (fun st run =>
           (Hooks.loadEstablishmentData D run.1.1 run.1.2 (Some run.2) estId st).2)
        st runs = st.
Proof.
  induction 1 as [|[[render net] sb] runs [[cached Hc] Hf] _ IH]; [reflexivity|].
  cbn [fst snd] in Hc, Hf.
  change (foldl ?f st (?x :: runs)) with (foldl f (f st x) runs). cbn beta.
  cbn [fst snd]. rewrite (load_serves_stale D render net sb estId st cached Hc Hf).
  exact IH.
Qed.

(** A fetch that times out goes to the [catch] block: null is returned and
    the hook state is not touched, whatever the bindings. *)
Lemma load_timeout_keeps_state (D : Settings.t) (render : State.t) (sb : option Remote.t)
    (estId : string) (st : State.t) :
  Hooks.loadEstablishmentData D render Slow sb estId st = (None, st).
Proof. destruct sb; reflexivity. Qed.

(** The placeholder path: the [establishments] binding of the render has no
    entry for the id, the fetch is answered without a row, and the
    [currentUser] binding of the render is the owner. What the hook state
    holds for the id plays no part. *)
Lemma load_stores_placeholder (D : Settings.t) (render : State.t) (net : Net)
    (sb : Remote.t) (estId : string) (st : State.t) (u : User.t) :
  State.establishments render !! estId = None ->
  fetchAnsweredWithoutRow (Hooks.fetchEstablishment net sb estId) ->
  State.currentUser render = Some u ->
  User.role u = ESTABLISHMENT ->
  User.establishmentId u = Some estId ->
  Hooks.loadEstablishmentData D render net (Some sb) estId st
  = (Some (Hooks.fallbackEst D estId u),
     setEstablishments (fun prev => <[estId := Hooks.fallbackEst D estId u]> prev) st).
Proof.
  intros Hc Hf Hu Hr He. unfold Hooks.loadEstablishmentData.
  destruct (Hooks.fetchEstablishment net sb estId) as [|[est|] [code|]];
    simpl in Hf; try contradiction;
    rewrite Hc, Hu, Hr, He, !bool_decide_eq_true_2 by reflexivity; reflexivity.
Qed.

(** With a default capacity of at least one table, no aggregate built from a
    fetched row is a placeholder: it has a table, or settings other than
    [DEFAULT_SETTINGS]. *)
Lemma built_is_no_placeholder (D : Settings.t) (render : State.t) (net : Net)
    (sb : Remote.t) (id : string) (st : State.t) (e : Establishment.t)
    (estId : string) (u : User.t) :
  1 <= Settings.totalTables D ->
  ~ fetchFails (Hooks.fetchEstablishment net sb id) ->
  (Hooks.loadEstablishmentData D render net (Some sb) id st).1 = Some e ->
  e <> Hooks.fallbackEst D estId u.
Proof.
  intros HD Hnf. unfold Hooks.loadEstablishmentData.
  destruct (Hooks.fetchEstablishment net sb id) as [|[est|] [code|]];
    try (exfalso; apply Hnf; exact I).
  cbn [fst]. intros [= <-] Heq.
  pose proof (f_equal Establishment.settings Heq) as Hs.
  pose proof (f_equal Establishment.tables Heq) as Ht.
  cbn [Establishment.settings Establishment.tables Hooks.fallbackEst] in Hs, Ht.
  assert (1 <= Hooks.totalTablesOf D (DBEstablishment.settings est)) as HN.
  { unfold Hooks.totalTablesOf. destruct (DBEstablishment.settings est) as [s|]; [|exact HD].
    simpl in Hs. subst s. case_bool_decide; exact HD. }
  assert (is_Some ((∅ : gmap string Table.t) !! pretty 1)) as Hone.
  { rewrite <- Ht. apply ensureTables_lookup_is_Some. right. exists 1. split; [lia|reflexivity]. }
  rewrite lookup_empty in Hone. destruct Hone as [? Hone]. discriminate Hone.
Qed.

(** C4. Two polling cycles of the owner session of ["e1"], both run by the
    interval created right after login, in a render where nothing was cached
    yet. The first cycle is answered and caches the aggregate built from the
    store. The fetch of the second is answered with an error:
    [loadEstablishmentData] looks the id up in the [establishments] of the
    render that created the interval, which is still empty, so the cached
    aggregate is not served: the placeholder is stored in its place and
    returned. *)
Theorem C4_stale_closure_replaces_cached_aggregate :
  let first := Hooks.cycle scenarioSettings ownerState Up (Some busyRemote) ownerState in
  let second := Hooks.cycle scenarioSettings ownerState (Down "406") first.1 first.2 in
  (exists cached,
      State.establishments first.2 !! "e1" = Some cached
      /\ cached = builtEstablishment scenarioSettings (cantinaRow true 2)
                    (activeRowsOf "e1" busyRemote) (Some true)
      /\ Establishment.phone cached = "11999990000"
      /\ (Table.calls <$> Establishment.tables cached !! "6")
         = Some [Call.mk "c4" "WAITER" SENT 10])
  /\ Hooks.loadEstablishmentData scenarioSettings ownerState (Down "406") first.1 "e1"
       first.2
     = (Some (Hooks.fallbackEst scenarioSettings "e1" ownerUser),
        setEstablishments
          (fun prev => <["e1" := Hooks.fallbackEst scenarioSettings "e1" ownerUser]> prev)
          first.2)
  /\ (exists stored,
        State.establishments second.2 !! "e1" = Some stored
        /\ stored = Hooks.fallbackEst scenarioSettings "e1" ownerUser
        /\ Establishment.phone stored = "000000000"
        /\ Establishment.phrase stored = "Modo de Recuperação"
        /\ Establishment.tables stored !! "6" = None).
Proof.
  cbv zeta. split; [|split].
  - eexists. split; [vm_compute; reflexivity|]. repeat split; vm_compute; reflexivity.
  - vm_compute. reflexivity.
  - eexists. split; [vm_compute; reflexivity|]. repeat split.
Qed.

(** C5, as stated, fails in three ways. For the owner of ["e1"] with nothing
    cached: a fetch that is not answered within the bound makes
    [loadEstablishmentData] return null and store nothing; a fetch answered
    with an error gives a placeholder whose settings declare 10 tables and
    whose table map has no entry, not even for table 1; and the refresh that
    login issues, which runs with the bindings of the first render, where
    [currentUser] is still null, returns null and stores nothing. *)
Lemma C5_placeholder_not_as_claimed :
  Hooks.loadEstablishmentData scenarioSettings ownerState Slow (Some attendedRemote)
    "e1" ownerState
  = (None, ownerState)
  /\ (exists p,
        Hooks.loadEstablishmentData scenarioSettings ownerState (Down "406")
          (Some attendedRemote) "e1" ownerState
        = (Some p, setEstablishments (fun prev => <["e1" := p]> prev) ownerState)
        /\ Settings.totalTables (Establishment.settings p) = 10
        /\ Establishment.tables p !! "1" = None
        /\ Establishment.tables p = ∅)
  /\ Hooks.loadEstablishmentData scenarioSettings firstRender (Down "406")
       (Some attendedRemote) "e1" ownerState
     = (None, ownerState).
Proof.
  split; [reflexivity|]. split; [|reflexivity].
  eexists. split; [reflexivity|]. repeat split.
Qed.

(** C5, amended. The hook state holds no aggregate for the id, its session
    user has role ESTABLISHMENT and this [establishmentId], the function runs
    with current bindings (the [currentUser] and the [establishments] entry
    of its render are those of the hook state), and the fetch is answered
    with an error or without a row. Then [loadEstablishmentData] stores under
    the id and returns the placeholder: its id is the requested id, its owner
    the session user, its name the user's name (a fixed name when that is
    empty), [isOpen] is true, its settings are [DEFAULT_SETTINGS], its table
    map has no entry, and it is marked by the phrase ["Modo de Recuperação"]
    and the phone ["000000000"]; when the default capacity is at least 1 it
    differs from every aggregate a refresh builds from a fetched row. *)
Theorem C5_owner_placeholder (D : Settings.t) (render : State.t) (net : Net)
    (sb : Remote.t) (estId : string) (st : State.t) (u : User.t) :
  State.establishments st !! estId = None ->
  State.currentUser st = Some u ->
  User.role u = ESTABLISHMENT ->
  User.establishmentId u = Some estId ->
  State.currentUser render = State.currentUser st ->
  State.establishments render !! estId = State.establishments st !! estId ->
  fetchAnsweredWithoutRow (Hooks.fetchEstablishment net sb estId) ->
  exists p : Establishment.t,
    Hooks.loadEstablishmentData D render net (Some sb) estId st
    = (Some p, setEstablishments (fun prev => <[estId := p]> prev) st)
    /\ State.establishments
         (Hooks.loadEstablishmentData D render net (Some sb) estId st).2 !! estId
       = Some p
    /\ Establishment.id p = estId
    /\ Establishment.ownerId p = User.id u
    /\ Establishment.name p
       = (if bool_decide (User.name u = "") then "Meu Restaurante (Offline)"
          else User.name u)
    /\ Establishment.isOpen p = Some true
    /\ Establishment.settings p = D
    /\ Establishment.tables p = ∅
    /\ Establishment.phrase p = "Modo de Recuperação"
    /\ Establishment.phone p = "000000000"
    /\ (1 <= Settings.totalTables D ->
        forall render' net' sb' id' st' e,
          ~ fetchFails (Hooks.fetchEstablishment net' sb' id') ->
          (Hooks.loadEstablishmentData D render' net' (Some sb') id' st').1 = Some e ->
          e <> p).
Proof.
  intros Hc Hu Hr He Hru Hrc Hf. rewrite Hu in Hru. rewrite Hc in Hrc.
  exists (Hooks.fallbackEst D estId u).
  rewrite (load_stores_placeholder D render net sb estId st u Hrc Hf Hru Hr He).
  split; [reflexivity|].
  split; [cbn [snd setEstablishments State.establishments]; apply lookup_insert_eq|].
  do 8 (split; [reflexivity|]).
  intros HD render' net' sb' id' st' e Hnf Hload.
  exact (built_is_no_placeholder D render' net' sb' id' st' e estId u HD Hnf Hload).
Qed.

Lemma C5_owner_placeholder_witness :
  exists p : Establishment.t,
    Hooks.loadEstablishmentData scenarioSettings ownerState (Down "406")
      (Some attendedRemote) "e1" ownerState
    = (Some p, setEstablishments (fun prev => <["e1" := p]> prev) ownerState)
    /\ State.establishments
         (Hooks.loadEstablishmentData scenarioSettings ownerState (Down "406")
            (Some attendedRemote) "e1" ownerState).2 !! "e1"
       = Some p
    /\ Establishment.id p = "e1"
    /\ Establishment.ownerId p = User.id ownerUser
    /\ Establishment.name p
       = (if bool_decide (User.name ownerUser = "") then "Meu Restaurante (Offline)"
          else User.name ownerUser)
    /\ Establishment.isOpen p = Some true
    /\ Establishment.settings p = scenarioSettings
    /\ Establishment.tables p = ∅
    /\ Establishment.phrase p = "Modo de Recuperação"
    /\ Establishment.phone p = "000000000"
    /\ (1 <= Settings.totalTables scenarioSettings ->
        forall render' net' sb' id' st' e,
          ~ fetchFails (Hooks.fetchEstablishment net' sb' id') ->
          (Hooks.loadEstablishmentData scenarioSettings render' net' (Some sb') id' st').1
          = Some e ->
          e <> p).
Proof.
  apply (C5_owner_placeholder scenarioSettings ownerState (Down "406") attendedRemote
           "e1" ownerState ownerUser); simpl; auto.
Defined.

(** ** Attending and cancelling the oldest call *)

Lemma insertByCreatedAt_elem (c x : DBCall.t) (rows : list DBCall.t) :
  x ∈ insertByCreatedAt c rows <-> x = c \/ x ∈ rows.
Proof.
  induction rows as [|y rows IH]; simpl.
  - rewrite list_elem_of_singleton. split; [left; assumption|].
    intros [H|H]; [exact H | inversion H].
  - case_bool_decide.
    + rewrite elem_of_cons. reflexivity.
    + rewrite !elem_of_cons, IH. tauto.
Qed.

Lemma orderByCreatedAt_elem (x : DBCall.t) (rows : list DBCall.t) :
  x ∈ orderByCreatedAt rows <-> x ∈ rows.
Proof.
  induction rows as [|y rows IH]; simpl; [reflexivity|].
  rewrite insertByCreatedAt_elem, elem_of_cons, IH. reflexivity.
Qed.

Lemma insertByCreatedAt_head (c : DBCall.t) (rows : list DBCall.t) :
  headIsOldest rows -> headIsOldest (insertByCreatedAt c rows).
Proof.
  destruct rows as [|y rows]; simpl.
  - intros _ x Hx. apply list_elem_of_singleton in Hx as ->. lia.
  - intros Hy. case_bool_decide as Hc; simpl.
    + intros x [->|Hx]%elem_of_cons; [lia|]. specialize (Hy x Hx). lia.
    + intros x [->|Hx]%elem_of_cons; [lia|].
      apply insertByCreatedAt_elem in Hx as [->|Hx]; [lia|].
      apply Hy. right. exact Hx.
Qed.

Lemma orderByCreatedAt_head (rows : list DBCall.t) : headIsOldest (orderByCreatedAt rows).
Proof.
  induction rows as [|y rows IH]; simpl; [exact I|].
  apply insertByCreatedAt_head, IH.
Qed.

(** The query gives no row exactly when no active call of that type exists on
    the table; otherwise it gives one such call of minimum [created_at_ts]. *)
Lemma selectOldestActive_spec (estId tableNum : string) (type : CallType) (sb : Remote.t) :
  match selectOldestActive estId tableNum type sb with
  | [] => forall c, c ∈ Remote.calls sb -> ~ matchesActive estId tableNum type c
  | first :: rest =>
      rest = [] /\ first ∈ Remote.calls sb /\ matchesActive estId tableNum type first
      /\ forall c, c ∈ Remote.calls sb -> matchesActive estId tableNum type c ->
                   DBCall.created_at_ts first <= DBCall.created_at_ts c
  end.
Proof.
  unfold selectOldestActive.
  pose proof (orderByCreatedAt_head
                (filter (matchesActive estId tableNum type) (Remote.calls sb))) as Hh.
  pose proof (fun x => orderByCreatedAt_elem x
                (filter (matchesActive estId tableNum type) (Remote.calls sb))) as He.
  destruct (orderByCreatedAt _) as [|first rest]; simpl.
  - intros c Hc Hm.
    assert (c ∈ @nil DBCall.t) as Hnil
        by (apply He, list_elem_of_filter; split; assumption).
    inversion Hnil.
  - assert (first ∈ filter (matchesActive estId tableNum type) (Remote.calls sb)) as Hf
        by (apply He; left).
    apply list_elem_of_filter in Hf as [Hm Hin].
    split; [destruct rest; reflexivity|]. split; [exact Hin|]. split; [exact Hm|].
    intros c Hc Hmc. apply Hh, He, list_elem_of_filter. split; assumption.
Qed.

(** With unique ids, an update by id rewrites one position of the table. *)
Lemma update_by_id_one_row (f : DBCall.t -> DBCall.t) (first : DBCall.t)
    (rows : list DBCall.t) :
  NoDup (DBCall.id <$> rows) -> first ∈ rows ->
  exists before after,
    rows = before ++ first :: after
    /\ (fun c => if bool_decide (DBCall.id c = DBCall.id first) then f c else c) <$> rows
       = before ++ f first :: after.
Proof.
  intros Hnd Hin. apply list_elem_of_split in Hin as (before & after & ->).
  exists before, after. split; [reflexivity|].
  rewrite fmap_app, fmap_cons in Hnd.
  apply NoDup_app in Hnd as (_ & Hdisj & Hnd). apply NoDup_cons in Hnd as [Hnot _].
  rewrite fmap_app, fmap_cons, bool_decide_eq_true_2 by reflexivity.
  f_equal; [|f_equal].
  - rewrite <- (list_fmap_id before) at 2. apply list_fmap_ext.
    intros i c Hc. rewrite bool_decide_eq_false_2; [reflexivity|].
    intros E. apply (Hdisj (DBCall.id c)).
    + apply list_elem_of_fmap. exists c. split; [reflexivity|].
      eapply list_elem_of_lookup_2; eassumption.
    + rewrite E. left.
  - rewrite <- (list_fmap_id after) at 2. apply list_fmap_ext.
    intros i c Hc. rewrite bool_decide_eq_false_2; [reflexivity|].
    intros E. apply Hnot. rewrite <- E.
    apply list_elem_of_fmap. exists c. split; [reflexivity|].
    eapply list_elem_of_lookup_2; eassumption.
Qed.

(** The write [update({ status: s })] sets the status and nothing else. *)
Lemma withStatus_sameCall (s : CallStatus) (c : DBCall.t) :
  sameCallWithStatus s c (DBCall.withStatus s c).
Proof. destruct c. repeat split. Qed.

Lemma update_oldest_effect (s : CallStatus) (estId tableNum : string) (type : CallType)
    (sb : Remote.t) :
  NoDup (DBCall.id <$> Remote.calls sb) ->
  oldestCallEffect s estId tableNum type sb
    match selectOldestActive estId tableNum type sb with
    | first :: _ =>
        Remote.updateCalls (DBCall.withStatus s)
          (fun c => bool_decide (DBCall.id c = DBCall.id first)) sb
    | [] => sb
    end.
Proof.
  intros Hnd. pose proof (selectOldestActive_spec estId tableNum type sb) as Hs.
  destruct (selectOldestActive estId tableNum type sb) as [|first rest].
  - split; [reflexivity|]. split; [reflexivity|]. left. split; [exact Hs | reflexivity].
  - destruct Hs as (_ & Hin & Hm & Hmin).
    split; [reflexivity|]. split; [reflexivity|]. right.
    destruct (update_by_id_one_row (DBCall.withStatus s) first _ Hnd Hin)
      as (before & after & Hrows & Hupd).
    exists before, first, (DBCall.withStatus s first), after.
    cbn [Remote.updateCalls Remote.calls].
    split; [exact Hrows|]. split; [exact Hupd|].
    split; [apply withStatus_sameCall|]. split; [exact Hm | exact Hmin].
Qed.

(** C6. On a calls table with unique ids, [attendOldestCallByType] (resp.
    [cancelOldestCallByType]) of either hook leaves the store as it is when no
    SENT or VIEWED call of that type exists on that table of that
    establishment; otherwise exactly one row changes, an active call of that
    type on that table with minimum [created_at_ts]: its status, SENT or
    VIEWED before, is ATTENDED (resp. CANCELED) after, its id, establishment,
    table, type and creation time are as before, and every other row, of any
    type or table, is unchanged. *)
Theorem C6_oldest_call_only (sb : Remote.t) (estId tableNum : string) (type : CallType) :
  NoDup (DBCall.id <$> Remote.calls sb) ->
  oldestCallEffect ATTENDED estId tableNum type sb
    (Hooks.attendOldestCallByType sb estId tableNum type)
  /\ oldestCallEffect CANCELED estId tableNum type sb
       (Hooks.cancelOldestCallByType sb estId tableNum type)
  /\ (exists sb', Part002.attendOldestCallByType (Some sb) estId tableNum type = Some sb'
                  /\ oldestCallEffect ATTENDED estId tableNum type sb sb')
  /\ (exists sb', Part002.cancelOldestCallByType (Some sb) estId tableNum type = Some sb'
                  /\ oldestCallEffect CANCELED estId tableNum type sb sb').
Proof.
  intros Hnd. split; [|split; [|split]].
  - apply update_oldest_effect, Hnd.
  - apply update_oldest_effect, Hnd.
  - eexists. split; [reflexivity|]. apply update_oldest_effect, Hnd.
  - eexists. split; [reflexivity|]. apply update_oldest_effect, Hnd.
Qed.

Lemma C6_oldest_call_only_witness :
  oldestCallEffect ATTENDED "e1" "5" "WAITER" busyRemote
    (Hooks.attendOldestCallByType busyRemote "e1" "5" "WAITER")
  /\ oldestCallEffect CANCELED "e1" "5" "WAITER" busyRemote
       (Hooks.cancelOldestCallByType busyRemote "e1" "5" "WAITER")
  /\ (exists sb', Part002.attendOldestCallByType (Some busyRemote) "e1" "5" "WAITER" = Some sb'
                  /\ oldestCallEffect ATTENDED "e1" "5" "WAITER" busyRemote sb')
  /\ (exists sb', Part002.cancelOldestCallByType (Some busyRemote) "e1" "5" "WAITER" = Some sb'
                  /\ oldestCallEffect CANCELED "e1" "5" "WAITER" busyRemote sb').
Proof.
  apply (C6_oldest_call_only busyRemote "e1" "5" "WAITER").
  apply (bool_decide_unpack _). vm_compute. exact I.
Defined.

(** On the store of the example the call attended is ["c2"], the older of the
    two WAITER calls of table 5. *)
Example attend_busyRemote :
  DBCall.status <$> Remote.calls (Hooks.attendOldestCallByType busyRemote "e1" "5" "WAITER")
  = [SENT; ATTENDED; SENT; SENT].
Proof. vm_compute. reflexivity. Qed.

(** ** The favourites guard *)

Lemma Part002_favorite_limit (sb : Remote.t) (userId establishmentId : string) :
  (3 <= length (Remote.favoritesOf userId sb))%nat ->
  Part002.favoriteEstablishment sb userId establishmentId
  = (sb, Threw "Você pode ter no máximo 3 estabelecimentos favoritos.").
Proof.
  intros H. unfold Part002.favoriteEstablishment.
  rewrite bool_decide_eq_true_2 by exact H. reflexivity.
Qed.

Lemma Part002_favorite_new (sb : Remote.t) (userId establishmentId : string) :
  (length (Remote.favoritesOf userId sb) < 3)%nat ->
  (userId, establishmentId) ∉ Remote.customer_favorites sb ->
  Part002.favoriteEstablishment sb userId establishmentId
  = (Remote.mk (Remote.establishments sb) (Remote.calls sb)
               (Remote.customer_favorites sb ++ [(userId, establishmentId)]),
     Returned).
Proof.
  intros H Hn. unfold Part002.favoriteEstablishment, Remote.insertFavorite.
  rewrite bool_decide_eq_false_2 by lia.
  rewrite bool_decide_eq_false_2 by exact Hn. reflexivity.
Qed.

Lemma Part002_favorite_duplicate (sb : Remote.t) (userId establishmentId : string) :
  (length (Remote.favoritesOf userId sb) < 3)%nat ->
  (userId, establishmentId) ∈ Remote.customer_favorites sb ->
  Part002.favoriteEstablishment sb userId establishmentId = (sb, Returned).
Proof.
  intros H Hn. unfold Part002.favoriteEstablishment, Remote.insertFavorite.
  rewrite bool_decide_eq_false_2 by lia.
  rewrite bool_decide_eq_true_2 by exact Hn. reflexivity.
Qed.

(** In [part_002] nobody who holds at most three favourites ever holds more. *)
Lemma Part002_favorite_bound (sb : Remote.t) (userId establishmentId who : string) :
  (length (Remote.favoritesOf who sb) <= 3)%nat ->
  (length (Remote.favoritesOf who (Part002.favoriteEstablishment sb userId establishmentId).1)
   <= 3)%nat.
Proof.
  intros Hb. unfold Part002.favoriteEstablishment.
  case_bool_decide as Hlim; [exact Hb|].
  unfold Remote.insertFavorite. case_bool_decide; [exact Hb|].
  unfold Remote.favoritesOf in *. cbn [fst Remote.customer_favorites].
  rewrite filter_app, length_app, filter_cons, filter_nil. cbn [fst].
  assert (length (filter (fun f : string * string => f.1 = userId)
                         (Remote.customer_favorites sb)) < 3)%nat by lia.
  destruct (decide (userId = who)) as [->|]; simpl; lia.
Qed.

(** C3. A customer who holds three favourites adds a fourth, distinct
    establishment: [favoriteEstablishment] of [part_002] throws the limit
    error and stores nothing, while [favoriteEstablishment] of
    [src/hooks/useMockData.ts], which has no count check, returns normally
    and the customer holds four favourites. *)
Theorem C3_hooks_favorite_has_no_limit :
  length (Remote.favoritesOf "u9" threeFavorites) = 3%nat
  /\ Part002.favoriteEstablishment threeFavorites "u9" "e4"
     = (threeFavorites, Threw "Você pode ter no máximo 3 estabelecimentos favoritos.")
  /\ (Hooks.favoriteEstablishment threeFavorites "u9" "e4").2 = Returned
  /\ Remote.favoritesOf "u9" (Hooks.favoriteEstablishment threeFavorites "u9" "e4").1
     = [("u9", "e1"); ("u9", "e2"); ("u9", "e3"); ("u9", "e4")].
Proof. repeat split; vm_compute; reflexivity. Qed.

(** ** The re-entrancy guard of the polling cycle *)

(** The [finally] block releases the flag of the hook state on every path. *)
Lemma cycle_finish_releases (st : State.t) :
  State.isUpdating (Hooks.cycle_finish st) = false.
Proof. reflexivity. Qed.

(** A cycle that passes the guard and whose awaited requests settle ends with
    the flag of the hook state released. *)
Lemma cycle_releases (D : Settings.t) (render : State.t) (net : Net)
    (sb : option Remote.t) (st : State.t) :
  State.isUpdating render = false ->
  Hooks.cycle_settles render net sb = true ->
  State.isUpdating (Hooks.cycle D render net sb st).2 = false.
Proof.
  intros H Hs. unfold Hooks.cycle, Hooks.cycle_start. rewrite H, Hs.
  destruct (Hooks.cycle_body D render net sb (setIsUpdating true st)). reflexivity.
Qed.

(** The awaited requests settle whenever the remote answers, with data or
    with an error, and whenever the session is not an owner's. *)
Lemma cycle_settles_answered (render : State.t) (net : Net) (sb : option Remote.t) :
  net <> Slow -> Hooks.cycle_settles render net sb = true.
Proof. destruct net; [reflexivity..|contradiction]. Qed.

(** The cycle of an owner session on a remote that does not answer stays at
    the heartbeat, or at the lookup of its establishment, which no timeout
    bounds: the [finally] block is not reached and the flag of the hook state
    stays set. *)
Lemma cycle_unanswered_keeps_flag (D : Settings.t) (render st : State.t) (r : Remote.t)
    (u : User.t) :
  State.isUpdating render = false ->
  State.currentUser render = Some u ->
  User.role u = ESTABLISHMENT ->
  Hooks.cycle_settles render Slow (Some r) = false
  /\ Hooks.cycle D render Slow (Some r) st = (Some r, setIsUpdating true st).
Proof.
  intros H Hu Hr. unfold Hooks.cycle, Hooks.cycle_start, Hooks.cycle_settles, Hooks.cycle_body.
  rewrite H, Hu, Hr. split; [reflexivity|].
  destruct (User.establishmentId u); reflexivity.
Qed.

(** The guard reads the [isUpdating] of the render that created the
    interval: when that is [false], no tick is ever skipped, whatever the
    number of cycles in flight. *)
Lemma stale_guard_never_skips (n : nat) (p : Hooks.Poller.t) :
  State.isUpdating (Hooks.Poller.effect p) = false ->
  Hooks.Poller.inFlight (Hooks.Poller.run p (replicate n Hooks.Poller.Tick))
  = (Hooks.Poller.inFlight p + n)%nat.
Proof.
  revert p. induction n as [|n IH]; intros p H; simpl; [lia|].
  unfold Hooks.Poller.run in *. rewrite IH.
  - unfold Hooks.Poller.step, Hooks.cycle_start. rewrite H. simpl. lia.
  - unfold Hooks.Poller.step, Hooks.cycle_start. rewrite H. exact H.
Qed.

(** When the effect runs again while a cycle is in flight, the new interval
    reads [isUpdating = true] for good: every later tick is skipped, also
    after the cycle in flight has settled. *)
Lemma stale_guard_always_skips (n : nat) (p : Hooks.Poller.t) :
  State.isUpdating (Hooks.Poller.effect p) = true ->
  Hooks.Poller.run p (replicate n Hooks.Poller.Tick) = p.
Proof.
  intros H. induction n as [|n IH]; simpl; [reflexivity|].
  unfold Hooks.Poller.run in *. cbn [foldl Hooks.Poller.step].
  unfold Hooks.cycle_start. rewrite H. exact IH.
Qed.

(** The effect runs again while the first cycle is in flight; the cycle then
    settles and releases the flag, and the two ticks that follow are skipped
    although nothing is in flight. *)
Example rerun_in_flight_blocks_polling :
  let p := Hooks.Poller.run freshPoller
             [Hooks.Poller.Tick; Hooks.Poller.Rerun; Hooks.Poller.Settle;
              Hooks.Poller.Tick; Hooks.Poller.Tick] in
  Hooks.Poller.inFlight p = 0%nat
  /\ State.isUpdating (Hooks.Poller.state p) = false
  /\ State.isUpdating (Hooks.Poller.effect p) = true.
Proof. repeat split. Qed.

(** C8. The timer fires twice before the first cycle settles: after the first
    tick one cycle is in flight and the flag of the hook state is set, and
    the second tick still passes the guard, so two cycles are in flight. *)
Theorem C8_second_tick_not_skipped :
  let one := Hooks.Poller.run freshPoller [Hooks.Poller.Tick] in
  let two := Hooks.Poller.run freshPoller [Hooks.Poller.Tick; Hooks.Poller.Tick] in
  Hooks.Poller.inFlight one = 1%nat
  /\ State.isUpdating (Hooks.Poller.state one) = true
  /\ Hooks.Poller.inFlight two = 2%nat.
Proof. repeat split. Qed.

(** ** The heartbeat *)

Lemma cycle_owner_remote (D : Settings.t) (render st : State.t) (net : Net) (r : Remote.t)
    (u : User.t) (estId : string) :
  State.currentUser render = Some u ->
  User.role u = ESTABLISHMENT ->
  User.establishmentId u = Some estId ->
  State.isUpdating render = false ->
  (Hooks.cycle D render net (Some r) st).1 = Hooks.sendHeartbeat net (Some r) estId.
Proof.
  intros Hu Hr He Hg. unfold Hooks.cycle, Hooks.cycle_start, Hooks.cycle_body.
  rewrite Hg, Hu, Hr, He. reflexivity.
Qed.

Lemma updateEstablishments_ids (f : DBEstablishment.t -> DBEstablishment.t)
    (p : DBEstablishment.t -> bool) (r : Remote.t) :
  (forall e, DBEstablishment.id (f e) = DBEstablishment.id e) ->
  DBEstablishment.id <$> Remote.establishments (Remote.updateEstablishments f p r)
  = DBEstablishment.id <$> Remote.establishments r.
Proof.
  intros Hf. cbn [Remote.updateEstablishments Remote.establishments].
  rewrite <- list_fmap_compose. apply list_fmap_ext.
  intros i e _. simpl. destruct (p e); [apply Hf | reflexivity].
Qed.

Lemma updateEstablishments_is_open (b : bool) (estId : string) (r : Remote.t)
    (e : DBEstablishment.t) :
  e ∈ Remote.establishments
        (Remote.updateEstablishments (DBEstablishment.withIsOpen b)
           (fun e => bool_decide (DBEstablishment.id e = estId)) r) ->
  DBEstablishment.id e = estId -> DBEstablishment.is_open e = b.
Proof.
  cbn [Remote.updateEstablishments Remote.establishments].
  intros (e0 & -> & _)%list_elem_of_fmap Hid.
  case_bool_decide as Hd; [reflexivity|]. contradiction.
Qed.

(** C10. In [src/hooks], a polling cycle that passes its guard for a session
    user with role ESTABLISHMENT and a known [establishmentId] writes
    [is_open = true] to the remote row of that id, whatever the row held, on
    an answering remote; so after [closeEstablishmentWorkday] has set
    [is_open = false], the next such cycle leaves every row of that id with
    [is_open = true], and the rows are otherwise the same rows. *)
Theorem C10_heartbeat_reopens (D : Settings.t) (render st : State.t) (r : Remote.t)
    (u : User.t) (estId : string) :
  State.currentUser render = Some u ->
  User.role u = ESTABLISHMENT ->
  User.establishmentId u = Some estId ->
  State.isUpdating render = false ->
  (Hooks.cycle D render Up (Some r) st).1
  = Some (Remote.updateEstablishments (DBEstablishment.withIsOpen true)
            (fun e => bool_decide (DBEstablishment.id e = estId)) r)
  /\ (forall e, e ∈ Remote.establishments (Hooks.closeEstablishmentWorkday r estId) ->
                DBEstablishment.id e = estId -> DBEstablishment.is_open e = false)
  /\ exists r', (Hooks.cycle D render Up (Some (Hooks.closeEstablishmentWorkday r estId)) st).1
                = Some r'
                /\ DBEstablishment.id <$> Remote.establishments r'
                   = DBEstablishment.id <$> Remote.establishments r
                /\ forall e, e ∈ Remote.establishments r' ->
                             DBEstablishment.id e = estId -> DBEstablishment.is_open e = true.
Proof.
  intros Hu Hr He Hg. split; [|split].
  - rewrite (cycle_owner_remote D render st Up r u estId Hu Hr He Hg). reflexivity.
  - intros e. apply updateEstablishments_is_open.
  - rewrite (cycle_owner_remote D render st Up _ u estId Hu Hr He Hg).
    eexists. split; [reflexivity|]. split.
    + rewrite updateEstablishments_ids by reflexivity.
      unfold Hooks.closeEstablishmentWorkday. cbn [Remote.updateCalls Remote.establishments].
      change (DBEstablishment.id <$> Remote.establishments
                (Remote.updateEstablishments (DBEstablishment.withIsOpen false)
                   (fun e => bool_decide (DBEstablishment.id e = estId)) r)
              = DBEstablishment.id <$> Remote.establishments r).
      apply updateEstablishments_ids. reflexivity.
    + intros e. apply updateEstablishments_is_open.
Qed.

Lemma C10_heartbeat_reopens_witness :
  (Hooks.cycle scenarioSettings ownerState Up (Some busyRemote) ownerState).1
  = Some (Remote.updateEstablishments (DBEstablishment.withIsOpen true)
            (fun e => bool_decide (DBEstablishment.id e = "e1")) busyRemote)
  /\ (forall e, e ∈ Remote.establishments (Hooks.closeEstablishmentWorkday busyRemote "e1") ->
                DBEstablishment.id e = "e1" -> DBEstablishment.is_open e = false)
  /\ exists r', (Hooks.cycle scenarioSettings ownerState Up
                   (Some (Hooks.closeEstablishmentWorkday busyRemote "e1")) ownerState).1
                = Some r'
                /\ DBEstablishment.id <$> Remote.establishments r'
                   = DBEstablishment.id <$> Remote.establishments busyRemote
                /\ forall e, e ∈ Remote.establishments r' ->
                             DBEstablishment.id e = "e1" -> DBEstablishment.is_open e = true.
Proof.
  apply (C10_heartbeat_reopens scenarioSettings ownerState ownerState busyRemote
           ownerUser "e1"); reflexivity.
Defined.

(** On the store of the example: the workday is closed, the next cycle of the
    owner's session runs, and the row is open again. *)
Example close_then_cycle_busyRemote :
  DBEstablishment.is_open <$> Remote.establishments (Hooks.closeEstablishmentWorkday busyRemote "e1")
  = [false]
  /\ (Remote.establishments <$>
        (Hooks.cycle scenarioSettings ownerState Up
           (Some (Hooks.closeEstablishmentWorkday busyRemote "e1")) ownerState).1)
     = Some [cantinaRow true 2].
Proof. split; vm_compute; reflexivity. Qed.

(** * Further properties of the code *)

(** ** The escalation calculators *)

Lemma rule_not_IDLE (e : Q) (k : Z) (settings : Settings.t) :
  Spec.rule e k settings <> IDLE.
Proof.
  unfold Spec.rule. destruct (_ || _); [discriminate|].
  destruct (_ || _); discriminate.
Qed.

Lemma timeRule_not_IDLE (e : Q) (settings : Settings.t) :
  Spec.timeRule e settings <> IDLE.
Proof.
  unfold Spec.timeRule. destruct (Qgtb _ _); [discriminate|].
  destruct (_ && _); discriminate.
Qed.

Lemma filter_nil_iff {A} (P : A -> Prop) `{!forall x, Decision (P x)} (l : list A) :
  filter P l = [] <-> forall x, x ∈ l -> ~ P x.
Proof.
  split.
  - intros Hnil x Hx HP.
    assert (x ∈ filter P l) as Hin by (apply list_elem_of_filter; auto).
    rewrite Hnil in Hin. inversion Hin.
  - intros Hnone. apply elem_of_nil_inv. intros x [HP Hx]%list_elem_of_filter.
    exact (Hnone x Hx HP).
Qed.

(** Table status: IDLE exactly when no call of the table is SENT or VIEWED,
    whatever the clock, the thresholds and the terminal calls. *)
Theorem tableStatus_IDLE_iff (now : Z) (table : Table.t) (settings : Settings.t) :
  (Hooks.getTableSemaphoreStatus now table settings = IDLE
   <-> forall c, c ∈ Table.calls table -> ~ activeCall c)
  /\ (Part002.getTableSemaphoreStatus now table settings = IDLE
      <-> forall c, c ∈ Table.calls table -> ~ activeCall c).
Proof.
  rewrite Hooks_tableStatus_time_only, Part002_tableStatus_refines_spec.
  unfold Spec.tableStatus, activeCall.
  rewrite <- (filter_nil_iff (fun c => Call.status c = SENT \/ Call.status c = VIEWED)).
  destruct (filter _ (Table.calls table)) as [|first rest].
  - split; split; reflexivity.
  - split; (split; [intros H; exfalso | discriminate]).
    + exact (timeRule_not_IDLE _ _ H).
    + exact (rule_not_IDLE _ _ _ H).
Qed.

(** Call-type status: IDLE exactly when no call of that type is SENT or
    VIEWED, in both hooks. *)
Theorem callTypeStatus_IDLE_iff (now : Z) (table : Table.t) (type : CallType)
    (settings : Settings.t) :
  (Hooks.getCallTypeSemaphoreStatus now table type settings = IDLE
   <-> forall c, c ∈ Table.calls table -> Call.type c = type -> ~ activeCall c)
  /\ (Part002.getCallTypeSemaphoreStatus now table type settings = IDLE
      <-> forall c, c ∈ Table.calls table -> Call.type c = type -> ~ activeCall c).
Proof.
  assert ((forall c, c ∈ Table.calls table -> Call.type c = type -> ~ activeCall c)
          <-> filter (fun c => Call.type c = type
                               /\ (Call.status c = SENT \/ Call.status c = VIEWED))
                     (Table.calls table) = []) as ->.
  { rewrite filter_nil_iff. unfold activeCall. split.
    - intros H c Hc [Ht Hs]. exact (H c Hc Ht Hs).
    - intros H c Hc Ht Hs. exact (H c Hc (conj Ht Hs)). }
  split.
  - unfold Hooks.getCallTypeSemaphoreStatus.
    rewrite (list_filter_iff _
               (fun c => Call.type c = type /\ (Call.status c = SENT \/ Call.status c = VIEWED))).
    2:{ intros c. rewrite andb_true_iff, bool_decide_eq_true, isActive_active. reflexivity. }
    destruct (filter _ (Table.calls table)) as [|first rest]; [split; reflexivity|].
    split; [|discriminate]. destruct (Qgtb _ _); discriminate.
  - rewrite Part002_callTypeStatus_rule.
    destruct (filter _ (Table.calls table)) as [|first rest]; [split; reflexivity|].
    split; [|discriminate]. intros H. exfalso. exact (rule_not_IDLE _ _ _ H).
Qed.

(** *** What the table status depends on *)

Lemma typeAndTime_filter_type (ty : CallType) (l : list Call.t) :
  typeAndTime <$> filter (fun c => Call.type c = ty) l
  = filter (fun p => p.1 = ty) (typeAndTime <$> l).
Proof.
  induction l as [|c l IH]; [reflexivity|].
  rewrite fmap_cons, !filter_cons. cbn [typeAndTime fst].
  destruct (decide (Call.type c = ty)); rewrite ?fmap_cons, IH; reflexivity.
Qed.

Lemma countOfType_typeAndTime (ty : CallType) (l : list Call.t) :
  Spec.countOfType ty l
  = Z.of_nat (length (filter (fun p => p.1 = ty) (typeAndTime <$> l))).
Proof.
  unfold Spec.countOfType. rewrite <- typeAndTime_filter_type, length_fmap. reflexivity.
Qed.

Lemma typeAndTime_cover (l1 l2 : list Call.t) (c1 : Call.t) :
  typeAndTime <$> l1 ≡ₚ typeAndTime <$> l2 -> c1 ∈ l1 ->
  exists c2, c2 ∈ l2 /\ Call.type c2 = Call.type c1
             /\ Call.createdAt c2 = Call.createdAt c1.
Proof.
  intros Hp Hc.
  assert (typeAndTime c1 ∈ typeAndTime <$> l2) as Hin.
  { rewrite <- Hp. apply list_elem_of_fmap. exists c1. split; [reflexivity | exact Hc]. }
  apply list_elem_of_fmap in Hin as (c2 & He & Hc2).
  exists c2. unfold typeAndTime in He. injection He as Ht Hcr. auto.
Qed.

Lemma minCreatedAt_le_cover (f1 f2 : Call.t) (r1 r2 : list Call.t) :
  (forall c1, c1 ∈ f1 :: r1 ->
              exists c2, c2 ∈ f2 :: r2 /\ Call.createdAt c2 = Call.createdAt c1) ->
  Spec.minCreatedAt f2 r2 <= Spec.minCreatedAt f1 r1.
Proof.
  intros H. destruct (minCreatedAt_attained f1 r1) as (c1 & Hc1 & ->).
  destruct (H c1 Hc1) as (c2 & Hc2 & <-). apply minCreatedAt_lower, Hc2.
Qed.

Lemma maxCount_le_cover (l1 l2 : list Call.t) :
  l1 <> [] ->
  (forall ty, Spec.countOfType ty l1 <= Spec.countOfType ty l2) ->
  (forall c1, c1 ∈ l1 -> exists c2, c2 ∈ l2 /\ Call.type c2 = Call.type c1) ->
  Spec.maxCount l1 <= Spec.maxCount l2.
Proof.
  intros Hne Hcount Hcover.
  destruct (maxCount_attained l1 Hne) as (c1 & Hc1 & ->).
  destruct (Hcover c1 Hc1) as (c2 & Hc2 & Ht).
  pose proof (maxCount_ub l2 c2 Hc2) as Hub. rewrite Ht in Hub.
  specialize (Hcount (Call.type c1)). lia.
Qed.

(** Two non-empty sets of calls with the same types and times have the same
    oldest time and the same largest group. *)
Lemma same_min_and_maxCount (f1 f2 : Call.t) (r1 r2 : list Call.t) :
  typeAndTime <$> f1 :: r1 ≡ₚ typeAndTime <$> f2 :: r2 ->
  Spec.minCreatedAt f1 r1 = Spec.minCreatedAt f2 r2
  /\ Spec.maxCount (f1 :: r1) = Spec.maxCount (f2 :: r2).
Proof.
  intros Hp.
  assert (forall ty, Spec.countOfType ty (f1 :: r1) = Spec.countOfType ty (f2 :: r2)) as Hcount.
  { intros ty. rewrite !countOfType_typeAndTime, Hp. reflexivity. }
  split.
  - apply Z.le_antisymm; apply minCreatedAt_le_cover; intros c Hc.
    + destruct (typeAndTime_cover _ _ c (symmetry Hp) Hc) as (c' & ? & _ & ?); eauto.
    + destruct (typeAndTime_cover _ _ c Hp Hc) as (c' & ? & _ & ?); eauto.
  - apply Z.le_antisymm; apply maxCount_le_cover; try discriminate.
    + intros ty. rewrite Hcount. lia.
    + intros c Hc. destruct (typeAndTime_cover _ _ c Hp Hc) as (c' & ? & ? & _); eauto.
    + intros ty. rewrite Hcount. lia.
    + intros c Hc.
      destruct (typeAndTime_cover _ _ c (symmetry Hp) Hc) as (c' & ? & ? & _); eauto.
Qed.

Lemma filter_activeCall (l : list Call.t) :
  filter (fun c => Call.status c = SENT \/ Call.status c = VIEWED) l
  = filter activeCall l.
Proof. apply list_filter_iff. intros c. reflexivity. Qed.

Lemma filter_type_and_active (ty : CallType) (l : list Call.t) :
  filter (fun c => Call.type c = ty /\ (Call.status c = SENT \/ Call.status c = VIEWED)) l
  = filter (fun c => Call.type c = ty) (filter activeCall l).
Proof. rewrite list_filter_filter. reflexivity. Qed.

Lemma Hooks_tableStatus_active (now : Z) (table : Table.t) (settings : Settings.t) :
  Hooks.getTableSemaphoreStatus now table settings
  = match filter activeCall (Table.calls table) with
    | [] => IDLE
    | first :: rest =>
        Spec.timeRule (Spec.elapsed now (Spec.minCreatedAt first rest)) settings
    end.
Proof. rewrite Hooks_tableStatus_time_only, filter_activeCall. reflexivity. Qed.

Lemma Part002_tableStatus_active (now : Z) (table : Table.t) (settings : Settings.t) :
  Part002.getTableSemaphoreStatus now table settings
  = match filter activeCall (Table.calls table) with
    | [] => IDLE
    | first :: rest =>
        Spec.rule (Spec.elapsed now (Spec.minCreatedAt first rest))
                  (Spec.maxCount (first :: rest)) settings
    end.
Proof.
  rewrite Part002_tableStatus_refines_spec. unfold Spec.tableStatus.
  rewrite filter_activeCall. reflexivity.
Qed.

Lemma Part002_callTypeStatus_active (now : Z) (table : Table.t) (type : CallType)
    (settings : Settings.t) :
  Part002.getCallTypeSemaphoreStatus now table type settings
  = match filter (fun c => Call.type c = type) (filter activeCall (Table.calls table)) with
    | [] => IDLE
    | first :: rest =>
        Spec.rule (Spec.elapsed now (Spec.minCreatedAt first rest))
                  (Z.of_nat (length (first :: rest))) settings
    end.
Proof. rewrite Part002_callTypeStatus_rule, filter_type_and_active. reflexivity. Qed.

(** The table status of both hooks, and the call-type status of
    [part_002], depend only on the types and creation times of the calls in
    status SENT or VIEWED: ids, the order of the list, the difference between
    SENT and VIEWED, and calls in a terminal status do not matter. *)
Theorem status_depends_on_active_types_and_times (now : Z) (t1 t2 : Table.t)
    (settings : Settings.t) :
  typeAndTime <$> filter activeCall (Table.calls t1)
    ≡ₚ typeAndTime <$> filter activeCall (Table.calls t2) ->
  Hooks.getTableSemaphoreStatus now t1 settings
  = Hooks.getTableSemaphoreStatus now t2 settings
  /\ Part002.getTableSemaphoreStatus now t1 settings
     = Part002.getTableSemaphoreStatus now t2 settings
  /\ forall type, Part002.getCallTypeSemaphoreStatus now t1 type settings
                  = Part002.getCallTypeSemaphoreStatus now t2 type settings.
Proof.
  intros Hp. split; [|split].
  - rewrite (Hooks_tableStatus_active now t1), (Hooks_tableStatus_active now t2).
    destruct (filter activeCall (Table.calls t1)) as [|f1 r1],
             (filter activeCall (Table.calls t2)) as [|f2 r2]; try reflexivity.
    + exfalso. apply Permutation_length in Hp. simpl in Hp. lia.
    + exfalso. apply Permutation_length in Hp. simpl in Hp. lia.
    + destruct (same_min_and_maxCount f1 f2 r1 r2 Hp) as [-> _]. reflexivity.
  - rewrite (Part002_tableStatus_active now t1), (Part002_tableStatus_active now t2).
    destruct (filter activeCall (Table.calls t1)) as [|f1 r1],
             (filter activeCall (Table.calls t2)) as [|f2 r2]; try reflexivity.
    + exfalso. apply Permutation_length in Hp. simpl in Hp. lia.
    + exfalso. apply Permutation_length in Hp. simpl in Hp. lia.
    + destruct (same_min_and_maxCount f1 f2 r1 r2 Hp) as [-> ->]. reflexivity.
  - intros type.
    rewrite (Part002_callTypeStatus_active now t1), (Part002_callTypeStatus_active now t2).
    assert (typeAndTime <$> filter (fun c => Call.type c = type)
                              (filter activeCall (Table.calls t1))
            ≡ₚ typeAndTime <$> filter (fun c => Call.type c = type)
                               (filter activeCall (Table.calls t2))) as Hq.
    { rewrite !typeAndTime_filter_type, Hp. reflexivity. }
    destruct (filter _ (filter activeCall (Table.calls t1))) as [|f1 r1],
             (filter _ (filter activeCall (Table.calls t2))) as [|f2 r2]; try reflexivity.
    + exfalso. apply Permutation_length in Hq. simpl in Hq. lia.
    + exfalso. apply Permutation_length in Hq. simpl in Hq. lia.
    + destruct (same_min_and_maxCount f1 f2 r1 r2 Hq) as [-> _].
      apply Permutation_length in Hq. rewrite !length_fmap in Hq. rewrite Hq. reflexivity.
Qed.

Lemma status_depends_on_active_types_and_times_witness :
  Hooks.getTableSemaphoreStatus 60000 mixedTable scenarioSettings
  = Hooks.getTableSemaphoreStatus 60000 mixedTableShuffled scenarioSettings
  /\ Part002.getTableSemaphoreStatus 60000 mixedTable scenarioSettings
     = Part002.getTableSemaphoreStatus 60000 mixedTableShuffled scenarioSettings
  /\ forall type, Part002.getCallTypeSemaphoreStatus 60000 mixedTable type scenarioSettings
                  = Part002.getCallTypeSemaphoreStatus 60000 mixedTableShuffled type
                      scenarioSettings.
Proof.
  apply (status_depends_on_active_types_and_times 60000 mixedTable mixedTableShuffled
           scenarioSettings).
  vm_compute. apply perm_swap.
Defined.

Lemma tableStatus_IDLE_active (now : Z) (table : Table.t) (settings : Settings.t) :
  filter activeCall (Table.calls table) = [] ->
  Hooks.getTableSemaphoreStatus now table settings = IDLE
  /\ Part002.getTableSemaphoreStatus now table settings = IDLE.
Proof.
  intros H. rewrite Hooks_tableStatus_active, Part002_tableStatus_active, H.
  split; reflexivity.
Qed.

Lemma tableStatus_not_IDLE_active (now : Z) (table : Table.t) (settings : Settings.t)
    (c : Call.t) :
  c ∈ Table.calls table -> activeCall c ->
  Hooks.getTableSemaphoreStatus now table settings <> IDLE
  /\ Part002.getTableSemaphoreStatus now table settings <> IDLE.
Proof.
  intros Hc Ha. rewrite Hooks_tableStatus_active, Part002_tableStatus_active.
  assert (c ∈ filter activeCall (Table.calls table)) as Hin
      by (apply list_elem_of_filter; split; assumption).
  destruct (filter activeCall (Table.calls table)) as [|first rest]; [inversion Hin|].
  split; [apply timeRule_not_IDLE | apply rule_not_IDLE].
Qed.

(** *** Call types against their table *)

Lemma rule_split (e : Q) (k : Z) (settings : Settings.t) :
  Spec.rule e k settings = worse (Spec.timeRule e settings) (qtyRule k settings).
Proof.
  unfold Spec.rule, Spec.timeRule, qtyRule, Qleb.
  destruct (Qgtb e (inject_Z (Settings.timeYellow settings)));
    destruct (Qgtb e (inject_Z (Settings.timeGreen settings)));
    destruct (bool_decide (Settings.qtyYellow settings < k));
    destruct (bool_decide (Settings.qtyGreen settings < k));
    destruct (bool_decide (k <= Settings.qtyYellow settings)); reflexivity.
Qed.

Lemma qtyRule_mono (k k' : Z) (settings : Settings.t) :
  k <= k' -> qtyRule k settings ⊑ qtyRule k' settings.
Proof.
  intros H. unfold qtyRule, Spec.le. repeat case_bool_decide; simpl; lia.
Qed.

Lemma worse_of_le_l (a b : SemaphoreStatus) : a ⊑ b -> worse a b = b.
Proof. intros H. unfold worse. rewrite decide_True by exact H. reflexivity. Qed.

Lemma worse_of_lt_r (a b : SemaphoreStatus) :
  (Spec.rank b < Spec.rank a)%nat -> worse a b = a.
Proof. intros H. unfold worse. rewrite decide_False by lia. reflexivity. Qed.

(** The group of one type inside the active calls of a table. *)
Lemma type_group (first : Call.t) (rest : list Call.t) (c : Call.t) :
  c ∈ first :: rest ->
  exists f r,
    filter (fun x => Call.type x = Call.type c) (first :: rest) = f :: r
    /\ Z.of_nat (length (f :: r)) = Spec.countOfType (Call.type c) (first :: rest)
    /\ Spec.minCreatedAt first rest <= Spec.minCreatedAt f r
    /\ Spec.minCreatedAt f r <= Call.createdAt c.
Proof.
  intros Hc.
  assert (c ∈ filter (fun x => Call.type x = Call.type c) (first :: rest)) as Hin
      by (apply list_elem_of_filter; split; [reflexivity | exact Hc]).
  pose proof (sublist_filter (fun x => Call.type x = Call.type c) (first :: rest)) as Hsub.
  unfold Spec.countOfType.
  destruct (filter _ (first :: rest)) as [|f r]; [inversion Hin|].
  exists f, r. split; [reflexivity|]. split; [reflexivity|]. split.
  - apply minCreatedAt_sublist, Hsub.
  - apply minCreatedAt_lower, Hin.
Qed.

(** In both hooks the status of a call type never exceeds the status of its
    table. *)
Theorem callTypeStatus_le_tableStatus (now : Z) (table : Table.t) (type : CallType)
    (settings : Settings.t) :
  Hooks.getCallTypeSemaphoreStatus now table type settings
    ⊑ Hooks.getTableSemaphoreStatus now table settings
  /\ Part002.getCallTypeSemaphoreStatus now table type settings
     ⊑ Part002.getTableSemaphoreStatus now table settings.
Proof.
  split.
  - rewrite Hooks_tableStatus_active. unfold Hooks.getCallTypeSemaphoreStatus.
    rewrite (list_filter_iff _
               (fun c => Call.type c = type /\ (Call.status c = SENT \/ Call.status c = VIEWED))).
    2:{ intros c. rewrite andb_true_iff, bool_decide_eq_true, isActive_active. reflexivity. }
    rewrite filter_type_and_active.
    pose proof (sublist_filter (fun c => Call.type c = type)
                  (filter activeCall (Table.calls table))) as Hsub.
    destruct (filter _ (filter activeCall (Table.calls table))) as [|oldest others];
      [unfold Spec.le; simpl; lia|].
    destruct (filter activeCall (Table.calls table)) as [|first rest];
      [apply sublist_nil_r in Hsub; discriminate|].
    assert (oldest ∈ first :: rest) as Hin
        by (eapply sublist_subseteq; [exact Hsub | left]).
    pose proof (minCreatedAt_lower first rest oldest Hin) as Hmin.
    unfold elapsedSeconds, Spec.timeRule, Spec.elapsed, Spec.le.
    rewrite !Qgtb_div1000, Qleb_div1000.
    repeat case_bool_decide; simpl; lia.
  - rewrite Part002_tableStatus_active, Part002_callTypeStatus_active.
    pose proof (sublist_filter (fun c => Call.type c = type)
                  (filter activeCall (Table.calls table))) as Hsub.
    pose proof (fun c => list_elem_of_filter (fun c => Call.type c = type)
                           (filter activeCall (Table.calls table)) c) as Hel.
    pose proof (eq_refl : Spec.countOfType type (filter activeCall (Table.calls table))
                          = Z.of_nat (length (filter (fun c => Call.type c = type)
                                            (filter activeCall (Table.calls table))))) as Hn.
    destruct (filter _ (filter activeCall (Table.calls table))) as [|f r];
      [unfold Spec.le; simpl; lia|].
    destruct (filter activeCall (Table.calls table)) as [|first rest];
      [apply sublist_nil_r in Hsub; discriminate|].
    apply rule_mono.
    + pose proof (minCreatedAt_sublist _ _ _ _ Hsub). lia.
    + rewrite <- Hn. destruct (proj1 (Hel f) (list_elem_of_here _ _)) as [Ht Hin].
      rewrite <- Ht. apply maxCount_ub, Hin.
Qed.

(** In [part_002] a table that is not IDLE has an active call whose type
    shows exactly the status of the table: the table status is the worst of
    the statuses of its call types. *)
Theorem Part002_tableStatus_attained (now : Z) (table : Table.t) (settings : Settings.t) :
  Part002.getTableSemaphoreStatus now table settings = IDLE
  \/ exists c, c ∈ Table.calls table /\ activeCall c
               /\ Part002.getCallTypeSemaphoreStatus now table (Call.type c) settings
                  = Part002.getTableSemaphoreStatus now table settings.
Proof.
  rewrite Part002_tableStatus_active.
  pose proof (fun c => list_elem_of_filter activeCall (Table.calls table) c) as Hact.
  assert (forall type, Part002.getCallTypeSemaphoreStatus now table type settings
                       = match filter (fun c => Call.type c = type)
                                      (filter activeCall (Table.calls table)) with
                         | [] => IDLE
                         | f :: r =>
                             Spec.rule (Spec.elapsed now (Spec.minCreatedAt f r))
                               (Z.of_nat (length (f :: r))) settings
                         end) as Hct
      by (intros type; apply Part002_callTypeStatus_active).
  destruct (filter activeCall (Table.calls table)) as [|first rest]; [left; reflexivity|].
  right.
  destruct (minCreatedAt_attained first rest) as (ca & Hca & Hmin).
  destruct (maxCount_attained (first :: rest)) as (cb & Hcb & Hmax); [discriminate|].
  destruct (type_group first rest ca Hca) as (fa & ra & Ha & Hna & Hlo_a & Hhi_a).
  destruct (type_group first rest cb Hcb) as (fb & rb & Hb & Hnb & Hlo_b & _).
  pose proof (maxCount_ub (first :: rest) ca Hca) as Hka.
  set (T := Spec.timeRule (Spec.elapsed now (Spec.minCreatedAt first rest)) settings).
  set (K := qtyRule (Spec.maxCount (first :: rest)) settings).
  rewrite rule_split. fold T K.
  destruct (decide (Spec.rank T <= Spec.rank K)%nat) as [Hle|Hgt].
  - exists cb. destruct (proj1 (Hact cb) Hcb) as [Hs Hin].
    split; [exact Hin|]. split; [exact Hs|].
    rewrite Hct, Hb, rule_split, Hnb, <- Hmax. fold K.
    rewrite (worse_of_le_l T K Hle). apply worse_of_le_l.
    pose proof (timeRule_mono now now (Spec.minCreatedAt fb rb)
                  (Spec.minCreatedAt first rest) settings) as Hm.
    unfold Spec.le in *. fold T in Hm. specialize (Hm ltac:(lia)). lia.
  - exists ca. destruct (proj1 (Hact ca) Hca) as [Hs Hin].
    split; [exact Hin|]. split; [exact Hs|].
    rewrite Hct, Ha, rule_split, Hna.
    replace (Spec.minCreatedAt fa ra) with (Spec.minCreatedAt first rest) by lia.
    fold T. rewrite (worse_of_lt_r T K) by lia. apply worse_of_lt_r.
    pose proof (qtyRule_mono _ _ settings Hka) as Hq.
    unfold Spec.le in Hq. fold K in Hq. lia.
Qed.

(** *** Degenerate thresholds and clocks *)

(** When [timeYellow <= timeGreen] (and, for [part_002],
    [qtyYellow <= qtyGreen]) the YELLOW window is empty: the table status is
    never YELLOW. *)
Theorem collapsed_thresholds_never_YELLOW (now : Z) (table : Table.t)
    (settings : Settings.t) :
  Settings.timeYellow settings <= Settings.timeGreen settings ->
  Hooks.getTableSemaphoreStatus now table settings <> YELLOW
  /\ (Settings.qtyYellow settings <= Settings.qtyGreen settings ->
      Part002.getTableSemaphoreStatus now table settings <> YELLOW).
Proof.
  intros Ht. split.
  - rewrite Hooks_tableStatus_active.
    destruct (filter activeCall (Table.calls table)) as [|first rest]; [discriminate|].
    unfold Spec.timeRule, Spec.elapsed. rewrite !Qgtb_div1000, Qleb_div1000.
    repeat case_bool_decide; simpl; first [discriminate | lia].
  - intros Hq. rewrite Part002_tableStatus_active.
    destruct (filter activeCall (Table.calls table)) as [|first rest]; [discriminate|].
    unfold Spec.rule, Spec.elapsed. rewrite !Qgtb_div1000, Qleb_div1000.
    repeat case_bool_decide; simpl; first [discriminate | lia].
Qed.

Lemma collapsed_thresholds_never_YELLOW_witness :
  Hooks.getTableSemaphoreStatus 60000 mixedTable collapsedSettings <> YELLOW
  /\ (Settings.qtyYellow collapsedSettings <= Settings.qtyGreen collapsedSettings ->
      Part002.getTableSemaphoreStatus 60000 mixedTable collapsedSettings <> YELLOW).
Proof.
  apply (collapsed_thresholds_never_YELLOW 60000 mixedTable collapsedSettings).
  simpl. lia.
Defined.

(** Neither calculator clamps a negative elapsed time, and with non-negative
    time thresholds none is needed: while the clock is not past the creation
    time of any active call, the status does not depend on the clock. *)
Theorem clock_behind_calls_is_harmless (now now' : Z) (table : Table.t)
    (settings : Settings.t) :
  0 <= Settings.timeGreen settings ->
  0 <= Settings.timeYellow settings ->
  (forall c, c ∈ Table.calls table -> activeCall c ->
             now <= Call.createdAt c /\ now' <= Call.createdAt c) ->
  Hooks.getTableSemaphoreStatus now table settings
  = Hooks.getTableSemaphoreStatus now' table settings
  /\ Part002.getTableSemaphoreStatus now table settings
     = Part002.getTableSemaphoreStatus now' table settings.
Proof.
  intros Hg Hy Hc.
  rewrite !Hooks_tableStatus_active, !Part002_tableStatus_active.
  pose proof (fun c => list_elem_of_filter activeCall (Table.calls table) c) as Hact.
  destruct (filter activeCall (Table.calls table)) as [|first rest]; [split; reflexivity|].
  destruct (minCreatedAt_attained first rest) as (c & Hin & Hmin).
  destruct (proj1 (Hact c) Hin) as [Hs Hel]. destruct (Hc c Hel Hs) as [H1 H2].
  unfold Spec.timeRule, Spec.rule, Spec.elapsed.
  rewrite !Qgtb_div1000, !Qleb_div1000.
  rewrite !(bool_decide_eq_false_2 (1000 * _ < _ - Spec.minCreatedAt first rest)) by lia.
  split; reflexivity.
Qed.

Lemma clock_behind_calls_is_harmless_witness :
  Hooks.getTableSemaphoreStatus (-5000) mixedTable scenarioSettings
  = Hooks.getTableSemaphoreStatus 0 mixedTable scenarioSettings
  /\ Part002.getTableSemaphoreStatus (-5000) mixedTable scenarioSettings
     = Part002.getTableSemaphoreStatus 0 mixedTable scenarioSettings.
Proof.
  apply (clock_behind_calls_is_harmless (-5000) 0 mixedTable scenarioSettings).
  - simpl. lia.
  - simpl. lia.
  - intros c Hc Hs. simpl in Hc.
    repeat (apply elem_of_cons in Hc as [->|Hc]); simpl; try lia.
    inversion Hc.
Defined.

(** ** The aggregate built by a refresh *)

Lemma pushCall_lookup (m : gmap string Table.t) (c : DBCall.t) (k : string) :
  pushCall m c !! k
  = if decide (DBCall.table_number c = k)
    then Some (Table.mk (Table.number (default (Table.mk k []) (m !! k)))
                        (Table.calls (default (Table.mk k []) (m !! k)) ++ [toCall c]))
    else m !! k.
Proof.
  unfold pushCall. destruct (decide (DBCall.table_number c = k)) as [->|Hne].
  - rewrite lookup_insert_eq. reflexivity.
  - rewrite lookup_insert_ne by exact Hne. reflexivity.
Qed.

Lemma pushCalls_lookup (calls : list DBCall.t) (m : gmap string Table.t) (k : string) :
  foldl pushCall m calls !! k
  = match filter (fun c => DBCall.table_number c = k) calls with
    | [] => m !! k
    | new => Some (Table.mk (Table.number (default (Table.mk k []) (m !! k)))
                            (Table.calls (default (Table.mk k []) (m !! k))
                             ++ (toCall <$> new)))
    end.
Proof.
  revert m. induction calls as [|c calls IH]; intros m; [reflexivity|].
  change (foldl pushCall m (c :: calls)) with (foldl pushCall (pushCall m c) calls).
  rewrite IH, filter_cons, pushCall_lookup.
  destruct (decide (DBCall.table_number c = k)) as [Heq|Hne].
  - destruct (filter _ calls) as [|c' new]; simpl; [reflexivity|].
    rewrite <- app_assoc. reflexivity.
  - reflexivity.
Qed.

Lemma ensureTable_lookup (m : gmap string Table.t) (i : Z) (k : string) :
  ensureTable m i !! k
  = match m !! k with
    | Some t => Some t
    | None => if decide (pretty i = k) then Some (Table.mk k []) else None
    end.
Proof.
  unfold ensureTable. destruct (decide (pretty i = k)) as [<-|Hne].
  - destruct (m !! pretty i) as [t|] eqn:E; [exact E|]. apply lookup_insert_eq.
  - destruct (m !! pretty i) as [t|].
    + destruct (m !! k); reflexivity.
    + rewrite lookup_insert_ne by exact Hne. destruct (m !! k); reflexivity.
Qed.

Lemma ensureTables_lookup (n : Z) (m : gmap string Table.t) (k : string) :
  ensureTables m n !! k
  = match m !! k with
    | Some t => Some t
    | None => if decide (k ∈ (pretty <$> seqZ 1 n : list string))
              then Some (Table.mk k []) else None
    end.
Proof.
  unfold ensureTables. generalize (seqZ 1 n). intros l. revert m.
  induction l as [|i l IH]; intros m.
  - change (foldl ensureTable m []) with m. destruct (m !! k); [reflexivity|].
    destruct (decide _) as [Hin|]; [inversion Hin | reflexivity].
  - change (foldl ensureTable m (i :: l)) with (foldl ensureTable (ensureTable m i) l).
    rewrite IH, ensureTable_lookup. destruct (m !! k) as [t|]; [reflexivity|].
    rewrite fmap_cons. destruct (decide (pretty i = k)) as [<-|Hne].
    + rewrite decide_True by left. reflexivity.
    + destruct (decide (k ∈ pretty <$> l)) as [Hin|Hout].
      * rewrite decide_True by (right; exact Hin). reflexivity.
      * rewrite decide_False; [reflexivity|].
        intros [Hk|Hk]%elem_of_cons; [exact (Hne (eq_sym Hk)) | exact (Hout Hk)].
Qed.

Lemma built_tables_lookup (fetched : list DBCall.t) (total : Z) (k : string) :
  ensureTables (foldl pushCall ∅ fetched) total !! k = groupedTable fetched total k.
Proof.
  rewrite ensureTables_lookup, pushCalls_lookup, lookup_empty. unfold groupedTable.
  destruct (filter _ fetched) as [|c new]; reflexivity.
Qed.

(** A successful refresh files every fetched call under its table number, in
    the order fetched, gives each table its key as number, and adds an empty
    table for each declared number without calls: the table map is
    [groupedTable] of the fetched rows, the active rows of the establishment
    in [src/hooks] and all its rows in [part_002]. *)
Theorem refresh_groups_calls_by_table (D : Settings.t) (render st : State.t)
    (sb : Remote.t) (estId : string) (est : DBEstablishment.t) :
  filter (fun e => DBEstablishment.id e = estId) (Remote.establishments sb) = [est] ->
  (exists e, (Hooks.loadEstablishmentData D render Up (Some sb) estId st).1 = Some e
             /\ forall k, Establishment.tables e !! k
                          = groupedTable (activeRowsOf estId sb)
                              (Hooks.totalTablesOf D (DBEstablishment.settings est)) k)
  /\ (exists e, (Part002.loadEstablishmentData D (Some sb) estId st).1 = Some e
                /\ forall k, Establishment.tables e !! k
                             = groupedTable (rowsOf estId sb)
                                 (Part002.totalTablesOf D (DBEstablishment.settings est)) k).
Proof.
  intros Hrow. split.
  - unfold Hooks.loadEstablishmentData, Hooks.fetchEstablishment, Hooks.fetchActiveCalls.
    rewrite Hrow. cbn [maybeSingle fst]. eexists. split; [reflexivity|].
    intros k. cbn [Establishment.tables]. apply built_tables_lookup.
  - unfold Part002.loadEstablishmentData. rewrite Hrow. cbn [fst].
    eexists. split; [reflexivity|].
    intros k. cbn [Establishment.tables]. apply built_tables_lookup.
Qed.

Lemma refresh_groups_calls_by_table_witness :
  (exists e, (Hooks.loadEstablishmentData scenarioSettings ownerState Up (Some busyRemote)
                "e1" ownerState).1 = Some e
             /\ forall k, Establishment.tables e !! k
                          = groupedTable (activeRowsOf "e1" busyRemote)
                              (Hooks.totalTablesOf scenarioSettings
                                 (DBEstablishment.settings (cantinaRow true 2))) k)
  /\ (exists e, (Part002.loadEstablishmentData scenarioSettings (Some busyRemote) "e1"
                   ownerState).1 = Some e
                /\ forall k, Establishment.tables e !! k
                             = groupedTable (rowsOf "e1" busyRemote)
                                 (Part002.totalTablesOf scenarioSettings
                                    (DBEstablishment.settings (cantinaRow true 2))) k).
Proof.
  apply (refresh_groups_calls_by_table scenarioSettings ownerState ownerState busyRemote
           "e1" (cantinaRow true 2)).
  reflexivity.
Defined.

Lemma Hooks_load_Up (D : Settings.t) (render st : State.t) (sb : Remote.t)
    (estId : string) (est : DBEstablishment.t) :
  filter (fun e => DBEstablishment.id e = estId) (Remote.establishments sb) = [est] ->
  Hooks.loadEstablishmentData D render Up (Some sb) estId st
  = (Some (builtEstablishment D est (activeRowsOf estId sb)
             (Some (DBEstablishment.is_open est))),
     setEstablishments
       (fun prev => <[estId := builtEstablishment D est (activeRowsOf estId sb)
                                 (Some (DBEstablishment.is_open est))]> prev) st).
Proof.
  intros Hrow.
  unfold Hooks.loadEstablishmentData, Hooks.fetchEstablishment, Hooks.fetchActiveCalls.
  rewrite Hrow. reflexivity.
Qed.

Lemma Part002_load_Up (D : Settings.t) (st : State.t) (sb : Remote.t)
    (estId : string) (est : DBEstablishment.t) :
  filter (fun e => DBEstablishment.id e = estId) (Remote.establishments sb) = [est] ->
  Part002.loadEstablishmentData D (Some sb) estId st
  = (Some (builtEstablishment D est (rowsOf estId sb) None),
     setEstablishments
       (fun prev => <[estId := builtEstablishment D est (rowsOf estId sb) None]> prev) st).
Proof.
  intros Hrow. unfold Part002.loadEstablishmentData. rewrite Hrow. reflexivity.
Qed.

Lemma built_tables (D : Settings.t) (est : DBEstablishment.t) (fetched : list DBCall.t)
    (o : option bool) (k : string) :
  Establishment.tables (builtEstablishment D est fetched o) !! k
  = groupedTable fetched (Hooks.totalTablesOf D (DBEstablishment.settings est)) k.
Proof. apply built_tables_lookup. Qed.

(** The state a refresh leaves is the state it found, or that state with one
    value stored under the requested id. *)
Lemma Hooks_load_state (D : Settings.t) (render : State.t) (net : Net)
    (sb : option Remote.t) (estId : string) (st : State.t) :
  (Hooks.loadEstablishmentData D render net sb estId st).2 = st
  \/ exists e, (Hooks.loadEstablishmentData D render net sb estId st).2
               = setEstablishments (fun prev => <[estId := e]> prev) st.
Proof.
  unfold Hooks.loadEstablishmentData. destruct sb as [sb|]; [|left; reflexivity].
  destruct (Hooks.fetchEstablishment net sb estId) as [|[est|] [code|]];
    try (left; reflexivity); try (right; eexists; reflexivity);
    (destruct (State.establishments render !! estId); [left; reflexivity|];
     destruct (State.currentUser render) as [u|]; [|left; reflexivity];
     destruct (_ && _); [right; eexists; reflexivity | left; reflexivity]).
Qed.

Lemma Part002_load_state (D : Settings.t) (sb : option Remote.t) (estId : string)
    (st : State.t) :
  (Part002.loadEstablishmentData D sb estId st).2 = st
  \/ exists e, (Part002.loadEstablishmentData D sb estId st).2
               = setEstablishments (fun prev => <[estId := e]> prev) st.
Proof.
  unfold Part002.loadEstablishmentData. destruct sb as [sb|]; [|left; reflexivity].
  destruct (filter _ (Remote.establishments sb)) as [|est [|est' more]];
    first [left; reflexivity | right; eexists; reflexivity].
Qed.

Lemma onlyTouchesEntry_refl (estId : string) (st : State.t) : onlyTouchesEntry estId st st.
Proof. repeat split; auto. Qed.

Lemma onlyTouchesEntry_insert (estId : string) (e : Establishment.t) (st : State.t) :
  onlyTouchesEntry estId st (setEstablishments (fun prev => <[estId := e]> prev) st).
Proof.
  repeat split; cbn [setEstablishments State.establishments].
  - intros k Hk. apply lookup_insert_ne. congruence.
  - intros _. rewrite lookup_insert_eq. eauto.
Qed.

(** A refresh, whatever its outcome, never changes the session user, the
    customer profiles or the [isUpdating] flag, never changes the cache entry
    of another establishment, and never removes an entry. *)
Theorem refresh_only_touches_its_entry (D : Settings.t) (render : State.t) (net : Net)
    (sb : option Remote.t) (estId : string) (st : State.t) :
  onlyTouchesEntry estId st (Hooks.loadEstablishmentData D render net sb estId st).2
  /\ onlyTouchesEntry estId st (Part002.loadEstablishmentData D sb estId st).2.
Proof.
  split.
  - destruct (Hooks_load_state D render net sb estId st) as [->|[e ->]];
      [apply onlyTouchesEntry_refl | apply onlyTouchesEntry_insert].
  - destruct (Part002_load_state D sb estId st) as [->|[e ->]];
      [apply onlyTouchesEntry_refl | apply onlyTouchesEntry_insert].
Qed.

(** ** Writes to the calls of the remote store *)

Lemma NoDup_id_inj (rows : list DBCall.t) (c c' : DBCall.t) :
  NoDup (DBCall.id <$> rows) -> c ∈ rows -> c' ∈ rows ->
  DBCall.id c = DBCall.id c' -> c = c'.
Proof.
  induction rows as [|x rows IH]; intros Hnd Hc Hc' Hid; [inversion Hc|].
  rewrite fmap_cons in Hnd. apply NoDup_cons in Hnd as [Hx Hnd].
  apply elem_of_cons in Hc as [->|Hc]; apply elem_of_cons in Hc' as [->|Hc'].
  - reflexivity.
  - exfalso. apply Hx. rewrite Hid. apply list_elem_of_fmap. eauto.
  - exfalso. apply Hx. rewrite <- Hid. apply list_elem_of_fmap. eauto.
  - apply IH; assumption.
Qed.

Lemma forward_refl (s : CallStatus) : forward s s.
Proof. left. reflexivity. Qed.

Lemma movedForward_refl (c : DBCall.t) : movedForward c c.
Proof. repeat split. apply forward_refl. Qed.

Lemma updateCalls_movedForward (s : CallStatus) (p : DBCall.t -> bool) (sb : Remote.t) :
  (forall c, c ∈ Remote.calls sb -> p c = true -> forward (DBCall.status c) s) ->
  Forall2 movedForward (Remote.calls sb)
          (Remote.calls (Remote.updateCalls (DBCall.withStatus s) p sb)).
Proof.
  intros H. cbn [Remote.updateCalls Remote.calls].
  apply Forall2_fmap_r, Forall_Forall2_diag, Forall_forall.
  intros c Hc. change (movedForward c (if p c then DBCall.withStatus s c else c)).
  destruct (p c) eqn:Hp; [|apply movedForward_refl].
  repeat split. exact (H c Hc Hp).
Qed.

Lemma movedForward_ids (l l' : list DBCall.t) :
  Forall2 movedForward l l' -> DBCall.id <$> l' = DBCall.id <$> l.
Proof.
  induction 1 as [|c c' l l' Hc _ IH]; [reflexivity|].
  rewrite !fmap_cons, IH. destruct Hc as [-> _]. reflexivity.
Qed.

Lemma active_forward_terminal (s t : CallStatus) :
  s = SENT \/ s = VIEWED -> t = ATTENDED \/ t = CANCELED -> forward s t.
Proof. intros Hs Ht. right; right. split; assumption. Qed.

Lemma oldest_update_movedForward (s : CallStatus) (estId tableNum : string)
    (type : CallType) (sb : Remote.t) :
  s = ATTENDED \/ s = CANCELED ->
  NoDup (DBCall.id <$> Remote.calls sb) ->
  Forall2 movedForward (Remote.calls sb)
    (Remote.calls
       match selectOldestActive estId tableNum type sb with
       | first :: _ =>
           Remote.updateCalls (DBCall.withStatus s)
             (fun c => bool_decide (DBCall.id c = DBCall.id first)) sb
       | [] => sb
       end).
Proof.
  intros Hs Hnd. pose proof (selectOldestActive_spec estId tableNum type sb) as Hsel.
  destruct (selectOldestActive estId tableNum type sb) as [|first rest].
  - apply Forall_Forall2_diag, Forall_forall. intros c _. apply movedForward_refl.
  - destruct Hsel as (_ & Hin & (_ & _ & _ & Hact) & _).
    apply updateCalls_movedForward. intros c Hc Hp.
    apply bool_decide_eq_true in Hp.
    rewrite (NoDup_id_inj _ c first Hnd Hc Hin Hp).
    apply active_forward_terminal; assumption.
Qed.

Lemma view_movedForward (estId tableNum : string) (sb : Remote.t) :
  NoDup (DBCall.id <$> Remote.calls sb) ->
  Forall2 movedForward (Remote.calls sb)
          (Remote.calls (Hooks.viewAllCallsForTable sb estId tableNum)).
Proof.
  intros Hnd. unfold Hooks.viewAllCallsForTable.
  pose proof (fun c => list_elem_of_filter
                (fun c => DBCall.establishment_id c = estId
                          /\ DBCall.table_number c = tableNum /\ DBCall.status c = SENT)
                (Remote.calls sb) c) as Hel.
  destruct (filter _ (Remote.calls sb)) as [|d data] eqn:Hdata.
  - apply Forall_Forall2_diag, Forall_forall. intros c _. apply movedForward_refl.
  - apply updateCalls_movedForward. intros c Hc Hp.
    apply bool_decide_eq_true, list_elem_of_fmap in Hp as (c' & Hid & Hc').
    apply Hel in Hc' as [(_ & _ & Hs) Hc'].
    rewrite (NoDup_id_inj _ c c' Hnd Hc Hc' Hid), Hs. right; left. split; reflexivity.
Qed.

(** With unique call ids, every write of [src/hooks] to [calls] after the
    insert keeps every row with its id, establishment, table, type and
    creation time, and moves its status forward or leaves it: no call is
    deleted, re-parented or re-opened, and the ids stay unique. *)
Theorem lifecycle_writes_move_forward (sb : Remote.t) (estId tableNum : string)
    (type : CallType) :
  NoDup (DBCall.id <$> Remote.calls sb) ->
  Forall (fun sb' => Forall2 movedForward (Remote.calls sb) (Remote.calls sb')
                     /\ NoDup (DBCall.id <$> Remote.calls sb'))
    [Hooks.attendOldestCallByType sb estId tableNum type;
     Hooks.cancelOldestCallByType sb estId tableNum type;
     Hooks.viewAllCallsForTable sb estId tableNum;
     Hooks.closeTable sb estId tableNum;
     Hooks.closeEstablishmentWorkday sb estId].
Proof.
  intros Hnd.
  assert (forall sb', Forall2 movedForward (Remote.calls sb) (Remote.calls sb') ->
                      Forall2 movedForward (Remote.calls sb) (Remote.calls sb')
                      /\ NoDup (DBCall.id <$> Remote.calls sb')) as Hboth.
  { intros sb' H. split; [exact H|]. rewrite (movedForward_ids _ _ H). exact Hnd. }
  repeat apply Forall_cons_2; try apply Forall_nil_2; apply Hboth.
  - apply oldest_update_movedForward; [left; reflexivity | exact Hnd].
  - apply oldest_update_movedForward; [right; reflexivity | exact Hnd].
  - apply view_movedForward, Hnd.
  - apply updateCalls_movedForward. intros c _ Hp.
    apply bool_decide_eq_true in Hp as (_ & _ & Hs).
    apply active_forward_terminal; [exact Hs | left; reflexivity].
  - unfold Hooks.closeEstablishmentWorkday.
    apply (updateCalls_movedForward CANCELED _
             (Remote.updateEstablishments (DBEstablishment.withIsOpen false)
                (fun e => bool_decide (DBEstablishment.id e = estId)) sb)).
    intros c _ Hp. apply bool_decide_eq_true in Hp as (_ & Hs).
    apply active_forward_terminal; [exact Hs | right; reflexivity].
Qed.

Lemma lifecycle_writes_move_forward_witness :
  Forall (fun sb' => Forall2 movedForward (Remote.calls busyRemote) (Remote.calls sb')
                     /\ NoDup (DBCall.id <$> Remote.calls sb'))
    [Hooks.attendOldestCallByType busyRemote "e1" "5" "WAITER";
     Hooks.cancelOldestCallByType busyRemote "e1" "5" "WAITER";
     Hooks.viewAllCallsForTable busyRemote "e1" "5";
     Hooks.closeTable busyRemote "e1" "5";
     Hooks.closeEstablishmentWorkday busyRemote "e1"].
Proof.
  apply (lifecycle_writes_move_forward busyRemote "e1" "5" "WAITER").
  apply (bool_decide_unpack _). vm_compute. exact I.
Defined.

(** *** Marking the calls of a table as viewed *)

Lemma view_no_SENT (sb : Remote.t) (estId tableNum : string) (c : DBCall.t) :
  c ∈ Remote.calls (Hooks.viewAllCallsForTable sb estId tableNum) ->
  DBCall.establishment_id c = estId -> DBCall.table_number c = tableNum ->
  DBCall.status c <> SENT.
Proof.
  unfold Hooks.viewAllCallsForTable.
  pose proof (fun c => list_elem_of_filter
                (fun c => DBCall.establishment_id c = estId
                          /\ DBCall.table_number c = tableNum /\ DBCall.status c = SENT)
                (Remote.calls sb) c) as Hel.
  destruct (filter _ (Remote.calls sb)) as [|d data].
  - intros Hc He Ht Hs.
    assert (c ∈ @nil DBCall.t) as Hnil by (apply Hel; auto). inversion Hnil.
  - cbn [Remote.updateCalls Remote.calls].
    intros (c0 & -> & Hc0)%list_elem_of_fmap. case_bool_decide as Hid.
    + intros _ _. discriminate.
    + intros He Ht Hs. apply Hid, list_elem_of_fmap. exists c0.
      split; [reflexivity|]. apply Hel. auto.
Qed.

Lemma view_calls (sb : Remote.t) (estId tableNum : string) :
  NoDup (DBCall.id <$> Remote.calls sb) ->
  Remote.calls (Hooks.viewAllCallsForTable sb estId tableNum)
  = (fun c => if bool_decide (DBCall.establishment_id c = estId
                              /\ DBCall.table_number c = tableNum
                              /\ DBCall.status c = SENT)
              then DBCall.withStatus VIEWED c else c) <$> Remote.calls sb.
Proof.
  intros Hnd. unfold Hooks.viewAllCallsForTable.
  pose proof (fun c => list_elem_of_filter
                (fun c => DBCall.establishment_id c = estId
                          /\ DBCall.table_number c = tableNum /\ DBCall.status c = SENT)
                (Remote.calls sb) c) as Hel.
  destruct (filter _ (Remote.calls sb)) as [|d data].
  - rewrite <- (list_fmap_id (Remote.calls sb)) at 1. apply list_fmap_ext.
    intros i c Hc. apply list_elem_of_lookup_2 in Hc.
    rewrite bool_decide_eq_false_2; [reflexivity|].
    intros Hp. assert (c ∈ @nil DBCall.t) as Hnil by (apply Hel; auto). inversion Hnil.
  - cbn [Remote.updateCalls Remote.calls]. apply list_fmap_ext.
    intros i c Hc. apply list_elem_of_lookup_2 in Hc.
    apply (f_equal (fun b : bool => if b then DBCall.withStatus VIEWED c else c)).
    apply bool_decide_ext. split.
    + intros (c' & Hid & Hc')%list_elem_of_fmap. apply Hel in Hc' as [Hp Hc'].
      rewrite (NoDup_id_inj _ c c' Hnd Hc Hc' Hid). exact Hp.
    + intros Hp. apply list_elem_of_fmap. exists c. split; [reflexivity|].
      apply Hel. auto.
Qed.

(** [viewAllCallsForTable] of [src/hooks] leaves no SENT call on the table,
    and a second run changes nothing; with unique call ids it sets exactly
    the SENT rows of that table of that establishment to VIEWED and leaves
    every other row as it is. *)
Theorem viewAllCalls_effect (sb : Remote.t) (estId tableNum : string) :
  (forall c, c ∈ Remote.calls (Hooks.viewAllCallsForTable sb estId tableNum) ->
             DBCall.establishment_id c = estId -> DBCall.table_number c = tableNum ->
             DBCall.status c <> SENT)
  /\ Hooks.viewAllCallsForTable (Hooks.viewAllCallsForTable sb estId tableNum)
       estId tableNum
     = Hooks.viewAllCallsForTable sb estId tableNum
  /\ (NoDup (DBCall.id <$> Remote.calls sb) ->
      Remote.calls (Hooks.viewAllCallsForTable sb estId tableNum)
      = (fun c => if bool_decide (DBCall.establishment_id c = estId
                                  /\ DBCall.table_number c = tableNum
                                  /\ DBCall.status c = SENT)
                  then DBCall.withStatus VIEWED c else c) <$> Remote.calls sb).
Proof.
  split; [|split].
  - apply view_no_SENT.
  - unfold Hooks.viewAllCallsForTable at 1.
    replace (filter _ (Remote.calls (Hooks.viewAllCallsForTable sb estId tableNum)))
      with (@nil DBCall.t); [reflexivity|].
    symmetry. apply filter_nil_iff. intros c Hc (He & Ht & Hs).
    exact (view_no_SENT sb estId tableNum c Hc He Ht Hs).
  - apply view_calls.
Qed.

(** *** Closing a table *)

Lemma closeTable_no_active (sb : Remote.t) (estId tableNum : string) (c : DBCall.t) :
  c ∈ Remote.calls (Hooks.closeTable sb estId tableNum) ->
  DBCall.establishment_id c = estId -> DBCall.table_number c = tableNum ->
  ~ activeRow c.
Proof.
  unfold Hooks.closeTable. cbn [Remote.updateCalls Remote.calls].
  intros (c0 & -> & _)%list_elem_of_fmap. case_bool_decide as Hp.
  - intros _ _ [Hs|Hs]; discriminate Hs.
  - intros He Ht Hs. apply Hp. auto.
Qed.

Lemma closeTable_selects_nothing (sb : Remote.t) (estId tableNum : string)
    (type : CallType) :
  selectOldestActive estId tableNum type (Hooks.closeTable sb estId tableNum) = [].
Proof.
  unfold selectOldestActive.
  replace (filter _ (Remote.calls (Hooks.closeTable sb estId tableNum)))
    with (@nil DBCall.t); [reflexivity|].
  symmetry. apply filter_nil_iff. intros c Hc (He & Ht & _ & Hs).
  exact (closeTable_no_active sb estId tableNum c Hc He Ht Hs).
Qed.

(** After [closeTable] no call of the table is SENT or VIEWED, rows that
    were not active calls of that table are still there unchanged, and
    closing again, viewing, or attending or cancelling the oldest call of any
    type on that table changes nothing; [part_002] issues the same update. *)
Theorem closeTable_effect (sb : Remote.t) (estId tableNum : string) :
  let closed := Hooks.closeTable sb estId tableNum in
  (forall c, c ∈ Remote.calls closed ->
             DBCall.establishment_id c = estId -> DBCall.table_number c = tableNum ->
             ~ activeRow c)
  /\ (forall c, c ∈ Remote.calls sb ->
                ~ (DBCall.establishment_id c = estId /\ DBCall.table_number c = tableNum
                   /\ activeRow c) ->
                c ∈ Remote.calls closed)
  /\ Hooks.closeTable closed estId tableNum = closed
  /\ Hooks.viewAllCallsForTable closed estId tableNum = closed
  /\ (forall type, Hooks.attendOldestCallByType closed estId tableNum type = closed
                   /\ Hooks.cancelOldestCallByType closed estId tableNum type = closed)
  /\ Part002.closeTable (Some sb) estId tableNum = Some closed.
Proof.
  intros closed. split; [|split; [|split; [|split; [|split]]]].
  - apply closeTable_no_active.
  - intros c Hc Hn. unfold closed, Hooks.closeTable.
    cbn [Remote.updateCalls Remote.calls]. apply list_elem_of_fmap. exists c.
    split; [|exact Hc]. rewrite bool_decide_eq_false_2; [reflexivity | exact Hn].
  - unfold closed, Hooks.closeTable, Remote.updateCalls. cbn [Remote.calls
      Remote.establishments Remote.customer_favorites]. f_equal.
    rewrite <- list_fmap_compose. apply list_fmap_ext. intros i c _. cbn.
    destruct (bool_decide (DBCall.establishment_id c = estId /\ _)) eqn:Hp.
    + rewrite bool_decide_eq_false_2; [reflexivity|].
      cbn. intros (_ & _ & [Hs|Hs]); discriminate Hs.
    + rewrite Hp. reflexivity.
  - unfold Hooks.viewAllCallsForTable.
    replace (filter _ (Remote.calls closed)) with (@nil DBCall.t); [reflexivity|].
    symmetry. apply filter_nil_iff. intros c Hc (He & Ht & Hs).
    apply (closeTable_no_active sb estId tableNum c Hc He Ht). left. exact Hs.
  - intros type. unfold Hooks.attendOldestCallByType, Hooks.cancelOldestCallByType, closed.
    rewrite closeTable_selects_nothing. split; reflexivity.
  - reflexivity.
Qed.

(** *** Closing the workday and the pending-calls check *)

Lemma filter_fmap_unaffected {A} (P : A -> Prop) `{!forall x, Decision (P x)}
    (g : A -> A) (l : list A) :
  (forall x, g x = x \/ (~ P x /\ ~ P (g x))) ->
  filter P (g <$> l) = filter P l.
Proof.
  intros Hg. induction l as [|x l IH]; [reflexivity|].
  rewrite fmap_cons, !filter_cons, IH.
  destruct (Hg x) as [->|[H1 H2]]; [reflexivity|].
  rewrite !decide_False by assumption. reflexivity.
Qed.

(** After [closeEstablishmentWorkday] the pending-calls check of that
    establishment is false; the check of every other establishment, the
    calls and the rows of other establishments, and the favourites are as
    before. *)
Theorem closeWorkday_effect (sb : Remote.t) (id : string) :
  let closed := Hooks.closeEstablishmentWorkday sb id in
  Hooks.checkPendingCallsOnLogin closed id = false
  /\ (forall other, other <> id ->
        Hooks.checkPendingCallsOnLogin closed other
        = Hooks.checkPendingCallsOnLogin sb other)
  /\ (forall c, c ∈ Remote.calls sb -> DBCall.establishment_id c <> id ->
                c ∈ Remote.calls closed)
  /\ (forall e, e ∈ Remote.establishments sb -> DBEstablishment.id e <> id ->
                e ∈ Remote.establishments closed)
  /\ Remote.customer_favorites closed = Remote.customer_favorites sb.
Proof.
  intros closed. unfold closed, Hooks.closeEstablishmentWorkday, Hooks.checkPendingCallsOnLogin.
  cbn [Remote.updateCalls Remote.updateEstablishments Remote.calls Remote.establishments
       Remote.customer_favorites].
  split; [|split; [|split; [|split]]].
  - apply bool_decide_eq_false_2.
    replace (filter _ (_ <$> Remote.calls sb)) with (@nil DBCall.t); [simpl; lia|].
    symmetry. apply filter_nil_iff.
    intros c (c0 & -> & _)%list_elem_of_fmap. case_bool_decide as Hp.
    + intros (_ & [Hs|Hs]); discriminate Hs.
    + exact Hp.
  - intros other Hne. f_equal.
    rewrite (filter_fmap_unaffected
               (fun c => DBCall.establishment_id c = other
                         /\ (DBCall.status c = SENT \/ DBCall.status c = VIEWED)));
      [reflexivity|].
    intros c. case_bool_decide as Hp; [right | left; reflexivity].
    destruct Hp as [He _]. split; cbn; rewrite ?He; intros [Ho _]; congruence.
  - intros c Hc Hne. apply list_elem_of_fmap. exists c. split; [|exact Hc].
    rewrite bool_decide_eq_false_2; [reflexivity|]. intros [He _]. contradiction.
  - intros e He Hne. apply list_elem_of_fmap. exists e. split; [|exact He].
    rewrite bool_decide_eq_false_2; [reflexivity | exact Hne].
  - reflexivity.
Qed.

(** *** Raising a call *)





(** *** Writes followed by the refresh they start *)

Lemma groupedTable_calls (fetched : list DBCall.t) (total : Z) (k : string) (t : Table.t) :
  groupedTable fetched total k = Some t ->
  Table.number t = k
  /\ Table.calls t = toCall <$> filter (fun c => DBCall.table_number c = k) fetched.
Proof.
  unfold groupedTable. destruct (filter _ fetched) as [|c new]; simpl.
  - destruct (decide _); [|discriminate]. intros [= <-]. split; reflexivity.
  - intros [= <-]. split; reflexivity.
Qed.

Lemma groupedTable_of_fetched (fetched : list DBCall.t) (total : Z) (c : DBCall.t) :
  c ∈ fetched ->
  groupedTable fetched total (DBCall.table_number c)
  = Some (Table.mk (DBCall.table_number c)
            (toCall <$> filter (fun x => DBCall.table_number x = DBCall.table_number c)
                          fetched)).
Proof.
  intros Hc. unfold groupedTable.
  assert (c ∈ filter (fun x => DBCall.table_number x = DBCall.table_number c) fetched)
    as Hin by (apply list_elem_of_filter; split; [reflexivity | exact Hc]).
  destruct (filter _ fetched) as [|x new]; [inversion Hin | reflexivity].
Qed.

(** After [addCall] and a successful refresh the aggregate has a table for
    the number of the call, also beyond [totalTables]; the new call is the
    last of its calls, and the status of the table is not IDLE, at any time
    and for any settings, in both hooks. *)
Theorem addCall_then_refresh (D : Settings.t) (render st : State.t) (sb : Remote.t)
    (est : DBEstablishment.t) (newId : string) (now : Z) (estId tableNum : string)
    (type : CallType) :
  filter (fun e => DBEstablishment.id e = estId) (Remote.establishments sb) = [est] ->
  let added := Hooks.addCall sb newId now estId tableNum type in
  (exists e t,
      (Hooks.loadEstablishmentData D render Up (Some added) estId st).1 = Some e
      /\ Establishment.tables e !! tableNum = Some t
      /\ Table.number t = tableNum
      /\ last (Table.calls t) = Some (Call.mk newId type SENT now)
      /\ forall now' settings, Hooks.getTableSemaphoreStatus now' t settings <> IDLE)
  /\ (exists e t,
      (Part002.loadEstablishmentData D (Some added) estId st).1 = Some e
      /\ Establishment.tables e !! tableNum = Some t
      /\ Table.number t = tableNum
      /\ last (Table.calls t) = Some (Call.mk newId type SENT now)
      /\ forall now' settings, Part002.getTableSemaphoreStatus now' t settings <> IDLE).
Proof.
  intros Hrow added.
  assert (filter (fun e => DBEstablishment.id e = estId) (Remote.establishments added)
          = [est]) as Hrow' by exact Hrow.
  set (row := raisedCall newId now estId tableNum type).
  assert (forall rows,
             last (toCall <$> filter (fun x => DBCall.table_number x = tableNum)
                               (rows ++ [row]))
             = Some (Call.mk newId type SENT now)) as Hlast.
  { intros rows. rewrite filter_app, filter_cons, decide_True by reflexivity.
    rewrite filter_nil, fmap_app. apply last_snoc. }
  assert (forall (t : Table.t) rows,
             Table.calls t = toCall <$> filter (fun x => DBCall.table_number x = tableNum)
                                          (rows ++ [row]) ->
             Call.mk newId type SENT now ∈ Table.calls t) as Hmem.
  { intros t rows ->. rewrite filter_app, filter_cons, decide_True by reflexivity.
    rewrite fmap_app. apply elem_of_app. right. left. }
  split.
  - rewrite (Hooks_load_Up D render st added estId est Hrow'). cbn [fst].
    assert (activeRowsOf estId added = activeRowsOf estId sb ++ [row]) as Hf.
    { unfold activeRowsOf, added, Hooks.addCall, Remote.insertCall. cbn [Remote.calls].
      rewrite filter_app, filter_cons, decide_True; [reflexivity|].
      split; [reflexivity | left; reflexivity]. }
    eexists. eexists. split; [reflexivity|]. rewrite built_tables, Hf.
    rewrite (groupedTable_of_fetched _ _ row) by (apply elem_of_app; right; left).
    split; [reflexivity|]. split; [reflexivity|]. split; [apply Hlast|].
    intros now' settings.
    eapply (tableStatus_not_IDLE_active now' _ settings (Call.mk newId type SENT now)).
    + eapply Hmem. reflexivity.
    + left. reflexivity.
  - rewrite (Part002_load_Up D st added estId est Hrow'). cbn [fst].
    assert (rowsOf estId added = rowsOf estId sb ++ [row]) as Hf.
    { unfold rowsOf, added, Hooks.addCall, Remote.insertCall. cbn [Remote.calls].
      rewrite filter_app, filter_cons, decide_True; reflexivity. }
    eexists. eexists. split; [reflexivity|]. rewrite built_tables, Hf.
    rewrite (groupedTable_of_fetched _ _ row) by (apply elem_of_app; right; left).
    split; [reflexivity|]. split; [reflexivity|]. split; [apply Hlast|].
    intros now' settings.
    eapply (tableStatus_not_IDLE_active now' _ settings (Call.mk newId type SENT now)).
    + eapply Hmem. reflexivity.
    + left. reflexivity.
Qed.

Lemma addCall_then_refresh_witness :
  let added := Hooks.addCall busyRemote "c9" 400 "e1" "9" "BILL" in
  (exists e t,
      (Hooks.loadEstablishmentData scenarioSettings ownerState Up (Some added) "e1"
         ownerState).1 = Some e
      /\ Establishment.tables e !! "9" = Some t
      /\ Table.number t = "9"
      /\ last (Table.calls t) = Some (Call.mk "c9" "BILL" SENT 400)
      /\ forall now' settings, Hooks.getTableSemaphoreStatus now' t settings <> IDLE)
  /\ (exists e t,
      (Part002.loadEstablishmentData scenarioSettings (Some added) "e1" ownerState).1
      = Some e
      /\ Establishment.tables e !! "9" = Some t
      /\ Table.number t = "9"
      /\ last (Table.calls t) = Some (Call.mk "c9" "BILL" SENT 400)
      /\ forall now' settings, Part002.getTableSemaphoreStatus now' t settings <> IDLE).
Proof.
  apply (addCall_then_refresh scenarioSettings ownerState ownerState busyRemote
           (cantinaRow true 2) "c9" 400 "e1" "9" "BILL").
  reflexivity.
Defined.

(** After [closeTable] and a successful refresh the table, if the aggregate
    has it, shows IDLE at any time and for any settings, in both hooks. *)
Theorem closeTable_then_refresh (D : Settings.t) (render st : State.t) (sb : Remote.t)
    (est : DBEstablishment.t) (estId tableNum : string) :
  filter (fun e => DBEstablishment.id e = estId) (Remote.establishments sb) = [est] ->
  let closed := Hooks.closeTable sb estId tableNum in
  (exists e,
      (Hooks.loadEstablishmentData D render Up (Some closed) estId st).1 = Some e
      /\ forall t now settings,
           Establishment.tables e !! tableNum = Some t ->
           Table.calls t = []
           /\ Hooks.getTableSemaphoreStatus now t settings = IDLE)
  /\ (exists e,
      (Part002.loadEstablishmentData D (Some closed) estId st).1 = Some e
      /\ forall t now settings,
           Establishment.tables e !! tableNum = Some t ->
           Part002.getTableSemaphoreStatus now t settings = IDLE).
Proof.
  intros Hrow closed.
  assert (filter (fun e => DBEstablishment.id e = estId) (Remote.establishments closed)
          = [est]) as Hrow' by exact Hrow.
  split.
  - rewrite (Hooks_load_Up D render st closed estId est Hrow'). cbn [fst].
    eexists. split; [reflexivity|]. intros t now settings. rewrite built_tables.
    intros Ht. apply groupedTable_calls in Ht as [_ Hcalls].
    assert (Table.calls t = []) as Hnil.
    { rewrite Hcalls.
      replace (filter _ (activeRowsOf estId closed)) with (@nil DBCall.t); [reflexivity|].
      symmetry. apply filter_nil_iff.
      intros c [[He Hs] Hc]%list_elem_of_filter Hn.
      exact (closeTable_no_active sb estId tableNum c Hc He Hn Hs). }
    split; [exact Hnil|].
    apply tableStatus_IDLE_active. rewrite Hnil. reflexivity.
  - rewrite (Part002_load_Up D st closed estId est Hrow'). cbn [fst].
    eexists. split; [reflexivity|]. intros t now settings. rewrite built_tables.
    intros Ht. apply groupedTable_calls in Ht as [_ Hcalls].
    apply tableStatus_IDLE_active. rewrite Hcalls.
    apply filter_nil_iff.
    intros c (r & -> & [Hn [He Hr]%list_elem_of_filter]%list_elem_of_filter)%list_elem_of_fmap Ha.
    exact (closeTable_no_active sb estId tableNum r Hr He Hn Ha).
Qed.

Lemma closeTable_then_refresh_witness :
  let closed := Hooks.closeTable sixTablesRemote "e1" "5" in
  (exists e,
      (Hooks.loadEstablishmentData scenarioSettings ownerState Up (Some closed) "e1"
         ownerState).1 = Some e
      /\ forall t now settings,
           Establishment.tables e !! "5" = Some t ->
           Table.calls t = []
           /\ Hooks.getTableSemaphoreStatus now t settings = IDLE)
  /\ (exists e,
      (Part002.loadEstablishmentData scenarioSettings (Some closed) "e1" ownerState).1
      = Some e
      /\ forall t now settings,
           Establishment.tables e !! "5" = Some t ->
           Part002.getTableSemaphoreStatus now t settings = IDLE).
Proof.
  apply (closeTable_then_refresh scenarioSettings ownerState ownerState sixTablesRemote
           (cantinaRow true 6) "e1" "5").
  reflexivity.
Defined.

(** On that store table 5 is in both aggregates after the close: without
    calls in [src/hooks], with its three attended calls in [part_002]. *)
Example closeTable_then_refresh_table_5 :
  let closed := Hooks.closeTable sixTablesRemote "e1" "5" in
  ((fun e => Table.calls <$> Establishment.tables e !! "5")
     <$> (Hooks.loadEstablishmentData scenarioSettings ownerState Up (Some closed) "e1"
            ownerState).1)
  = Some (Some [])
  /\ ((fun e => (fun t => Call.status <$> Table.calls t) <$> Establishment.tables e !! "5")
        <$> (Part002.loadEstablishmentData scenarioSettings (Some closed) "e1"
               ownerState).1)
     = Some (Some [ATTENDED; ATTENDED; ATTENDED]).
Proof. split; vm_compute; reflexivity. Qed.

(** *** Settings *)

Lemma filter_updated_row (f : DBEstablishment.t -> DBEstablishment.t) (id : string)
    (rows : list DBEstablishment.t) :
  (forall e, DBEstablishment.id (f e) = DBEstablishment.id e) ->
  filter (fun e => DBEstablishment.id e = id)
         ((fun e => if bool_decide (DBEstablishment.id e = id) then f e else e) <$> rows)
  = f <$> filter (fun e => DBEstablishment.id e = id) rows.
Proof.
  intros Hf. induction rows as [|e rows IH]; [reflexivity|].
  rewrite fmap_cons, !filter_cons, IH. case_bool_decide as Hid.
  - rewrite !decide_True by (rewrite ?Hf; exact Hid). reflexivity.
  - rewrite !decide_False by exact Hid. reflexivity.
Qed.

(** [updateSettings] followed by a successful refresh: the aggregate carries
    exactly the settings written, its tables are the fetched calls grouped
    over the new [totalTables] (the default count when the new count is 0),
    and the rows of other establishments and all calls are untouched; in both
    hooks. *)
Theorem updateSettings_then_refresh (D : Settings.t) (render st : State.t)
    (sb : Remote.t) (est : DBEstablishment.t) (id : string) (s : Settings.t) :
  filter (fun e => DBEstablishment.id e = id) (Remote.establishments sb) = [est] ->
  let updated := Hooks.updateSettings sb id s in
  Part002.updateSettings (Some sb) id s = Some updated
  /\ Remote.calls updated = Remote.calls sb
  /\ (forall e, e ∈ Remote.establishments sb -> DBEstablishment.id e <> id ->
                e ∈ Remote.establishments updated)
  /\ (exists e,
        (Hooks.loadEstablishmentData D render Up (Some updated) id st).1 = Some e
        /\ Establishment.settings e = s
        /\ forall k, Establishment.tables e !! k
                     = groupedTable (activeRowsOf id sb)
                         (if bool_decide (Settings.totalTables s = 0)
                          then Settings.totalTables D else Settings.totalTables s) k)
  /\ (exists e,
        (Part002.loadEstablishmentData D (Some updated) id st).1 = Some e
        /\ Establishment.settings e = s
        /\ forall k, Establishment.tables e !! k
                     = groupedTable (rowsOf id sb)
                         (if bool_decide (Settings.totalTables s = 0)
                          then Settings.totalTables D else Settings.totalTables s) k).
Proof.
  intros Hrow updated.
  assert (filter (fun e => DBEstablishment.id e = id) (Remote.establishments updated)
          = [DBEstablishment.withSettings s est]) as Hrow'.
  { unfold updated, Hooks.updateSettings, Remote.updateEstablishments.
    cbn [Remote.establishments]. rewrite filter_updated_row by reflexivity.
    rewrite Hrow. reflexivity. }
  split; [reflexivity|]. split; [reflexivity|]. split; [|split].
  - intros e He Hne. unfold updated, Hooks.updateSettings, Remote.updateEstablishments.
    cbn [Remote.establishments]. apply list_elem_of_fmap. exists e. split; [|exact He].
    rewrite bool_decide_eq_false_2; [reflexivity | exact Hne].
  - rewrite (Hooks_load_Up D render st updated id _ Hrow'). cbn [fst].
    eexists. split; [reflexivity|]. split; [reflexivity|].
    intros k. rewrite built_tables. reflexivity.
  - rewrite (Part002_load_Up D st updated id _ Hrow'). cbn [fst].
    eexists. split; [reflexivity|]. split; [reflexivity|].
    intros k. rewrite built_tables. reflexivity.
Qed.

Lemma updateSettings_then_refresh_witness :
  let updated := Hooks.updateSettings busyRemote "e1" widerSettings in
  Part002.updateSettings (Some busyRemote) "e1" widerSettings = Some updated
  /\ Remote.calls updated = Remote.calls busyRemote
  /\ (forall e, e ∈ Remote.establishments busyRemote -> DBEstablishment.id e <> "e1" ->
                e ∈ Remote.establishments updated)
  /\ (exists e,
        (Hooks.loadEstablishmentData scenarioSettings ownerState Up (Some updated) "e1"
           ownerState).1 = Some e
        /\ Establishment.settings e = widerSettings
        /\ forall k, Establishment.tables e !! k
                     = groupedTable (activeRowsOf "e1" busyRemote)
                         (if bool_decide (Settings.totalTables widerSettings = 0)
                          then Settings.totalTables scenarioSettings
                          else Settings.totalTables widerSettings) k)
  /\ (exists e,
        (Part002.loadEstablishmentData scenarioSettings (Some updated) "e1" ownerState).1
        = Some e
        /\ Establishment.settings e = widerSettings
        /\ forall k, Establishment.tables e !! k
                     = groupedTable (rowsOf "e1" busyRemote)
                         (if bool_decide (Settings.totalTables widerSettings = 0)
                          then Settings.totalTables scenarioSettings
                          else Settings.totalTables widerSettings) k).
Proof.
  apply (updateSettings_then_refresh scenarioSettings ownerState ownerState busyRemote
           (cantinaRow true 2) "e1" widerSettings).
  reflexivity.
Defined.

(** *** The two refreshes compared *)

Lemma filter_ext_elem {A} (P Q : A -> Prop) `{!forall x, Decision (P x)}
    `{!forall x, Decision (Q x)} (l : list A) :
  (forall x, x ∈ l -> P x <-> Q x) -> filter P l = filter Q l.
Proof.
  induction l as [|x l IH]; intros Hpq; [reflexivity|].
  rewrite !filter_cons, IH by (intros y Hy; apply Hpq; right; exact Hy).
  destruct (decide (P x)) as [Hp|Hp].
  - rewrite decide_True by (apply Hpq; [left | exact Hp]). reflexivity.
  - rewrite decide_False; [reflexivity|]. intros Hq. apply Hp, Hpq; [left | exact Hq].
Qed.

(** When every call of the establishment is SENT or VIEWED, the successful
    refreshes of the two hooks build the same table map; they differ only in
    [isOpen], which [part_002] leaves unset. *)
Theorem refreshes_agree_on_active_store (D : Settings.t) (render st : State.t)
    (sb : Remote.t) (estId : string) (est : DBEstablishment.t) :
  filter (fun e => DBEstablishment.id e = estId) (Remote.establishments sb) = [est] ->
  (forall c, c ∈ Remote.calls sb -> DBCall.establishment_id c = estId -> activeRow c) ->
  exists e1 e2,
    (Hooks.loadEstablishmentData D render Up (Some sb) estId st).1 = Some e1
    /\ (Part002.loadEstablishmentData D (Some sb) estId st).1 = Some e2
    /\ Establishment.tables e1 = Establishment.tables e2
    /\ Establishment.settings e1 = Establishment.settings e2
    /\ Establishment.isOpen e1 = Some (DBEstablishment.is_open est)
    /\ Establishment.isOpen e2 = None.
Proof.
  intros Hrow Hact.
  rewrite (Hooks_load_Up D render st sb estId est Hrow),
          (Part002_load_Up D st sb estId est Hrow).
  eexists. eexists. split; [reflexivity|]. split; [reflexivity|].
  split; [|repeat split].
  unfold builtEstablishment. cbn [Establishment.tables].
  replace (activeRowsOf estId sb) with (rowsOf estId sb); [reflexivity|].
  unfold rowsOf, activeRowsOf. apply filter_ext_elem.
  intros c Hc. split; [|tauto]. intros He. split; [exact He | exact (Hact c Hc He)].
Qed.

Lemma refreshes_agree_on_active_store_witness :
  exists e1 e2,
    (Hooks.loadEstablishmentData scenarioSettings ownerState Up (Some busyRemote) "e1"
       ownerState).1 = Some e1
    /\ (Part002.loadEstablishmentData scenarioSettings (Some busyRemote) "e1"
          ownerState).1 = Some e2
    /\ Establishment.tables e1 = Establishment.tables e2
    /\ Establishment.settings e1 = Establishment.settings e2
    /\ Establishment.isOpen e1 = Some (DBEstablishment.is_open (cantinaRow true 2))
    /\ Establishment.isOpen e2 = None.
Proof.
  apply (refreshes_agree_on_active_store scenarioSettings ownerState ownerState
           busyRemote "e1" (cantinaRow true 2)).
  - reflexivity.
  - intros c Hc _. simpl in Hc.
    repeat (apply elem_of_cons in Hc as [->|Hc]); try (left; reflexivity);
      try (right; reflexivity).
    inversion Hc.
Defined.

(** *** Favourites *)

Lemma deleteFavorite_elem (sb : Remote.t) (u e : string) (p : string * string) :
  p ∈ Remote.customer_favorites (Remote.deleteFavorite u e sb)
  <-> p ∈ Remote.customer_favorites sb /\ p <> (u, e).
Proof.
  unfold Remote.deleteFavorite. cbn [Remote.customer_favorites].
  rewrite list_elem_of_filter. destruct p as [a b]. cbn [fst snd]. split.
  - intros [Hn Hin]. split; [exact Hin|]. intros [= -> ->]. apply Hn. split; reflexivity.
  - intros [Hin Hn]. split; [|exact Hin]. intros [-> ->]. apply Hn. reflexivity.
Qed.

Lemma filter_length_le {A} (P : A -> Prop) `{!forall x, Decision (P x)} (l : list A) :
  (length (filter P l) <= length l)%nat.
Proof. apply sublist_length, sublist_filter. Qed.

Lemma filter_all {A} (P : A -> Prop) `{!forall x, Decision (P x)} (l : list A) :
  (forall x, x ∈ l -> P x) -> filter P l = l.
Proof.
  induction l as [|x l IH]; intros Hall; [reflexivity|].
  rewrite filter_cons, decide_True by (apply Hall; left).
  rewrite IH by (intros y Hy; apply Hall; right; exact Hy). reflexivity.
Qed.

Lemma favoritesOf_delete (sb : Remote.t) (u e who : string) :
  Remote.favoritesOf who (Remote.deleteFavorite u e sb)
  = filter (fun f => ~ (f.1 = u /\ f.2 = e)) (Remote.favoritesOf who sb).
Proof.
  unfold Remote.favoritesOf, Remote.deleteFavorite. cbn [Remote.customer_favorites].
  rewrite !list_filter_filter. apply list_filter_iff. intros p. tauto.
Qed.

Lemma filter_length_lt {A} (P : A -> Prop) `{!forall x, Decision (P x)} (l : list A)
    (x : A) :
  x ∈ l -> ~ P x -> (length (filter P l) < length l)%nat.
Proof.
  induction l as [|y l IH]; intros Hx Hn; [inversion Hx|].
  rewrite filter_cons. pose proof (filter_length_le P l).
  apply elem_of_cons in Hx as [->|Hx].
  - rewrite decide_False by exact Hn. simpl. lia.
  - specialize (IH Hx Hn). destruct (decide (P y)); simpl; lia.
Qed.

(** [unfavoriteEstablishment] removes the pair and nothing else, a second
    run changes nothing, nobody's number of favourites grows, and removing a
    favourite that [favoriteEstablishment] of [src/hooks] has just added to a
    store without it gives the store back; [part_002] issues the same
    delete. *)
Theorem unfavorite_effect (sb : Remote.t) (uid estId : string) :
  let removed := Hooks.unfavoriteEstablishment sb uid estId in
  (forall p, p ∈ Remote.customer_favorites removed
             <-> p ∈ Remote.customer_favorites sb /\ p <> (uid, estId))
  /\ Hooks.unfavoriteEstablishment removed uid estId = removed
  /\ (forall who, (length (Remote.favoritesOf who removed)
                   <= length (Remote.favoritesOf who sb))%nat)
  /\ ((uid, estId) ∉ Remote.customer_favorites sb ->
      Hooks.unfavoriteEstablishment (Hooks.favoriteEstablishment sb uid estId).1 uid estId
      = sb)
  /\ Part002.unfavoriteEstablishment (Some sb) uid estId = Some removed.
Proof.
  intros removed. split; [|split; [|split; [|split]]].
  - intros p. apply deleteFavorite_elem.
  - unfold removed, Hooks.unfavoriteEstablishment, Remote.deleteFavorite.
    cbn [Remote.customer_favorites Remote.establishments Remote.calls]. f_equal.
    rewrite list_filter_filter. apply list_filter_iff. intros p. tauto.
  - intros who. unfold removed, Hooks.unfavoriteEstablishment.
    rewrite favoritesOf_delete. apply filter_length_le.
  - intros Hnew. unfold Hooks.favoriteEstablishment, Remote.insertFavorite.
    rewrite bool_decide_eq_false_2 by exact Hnew. cbn [fst].
    unfold Hooks.unfavoriteEstablishment, Remote.deleteFavorite.
    cbn [Remote.customer_favorites Remote.establishments Remote.calls].
    destruct sb as [ests calls favs]. cbn [Remote.customer_favorites Remote.establishments
      Remote.calls] in *. f_equal.
    rewrite filter_app, filter_cons, decide_False, filter_nil, app_nil_r
      by (cbn; intros Hn; apply Hn; split; reflexivity).
    apply filter_all. intros [a b] Hp. cbn [fst snd].
    intros [-> ->]. exact (Hnew Hp).
  - reflexivity.
Qed.

(** In [part_002] removing a favourite frees a slot: for a customer with at
    most three favourites, one of them removed, adding an establishment does
    not throw the limit error. *)
Theorem Part002_unfavorite_frees_slot (sb : Remote.t) (userId old new : string) :
  (length (Remote.favoritesOf userId sb) <= 3)%nat ->
  (userId, old) ∈ Remote.customer_favorites sb ->
  forall removed, Part002.unfavoriteEstablishment (Some sb) userId old = Some removed ->
  (Part002.favoriteEstablishment removed userId new).2 = Returned
  /\ (userId, new) ∈ Remote.customer_favorites
                       (Part002.favoriteEstablishment removed userId new).1.
Proof.
  intros Hlen Hold removed [= <-].
  assert (length (Remote.favoritesOf userId (Remote.deleteFavorite userId old sb)) < 3)%nat
    as Hlt.
  { rewrite favoritesOf_delete.
    assert ((userId, old) ∈ Remote.favoritesOf userId sb) as Hin
        by (apply list_elem_of_filter; split; [reflexivity | exact Hold]).
    pose proof (filter_length_lt (fun f : string * string => ~ (f.1 = userId /\ f.2 = old))
                  _ _ Hin) as Hd.
    specialize (Hd ltac:(cbn; tauto)). lia. }
  destruct (decide ((userId, new) ∈ Remote.customer_favorites
                                      (Remote.deleteFavorite userId old sb))) as [Hin|Hout].
  - rewrite (Part002_favorite_duplicate _ _ _ Hlt Hin). split; [reflexivity | exact Hin].
  - rewrite (Part002_favorite_new _ _ _ Hlt Hout). split; [reflexivity|].
    cbn [fst Remote.customer_favorites]. apply elem_of_app. right. left.
Qed.

Lemma Part002_unfavorite_frees_slot_witness :
  (Part002.favoriteEstablishment (Remote.deleteFavorite "u9" "e2" threeFavorites)
     "u9" "e4").2 = Returned
  /\ ("u9", "e4") ∈ Remote.customer_favorites
                      (Part002.favoriteEstablishment
                         (Remote.deleteFavorite "u9" "e2" threeFavorites) "u9" "e4").1.
Proof.
  apply (Part002_unfavorite_frees_slot threeFavorites "u9" "e2" "e4").
  - vm_compute. lia.
  - right; left.
  - reflexivity.
Defined.

(** *** [viewAllCallsForTable] of [part_002] *)

Lemma filter_fmap {A B} (P : B -> Prop) `{!forall x, Decision (P x)} (f : A -> B)
    (l : list A) :
  filter P (f <$> l) = f <$> filter (fun x => P (f x)) l.
Proof.
  induction l as [|x l IH]; [reflexivity|].
  rewrite fmap_cons, !filter_cons, IH. destruct (decide (P (f x))); reflexivity.
Qed.

Lemma cached_SENT_ids (sb : Remote.t) (estId tableNum : string) :
  filter (fun c => bool_decide (Call.status c = SENT) = true)
         (toCall <$> filter (fun c => DBCall.table_number c = tableNum) (rowsOf estId sb))
  = toCall <$> filter (fun c => DBCall.establishment_id c = estId
                                /\ DBCall.table_number c = tableNum
                                /\ DBCall.status c = SENT) (Remote.calls sb).
Proof.
  rewrite filter_fmap. f_equal. unfold rowsOf. rewrite !list_filter_filter.
  apply list_filter_iff. intros c. cbn [toCall Call.status].
  rewrite bool_decide_eq_true. tauto.
Qed.

(** When the render caches what a refresh of [part_002] has just built from
    the store, [viewAllCallsForTable] of [part_002], which picks the calls
    from the cache, writes exactly what [viewAllCallsForTable] of
    [src/hooks], which picks them from the store, writes. *)
Theorem Part002_view_agrees_on_fresh_cache (D : Settings.t) (render st : State.t)
    (sb : Remote.t) (est : DBEstablishment.t) (estId tableNum : string) :
  filter (fun e => DBEstablishment.id e = estId) (Remote.establishments sb) = [est] ->
  State.establishments render !! estId
  = (Part002.loadEstablishmentData D (Some sb) estId st).1 ->
  Part002.viewAllCallsForTable render (Some sb) estId tableNum
  = Some (Hooks.viewAllCallsForTable sb estId tableNum).
Proof.
  intros Hrow Hcache. rewrite (Part002_load_Up D st sb estId est Hrow) in Hcache.
  cbn [fst] in Hcache.
  unfold Part002.viewAllCallsForTable, Part002.updateCallsByPredicate,
    Hooks.viewAllCallsForTable.
  rewrite Hcache, built_tables. f_equal.
  pose proof (cached_SENT_ids sb estId tableNum) as Hids.
  unfold groupedTable.
  destruct (filter (fun c => DBCall.table_number c = tableNum) (rowsOf estId sb))
    as [|r rows] eqn:Hgroup.
  - assert (filter (fun c => DBCall.establishment_id c = estId
                             /\ DBCall.table_number c = tableNum
                             /\ DBCall.status c = SENT) (Remote.calls sb) = []) as ->.
    { symmetry in Hids. simpl in Hids. apply fmap_nil_inv in Hids. exact Hids. }
    simpl. destruct (decide _); reflexivity.
  - cbn [fmap list_fmap Table.calls] in *. change (toCall r :: list_fmap _ _ toCall rows)
      with (toCall <$> r :: rows) in *.
    rewrite Hids.
    destruct (filter _ (Remote.calls sb)) as [|d data]; [reflexivity|].
    cbn [fmap list_fmap]. f_equal.
    change (Call.id (toCall d) :: list_fmap _ _ Call.id (list_fmap _ _ toCall data))
      with (Call.id <$> (toCall <$> d :: data)).
    rewrite <- list_fmap_compose. reflexivity.
Qed.

Lemma Part002_view_agrees_on_fresh_cache_witness :
  Part002.viewAllCallsForTable refreshedState (Some busyRemote) "e1" "5"
  = Some (Hooks.viewAllCallsForTable busyRemote "e1" "5").
Proof.
  apply (Part002_view_agrees_on_fresh_cache scenarioSettings refreshedState ownerState
           busyRemote (cantinaRow true 2) "e1" "5").
  - reflexivity.
  - vm_compute. reflexivity.
Defined.

(** With a stale cache the two differ: the cache still shows call ["c2"] as
    SENT, the store has it ATTENDED, and [part_002] sets it back to VIEWED. *)
Example Part002_view_with_stale_cache :
  let stale := State.mk None
                 {[ "e1" := Establishment.mk "e1" "u1" "Cantina" "" "" ""
                              scenarioSettings
                              {[ "5" := Table.mk "5" [Call.mk "c2" "WAITER" SENT 100] ]}
                              [] None ]} ∅ false in
  (fun sb => DBCall.status <$> Remote.calls sb)
    <$> Part002.viewAllCallsForTable stale (Some halfDoneRemote) "e1" "5"
  = Some [SENT; VIEWED].
Proof. vm_compute. reflexivity. Qed.

(** ** The polling cycle *)

Lemma sendHeartbeat_frame (net : Net) (r : Remote.t) (estId : string) :
  exists r', Hooks.sendHeartbeat net (Some r) estId = Some r'
             /\ Remote.calls r' = Remote.calls r
             /\ Remote.customer_favorites r' = Remote.customer_favorites r
             /\ (r' = r
                 \/ r' = Remote.updateEstablishments (DBEstablishment.withIsOpen true)
                           (fun e => bool_decide (DBEstablishment.id e = estId)) r).
Proof.
  unfold Hooks.sendHeartbeat. destruct net; eexists; (split; [reflexivity|]);
    repeat split; auto.
Qed.

(** The only write a polling cycle ever sends to the remote store is
    [is_open = true] on the rows whose id is the [establishmentId] of the
    session user, and only for a user with role ESTABLISHMENT: calls and
    favourites are never written, and without a client nothing is. *)
Theorem cycle_writes_only_the_heartbeat (D : Settings.t) (render : State.t) (net : Net)
    (sb : option Remote.t) (st : State.t) :
  match sb with
  | None => (Hooks.cycle D render net sb st).1 = None
  | Some r =>
      exists r',
        (Hooks.cycle D render net sb st).1 = Some r'
        /\ Remote.calls r' = Remote.calls r
        /\ Remote.customer_favorites r' = Remote.customer_favorites r
        /\ (r' = r
            \/ exists u estId,
                State.currentUser render = Some u
                /\ User.role u = ESTABLISHMENT
                /\ User.establishmentId u = Some estId
                /\ r' = Remote.updateEstablishments (DBEstablishment.withIsOpen true)
                          (fun e => bool_decide (DBEstablishment.id e = estId)) r)
  end.
Proof.
  unfold Hooks.cycle, Hooks.cycle_start.
  destruct (State.isUpdating render).
  { destruct sb as [r|]; [|reflexivity]. exists r. repeat split; auto. }
  destruct (Hooks.cycle_body D render net sb (setIsUpdating true st)) as [sb' st'] eqn:Hbody.
  cbn [fst]. unfold Hooks.cycle_body in Hbody.
  destruct (State.currentUser render) as [u|] eqn:Hu.
  2:{ injection Hbody as <- _. destruct sb as [r|]; [|reflexivity].
      exists r. repeat split; auto. }
  destruct (User.role u) eqn:Hr.
  - destruct (User.establishmentId u) as [estId|] eqn:He.
    + injection Hbody as <- _. destruct sb as [r|]; [|reflexivity].
      destruct (sendHeartbeat_frame net r estId) as (r' & -> & Hc & Hf & Hcases).
      exists r'. split; [reflexivity|]. split; [exact Hc|]. split; [exact Hf|].
      destruct Hcases as [->| ->]; [left; reflexivity|].
      right. exists u, estId. repeat split; assumption.
    + destruct sb as [r|].
      * assert (sb' = Some r) as ->.
        { destruct net; try (injection Hbody as <- _; reflexivity);
            (destruct (maybeSingle _) as [|[est|] err];
             injection Hbody as <- _; reflexivity). }
        exists r. repeat split; auto.
      * injection Hbody as <- _. reflexivity.
  - assert (sb' = sb) as ->.
    { destruct (State.customerProfiles render !! User.id u);
        injection Hbody as <- _; reflexivity. }
    destruct sb as [r|]; [|reflexivity]. exists r. repeat split; auto.
  - injection Hbody as <- _. destruct sb as [r|]; [|reflexivity].
    exists r. repeat split; auto.
Qed.

Lemma foldl_load_other (D : Settings.t) (render : State.t) (net : Net)
    (sb : option Remote.t) (ids : list string) (st : State.t) (k : string) :
  k ∉ ids ->
  State.establishments
    (foldl (fun st id => (Hooks.loadEstablishmentData D render net sb id st).2) st ids)
  !! k
  = State.establishments st !! k.
Proof.
  revert st. induction ids as [|i ids IH]; intros st Hk; [reflexivity|].
  apply not_elem_of_cons in Hk as [Hne Hk].
  change (foldl ?f st (i :: ids)) with (foldl f (f st i) ids). cbn beta.
  rewrite IH by exact Hk.
  destruct (Hooks_load_state D render net sb i st) as [->|[e ->]]; [reflexivity|].
  cbn [setEstablishments State.establishments]. apply lookup_insert_ne. congruence.
Qed.

Lemma foldl_load_cached (D : Settings.t) (render : State.t) (r : Remote.t)
    (ids : list string) (st : State.t) (id : string) (est : DBEstablishment.t) :
  id ∈ ids ->
  filter (fun e => DBEstablishment.id e = id) (Remote.establishments r) = [est] ->
  State.establishments
    (foldl (fun st id => (Hooks.loadEstablishmentData D render Up (Some r) id st).2) st ids)
  !! id
  = Some (builtEstablishment D est (activeRowsOf id r) (Some (DBEstablishment.is_open est))).
Proof.
  intros Hin Hrow. revert st. induction ids as [|i ids IH]; intros st; [inversion Hin|].
  change (foldl ?f st (i :: ids)) with (foldl f (f st i) ids). cbn beta.
  destruct (decide (id ∈ ids)) as [Hrest|Hrest]; [apply IH, Hrest|].
  apply elem_of_cons in Hin as [<-|Hin]; [|contradiction].
  rewrite foldl_load_other by exact Hrest.
  rewrite (Hooks_load_Up D render st r id est Hrow).
  cbn [snd setEstablishments State.establishments]. apply lookup_insert_eq.
Qed.

(** The cycle of a customer session takes the list of favourites from the
    [customerProfiles] binding of the render that created the polling effect,
    not from the hook state. When that binding has no profile for the user,
    as in a first session, where the profile is loaded after the effect was
    created, the cycle refreshes nothing. When it has one, the favourites are
    loaded one by one: on an answering remote every listed id whose row
    exists ends up in the cache with the aggregate built from the store,
    whatever happens with the other ids, and the entries of unlisted ids are
    left alone. In both cases the remote store is left as it was and the flag
    is released. *)
Theorem customer_cycle_reads_profile_of_its_render (D : Settings.t) (render st : State.t)
    (r : Remote.t) (u : User.t) :
  State.isUpdating render = false ->
  State.currentUser render = Some u ->
  User.role u = CUSTOMER ->
  (Hooks.cycle D render Up (Some r) st).1 = Some r
  /\ State.isUpdating (Hooks.cycle D render Up (Some r) st).2 = false
  /\ match State.customerProfiles render !! User.id u with
     | None => Hooks.cycle D render Up (Some r) st = (Some r, setIsUpdating false st)
     | Some profile =>
         (forall id est,
             id ∈ CustomerProfile.favoritedEstablishmentIds profile ->
             filter (fun e => DBEstablishment.id e = id) (Remote.establishments r) = [est] ->
             State.establishments (Hooks.cycle D render Up (Some r) st).2 !! id
             = Some (builtEstablishment D est (activeRowsOf id r)
                       (Some (DBEstablishment.is_open est))))
         /\ (forall id,
               id ∉ CustomerProfile.favoritedEstablishmentIds profile ->
               State.establishments (Hooks.cycle D render Up (Some r) st).2 !! id
               = State.establishments st !! id)
     end.
Proof.
  intros Hg Hu Hr.
  unfold Hooks.cycle, Hooks.cycle_start, Hooks.cycle_body, Hooks.cycle_settles.
  rewrite Hg, Hu, Hr.
  destruct (State.customerProfiles render !! User.id u) as [profile|].
  - cbn [fst snd Hooks.cycle_finish setIsUpdating State.isUpdating State.establishments].
    split; [reflexivity|]. split; [reflexivity|]. split.
    + intros id est Hin Hrow. apply foldl_load_cached; assumption.
    + intros id Hout. rewrite foldl_load_other by exact Hout. reflexivity.
  - destruct st. repeat split.
Qed.

(** A first session: the render of the effect has no profile, the hook state
    has since received it, and the cycle refreshes none of the favourites. *)
Lemma customer_cycle_reads_profile_of_its_render_witness :
  (Hooks.cycle scenarioSettings customerFirstRender Up (Some busyRemote) customerState).1
  = Some busyRemote
  /\ State.isUpdating
       (Hooks.cycle scenarioSettings customerFirstRender Up (Some busyRemote)
          customerState).2
     = false
  /\ match State.customerProfiles customerFirstRender !! User.id customerUser with
     | None =>
         Hooks.cycle scenarioSettings customerFirstRender Up (Some busyRemote) customerState
         = (Some busyRemote, setIsUpdating false customerState)
     | Some profile =>
         (forall id est,
             id ∈ CustomerProfile.favoritedEstablishmentIds profile ->
             filter (fun e => DBEstablishment.id e = id) (Remote.establishments busyRemote)
             = [est] ->
             State.establishments
               (Hooks.cycle scenarioSettings customerFirstRender Up (Some busyRemote)
                  customerState).2 !! id
             = Some (builtEstablishment scenarioSettings est (activeRowsOf id busyRemote)
                       (Some (DBEstablishment.is_open est))))
         /\ (forall id,
               id ∉ CustomerProfile.favoritedEstablishmentIds profile ->
               State.establishments
                 (Hooks.cycle scenarioSettings customerFirstRender Up (Some busyRemote)
                    customerState).2 !! id
               = State.establishments customerState !! id)
     end.
Proof.
  apply (customer_cycle_reads_profile_of_its_render scenarioSettings customerFirstRender
           customerState busyRemote customerUser); reflexivity.
Defined.

(** The two sessions side by side on the store of the example: with the
    profile in the hook state only, ["e1"] is not cached; with the profile in
    the render of the effect, it is. *)
Example customer_cycle_first_and_later_session :
  State.establishments
    (Hooks.cycle scenarioSettings customerFirstRender Up (Some busyRemote) customerState).2
  !! "e1" = None
  /\ is_Some (State.establishments
                (Hooks.cycle scenarioSettings customerState Up (Some busyRemote)
                   customerState).2
              !! "e1").
Proof. split; vm_compute; eauto. Qed.

(** The cycle of an owner session that does not know its establishment yet:
    when exactly one establishment row names the user as owner, the cycle
    stores its id in the session user of the hook state and caches its
    aggregate, and sends nothing to the remote store. *)
Theorem owner_cycle_finds_establishment (D : Settings.t) (render st : State.t)
    (r : Remote.t) (u v : User.t) (est : DBEstablishment.t) :
  State.isUpdating render = false ->
  State.currentUser render = Some u ->
  User.role u = ESTABLISHMENT ->
  User.establishmentId u = None ->
  filter (fun e => DBEstablishment.owner_id e = User.id u) (Remote.establishments r)
  = [est] ->
  filter (fun e => DBEstablishment.id e = DBEstablishment.id est)
         (Remote.establishments r) = [est] ->
  State.currentUser st = Some v ->
  (Hooks.cycle D render Up (Some r) st).1 = Some r
  /\ State.currentUser (Hooks.cycle D render Up (Some r) st).2
     = Some (withEstablishmentId (DBEstablishment.id est) v)
  /\ State.establishments (Hooks.cycle D render Up (Some r) st).2
     !! DBEstablishment.id est
     = Some (builtEstablishment D est (activeRowsOf (DBEstablishment.id est) r)
               (Some (DBEstablishment.is_open est)))
  /\ State.isUpdating (Hooks.cycle D render Up (Some r) st).2 = false.
Proof.
  intros Hg Hu Hr He Hown Hrow Hv.
  unfold Hooks.cycle, Hooks.cycle_start, Hooks.cycle_body, Hooks.cycle_settles.
  rewrite Hg, Hu, Hr, He, Hown.
  cbn [maybeSingle]. rewrite (Hooks_load_Up D render _ r _ est Hrow).
  cbn [fst snd Hooks.cycle_finish setIsUpdating setEstablishments setCurrentUser
       State.isUpdating State.establishments State.currentUser].
  rewrite Hv. split; [reflexivity|]. split; [reflexivity|].
  split; [apply lookup_insert_eq | reflexivity].
Qed.

Lemma owner_cycle_finds_establishment_witness :
  (Hooks.cycle scenarioSettings newOwnerState Up (Some busyRemote) newOwnerState).1
  = Some busyRemote
  /\ State.currentUser
       (Hooks.cycle scenarioSettings newOwnerState Up (Some busyRemote) newOwnerState).2
     = Some (withEstablishmentId (DBEstablishment.id (cantinaRow true 2)) newOwnerUser)
  /\ State.establishments
       (Hooks.cycle scenarioSettings newOwnerState Up (Some busyRemote) newOwnerState).2
     !! DBEstablishment.id (cantinaRow true 2)
     = Some (builtEstablishment scenarioSettings (cantinaRow true 2)
               (activeRowsOf (DBEstablishment.id (cantinaRow true 2)) busyRemote)
               (Some (DBEstablishment.is_open (cantinaRow true 2))))
  /\ State.isUpdating
       (Hooks.cycle scenarioSettings newOwnerState Up (Some busyRemote) newOwnerState).2
     = false.
Proof.
  apply (owner_cycle_finds_establishment scenarioSettings newOwnerState newOwnerState
           busyRemote newOwnerUser newOwnerUser (cantinaRow true 2)); reflexivity.
Defined.

(** ** Phone numbers *)

Lemma sanitizePhone_digitsOnly (phone : string) : digitsOnly (Hooks.sanitizePhone phone).
Proof.
  induction phone as [|c rest IH]; simpl; [exact I|].
  destruct (Hooks.isDigit c) eqn:Hc; simpl; auto.
Qed.

Lemma sanitizePhone_fixes_digits (phone : string) :
  digitsOnly phone -> Hooks.sanitizePhone phone = phone.
Proof.
  induction phone as [|c rest IH]; simpl; [reflexivity|].
  intros [Hc Hrest]. rewrite Hc, IH by exact Hrest. reflexivity.
Qed.

Lemma sanitizePhone_idem (phone : string) :
  Hooks.sanitizePhone (Hooks.sanitizePhone phone) = Hooks.sanitizePhone phone.
Proof. apply sanitizePhone_fixes_digits, sanitizePhone_digitsOnly. Qed.

(** [sanitizePhone] keeps exactly the ASCII digits: its result has only
    digits, a string of digits is returned as it is, sanitising twice is
    sanitising once, the result is never longer, and it distributes over
    concatenation. *)
Theorem sanitizePhone_properties (phone other : string) :
  digitsOnly (Hooks.sanitizePhone phone)
  /\ (digitsOnly phone -> Hooks.sanitizePhone phone = phone)
  /\ Hooks.sanitizePhone (Hooks.sanitizePhone phone) = Hooks.sanitizePhone phone
  /\ (String.length (Hooks.sanitizePhone phone) <= String.length phone)%nat
  /\ Hooks.sanitizePhone (phone +:+ other)
     = Hooks.sanitizePhone phone +:+ Hooks.sanitizePhone other.
Proof.
  split; [apply sanitizePhone_digitsOnly|].
  split; [apply sanitizePhone_fixes_digits|].
  split; [apply sanitizePhone_idem|]. split.
  - induction phone as [|c rest IH]; simpl; [lia|].
    destruct (Hooks.isDigit c); simpl; lia.
  - induction phone as [|c rest IH]; simpl; [reflexivity|].
    destruct (Hooks.isDigit c); simpl; rewrite IH; reflexivity.
Qed.

(** On the phone of the example. *)
Example sanitizePhone_example : Hooks.sanitizePhone "(11) 99999-0000" = "11999990000".
Proof. reflexivity. Qed.

(** [searchEstablishmentByPhone] of [src/hooks] does not depend on how the
    phone is typed: the search for a phone and the search for its digits are
    the same. On a remote that does not answer it never returns, the lookup
    not being bounded by a timeout. When the lookup is answered and no row
    stores these digits it returns null and leaves the hook state alone, and
    when it is answered and one row does, it is the refresh of that
    establishment. *)
Theorem search_by_phone_ignores_formatting (D : Settings.t) (render : State.t)
    (net : Net) (sb : Remote.t) (phone : string) (st : State.t) :
  Hooks.searchEstablishmentByPhone D render net sb (Hooks.sanitizePhone phone) st
  = Hooks.searchEstablishmentByPhone D render net sb phone st
  /\ (Hooks.searchEstablishmentByPhone D render net sb phone st = None <-> net = Slow)
  /\ (net <> Slow ->
      (forall e, e ∈ Remote.establishments sb ->
                 DBEstablishment.phone e <> Hooks.sanitizePhone phone) ->
      Hooks.searchEstablishmentByPhone D render net sb phone st = Some (None, st))
  /\ (forall data,
        filter (fun e => DBEstablishment.phone e = Hooks.sanitizePhone phone)
               (Remote.establishments sb) = [data] ->
        Hooks.searchEstablishmentByPhone D render Up sb phone st
        = Some (Hooks.loadEstablishmentData D render Up (Some sb)
                  (DBEstablishment.id data) st)).
Proof.
  split; [|split; [|split]].
  - unfold Hooks.searchEstablishmentByPhone. rewrite sanitizePhone_idem. reflexivity.
  - unfold Hooks.searchEstablishmentByPhone.
    destruct net; try (split; [discriminate|discriminate]);
      try (destruct (maybeSingle _) as [|[data|] err]; split; discriminate).
    split; reflexivity.
  - intros Hnet Hnone. unfold Hooks.searchEstablishmentByPhone.
    destruct net; try reflexivity; try contradiction;
      rewrite (proj2 (filter_nil_iff _ _) (fun e He Hp => Hnone e He Hp)); reflexivity.
  - intros data Hone. unfold Hooks.searchEstablishmentByPhone. rewrite Hone. reflexivity.
Qed.

(** [searchEstablishmentByPhone] of [part_002] loads the establishment it
    finds into the hook state, but what it returns is read from the
    [establishments] of its render: the aggregate cached before the call, and
    nothing when the establishment was not cached yet. *)
Theorem Part002_search_returns_the_cached_value (D : Settings.t) (render st : State.t)
    (sb : Remote.t) (phone : string) (data : DBEstablishment.t) :
  filter (fun e => DBEstablishment.phone e = phone) (Remote.establishments sb) = [data] ->
  filter (fun e => DBEstablishment.id e = DBEstablishment.id data)
         (Remote.establishments sb) = [data] ->
  (Part002.searchEstablishmentByPhone D render (Some sb) phone st).1
  = State.establishments render !! DBEstablishment.id data
  /\ State.establishments (Part002.searchEstablishmentByPhone D render (Some sb) phone st).2
     !! DBEstablishment.id data
     = Some (builtEstablishment D data (rowsOf (DBEstablishment.id data) sb) None).
Proof.
  intros Hphone Hrow. unfold Part002.searchEstablishmentByPhone. rewrite Hphone.
  cbn [fst snd]. split; [reflexivity|].
  rewrite (Part002_load_Up D st sb _ data Hrow).
  cbn [snd setEstablishments State.establishments]. apply lookup_insert_eq.
Qed.

Lemma Part002_search_returns_the_cached_value_witness :
  (Part002.searchEstablishmentByPhone scenarioSettings ownerState (Some busyRemote)
     "11999990000" ownerState).1
  = State.establishments ownerState !! DBEstablishment.id (cantinaRow true 2)
  /\ State.establishments
       (Part002.searchEstablishmentByPhone scenarioSettings ownerState (Some busyRemote)
          "11999990000" ownerState).2
     !! DBEstablishment.id (cantinaRow true 2)
     = Some (builtEstablishment scenarioSettings (cantinaRow true 2)
               (rowsOf (DBEstablishment.id (cantinaRow true 2)) busyRemote) None).
Proof.
  apply (Part002_search_returns_the_cached_value scenarioSettings ownerState ownerState
           busyRemote "11999990000" (cantinaRow true 2)); reflexivity.
Defined.
